(** * CampusCompanion AI service: intent router, responders and voice adapter

    A shallow embedding of [python-ai-service] (agents/base_agent.py,
    agents/student_agents.py, agents/admin_agents.py,
    chatbot/intelligent_chatbot.py, chatbot/voice_assistant.py, main.py)
    and the properties its specification states about it, followed by
    further properties of the same code.

    Layout: Python text and values ([PyStr], [PyVal]); exceptions and the
    state-and-exception monad the [async def]s run in ([Py]); the document
    store and the external collaborators ([World]); then the program, module
    by module, in the order of the source files; then the theorems. *)

From Stdlib Require Import String Ascii.
From Stdlib Require Import List ZArith NArith QArith Bool Lia.
From Stdlib Require Import DecimalPos DecimalZ.
From Stdlib Require Import Permutation Sorted.
Import ListNotations.
Local Open Scope Z_scope.
Set Warnings "-register-all".

(* ===================================================================== *)
(** ** Python text *)
(* ===================================================================== *)

(** A Python [str] is a sequence of Unicode code points; [len], slicing,
    [in], [replace] and [split] all count and cut code points. *)
Module PyStr.

Definition char := N.
Definition str := list char.

(** Source literals are read from their UTF-8 bytes. *)
Fixpoint utf8_decode (bs : list N) : str :=
  match bs with
  | [] => []
  | b :: r =>
      if (b <? 128)%N then b :: utf8_decode r
      else if (b <? 224)%N then
        match r with
        | b1 :: r' => ((b - 192) * 64 + (b1 - 128))%N :: utf8_decode r'
        | _ => []
        end
      else if (b <? 240)%N then
        match r with
        | b1 :: b2 :: r' =>
            ((b - 224) * 4096 + (b1 - 128) * 64 + (b2 - 128))%N :: utf8_decode r'
        | _ => []
        end
      else
        match r with
        | b1 :: b2 :: b3 :: r' =>
            ((b - 240) * 262144 + (b1 - 128) * 4096 + (b2 - 128) * 64 + (b3 - 128))%N
              :: utf8_decode r'
        | _ => []
        end
  end.

Definition u (s : string) : str :=
  utf8_decode (map N_of_ascii (list_ascii_of_string s)).

Definition quote : str := [34%N].       (* the double quote character *)
Definition nl : str := [10%N].          (* chr(10) *)

Definition char_eqb : char -> char -> bool := N.eqb.

Fixpoint str_eqb (a b : str) : bool :=
  match a, b with
  | [], [] => true
  | x :: a', y :: b' => char_eqb x y && str_eqb a' b'
  | _, _ => false
  end.

(** [s.startswith(p)] *)
Fixpoint startswith (p s : str) : bool :=
  match p, s with
  | [], _ => true
  | x :: p', y :: s' => char_eqb x y && startswith p' s'
  | _ :: _, [] => false
  end.

(** [sub in s]: substring test. *)
Fixpoint str_in (sub s : str) : bool :=
  startswith sub s ||
  match s with
  | [] => false
  | _ :: s' => str_in sub s'
  end.

(** [str.lower] and [str.title] are the runtime's, with its Unicode
    tables (see [World]).  On a text of ASCII characters they are the
    functions below, which the example worlds use: A-Z are folded and the
    other characters are left as they are. *)
Definition lower_char (c : char) : char :=
  if ((65 <=? c) && (c <=? 90))%N then (c + 32)%N else c.
Definition upper_char (c : char) : char :=
  if ((97 <=? c) && (c <=? 122))%N then (c - 32)%N else c.
Definition is_alpha (c : char) : bool :=
  (((65 <=? c) && (c <=? 90)) || ((97 <=? c) && (c <=? 122)))%N.

Definition ascii_lower (s : str) : str := map lower_char s.

(** [s.title()] of an ASCII text: first letter of every run of letters in
    upper case, the rest of the run in lower case. *)
Fixpoint title_from (prev_alpha : bool) (s : str) : str :=
  match s with
  | [] => []
  | c :: r =>
      (if prev_alpha then lower_char c else upper_char c)
        :: title_from (is_alpha c) r
  end.
Definition ascii_title (s : str) : str := title_from false s.

(** [s.replace(old, new)]: occurrences of [old] are found left to right
    and do not overlap.  [skip] counts the characters of the occurrence
    being replaced that are still ahead. *)
Fixpoint replace_from (old new s : str) (skip : nat) : str :=
  match s with
  | [] => []
  | c :: r =>
      match skip with
      | S k => replace_from old new r k
      | O =>
          if startswith old s
          then new ++ replace_from old new r (Nat.pred (length old))
          else c :: replace_from old new r O
      end
  end.

Definition replace (old new s : str) : str :=
  match old with
  | [] => new ++ flat_map (fun c => c :: new) s
  | _ :: _ => replace_from old new s O
  end.

(** [str.isspace] per code point. *)
Definition is_space (c : char) : bool :=
  (((9 <=? c) && (c <=? 13)) || ((28 <=? c) && (c <=? 32))
   || (c =? 133) || (c =? 160) || (c =? 5760)
   || ((8192 <=? c) && (c <=? 8202)) || (c =? 8232) || (c =? 8233)
   || (c =? 8239) || (c =? 8287) || (c =? 12288))%N.

Fixpoint lstrip (s : str) : str :=
  match s with
  | c :: r => if is_space c then lstrip r else s
  | [] => []
  end.
Definition rstrip (s : str) : str := rev (lstrip (rev s)).
Definition strip (s : str) : str := rstrip (lstrip s).

(** [s.split()]: the maximal runs of non-blank characters.  [cur] is the
    run being read, reversed. *)
Fixpoint split_ws_from (cur : str) (s : str) : list str :=
  match s with
  | [] => match cur with [] => [] | _ => [rev cur] end
  | c :: r =>
      if is_space c
      then match cur with
           | [] => split_ws_from [] r
           | _ => rev cur :: split_ws_from [] r
           end
      else split_ws_from (c :: cur) r
  end.
Definition split_ws (s : str) : list str := split_ws_from [] s.

(** [s.split(sep)] for a non-empty separator. *)
Fixpoint split_on_from (sep : str) (cur : str) (s : str) (skip : nat) : list str :=
  match s with
  | [] => [rev cur]
  | c :: r =>
      match skip with
      | S k => split_on_from sep cur r k
      | O =>
          if startswith sep s
          then rev cur :: split_on_from sep [] r (Nat.pred (length sep))
          else split_on_from sep (c :: cur) r O
      end
  end.
Definition split_on (sep s : str) : list str := split_on_from sep [] s O.

(** [s.index(sub)] and [s.rindex(sub)], [None] standing for the
    ValueError of a missing substring. *)
Fixpoint index (sub s : str) : option nat :=
  if startswith sub s then Some O
  else match s with
       | [] => None
       | _ :: r => option_map S (index sub r)
       end.

Fixpoint rindex (sub s : str) : option nat :=
  match s with
  | [] => if startswith sub [] then Some O else None
  | _ :: r =>
      match rindex sub r with
      | Some i => Some (S i)
      | None => if startswith sub s then Some O else None
      end
  end.

(** [s[i:j]], [s[:n]] and [s[-n:]] for non-negative [i], [j], [n > 0]. *)
Definition slice {A} (i j : nat) (s : list A) : list A := firstn (j - i) (skipn i s).
Definition take {A} (n : nat) (s : list A) : list A := firstn n s.
Definition last_n {A} (n : nat) (s : list A) : list A := skipn (length s - n) s.

(** [int(s)] for a text of ASCII characters: blanks around the literal
    are dropped, a sign may lead, and single underscores may separate
    digits.  [int] also reads the decimal digits of other scripts; a text
    with such characters is left to the runtime ([int_literal], see
    [World]). *)
Definition digit_of (c : char) : option Z :=
  if ((48 <=? c) && (c <=? 57))%N then Some (Z.of_N c - 48) else None.

Fixpoint digits_from (acc : Z) (after_digit : bool) (s : str) : option Z :=
  match s with
  | [] => if after_digit then Some acc else None
  | c :: r =>
      match digit_of c with
      | Some d => digits_from (10 * acc + d) true r
      | None =>
          if (c =? 95)%N && after_digit then digits_from acc false r else None
      end
  end.

Definition int_of_str (s : str) : option Z :=
  match strip s with
  | 45%N :: r => option_map Z.opp (digits_from 0 false r)
  | 43%N :: r => digits_from 0 false r
  | t => digits_from 0 false t
  end.

(** [str(n)] for an [int]. *)
Fixpoint str_of_uint (d : Decimal.uint) : str :=
  match d with
  | Decimal.Nil => []
  | Decimal.D0 d => 48%N :: str_of_uint d
  | Decimal.D1 d => 49%N :: str_of_uint d
  | Decimal.D2 d => 50%N :: str_of_uint d
  | Decimal.D3 d => 51%N :: str_of_uint d
  | Decimal.D4 d => 52%N :: str_of_uint d
  | Decimal.D5 d => 53%N :: str_of_uint d
  | Decimal.D6 d => 54%N :: str_of_uint d
  | Decimal.D7 d => 55%N :: str_of_uint d
  | Decimal.D8 d => 56%N :: str_of_uint d
  | Decimal.D9 d => 57%N :: str_of_uint d
  end.

Definition str_of_Z (z : Z) : str :=
  match Z.to_int z with
  | Decimal.Pos d => str_of_uint d
  | Decimal.Neg d => 45%N :: str_of_uint d
  end.

Definition str_of_nat (n : nat) : str := str_of_Z (Z.of_nat n).

(** [sep.join(parts)] *)
Fixpoint join (sep : str) (parts : list str) : str :=
  match parts with
  | [] => []
  | [p] => p
  | p :: ps => p ++ sep ++ join sep ps
  end.

End PyStr.

Import PyStr.

(* ===================================================================== *)
(** ** Python values *)
(* ===================================================================== *)

(** Documents of the store, decoded JSON and the free-form parts of the
    envelopes are Python values.  A [dict] keeps its keys in insertion
    order; a [float] is kept as the rational it stands for. *)
Module PyVal.

Inductive Val :=
| VNone
| VBool (b : bool)
| VInt (z : Z)
| VFloat (q : Q)
| VStr (s : str)
| VList (l : list Val)
| VDict (d : list (str * Val)).

Definition dict := list (str * Val).

Fixpoint dict_get (d : dict) (k : str) : option Val :=
  match d with
  | [] => None
  | (k', v) :: r => if str_eqb k' k then Some v else dict_get r k
  end.

(** [d.get(k, default)] and [d.get(k)] *)
Definition get_or (d : dict) (k : str) (default : Val) : Val :=
  match dict_get d k with Some v => v | None => default end.
Definition get (d : dict) (k : str) : Val := get_or d k VNone.

(** [d[k] = v] *)
Fixpoint dict_set (d : dict) (k : str) (v : Val) : dict :=
  match d with
  | [] => [(k, v)]
  | (k', v') :: r => if str_eqb k' k then (k', v) :: r else (k', v') :: dict_set r k v
  end.

(** Truth value of [if v:] *)
Definition truthy (v : Val) : bool :=
  match v with
  | VNone => false
  | VBool b => b
  | VInt z => negb (z =? 0)
  | VFloat q => negb (Qeq_bool q 0)
  | VStr s => match s with [] => false | _ => true end
  | VList l => match l with [] => false | _ => true end
  | VDict d => match d with [] => false | _ => true end
  end.

(** [type(v).__name__], as error messages print it. *)
Definition type_name (v : Val) : str :=
  match v with
  | VNone => u"NoneType"
  | VBool _ => u"bool"
  | VInt _ => u"int"
  | VFloat _ => u"float"
  | VStr _ => u"str"
  | VList _ => u"list"
  | VDict _ => u"dict"
  end.

(** [v == "literal"] *)
Definition is_str (v : Val) (s : str) : bool :=
  match v with VStr t => str_eqb t s | _ => false end.

(** [repr(v)] and [str(v)] as an f-string prints them; [fr] prints a float.
    String escapes inside [repr] are not modelled. *)
Fixpoint py_repr (fr : Q -> str) (v : Val) : str :=
  match v with
  | VNone => u"None"
  | VBool true => u"True"
  | VBool false => u"False"
  | VInt z => str_of_Z z
  | VFloat q => fr q
  | VStr s => u"'" ++ s ++ u"'"
  | VList l => u"[" ++ join (u", ") (map (py_repr fr) l) ++ u"]"
  | VDict d =>
      u"{" ++ join (u", ")
                (map (fun kv : str * Val => let (k, x) := kv in u"'" ++ k ++ u"': " ++ py_repr fr x) d)
        ++ u"}"
  end.

Definition py_str (fr : Q -> str) (v : Val) : str :=
  match v with VStr s => s | _ => py_repr fr v end.

End PyVal.
Import PyVal.

(* ===================================================================== *)
(** ** Exceptions and the monad of an [async def] *)
(* ===================================================================== *)

Module Py.

Inductive exn_class :=
| ValueError | TypeError | AttributeError | KeyError | IndexError
| RuntimeError | NotImplementedError | ExternalError.

(** Every exception of the model derives from [Exception]; [str(e)] is
    its message. *)
Record exn := mk_exn { exn_kind : exn_class; exn_msg : str }.

Inductive result (A : Type) :=
| Ok (a : A)
| Raise (e : exn).
Arguments Ok {A} a.
Arguments Raise {A} e.

Section Monad.
Context {S : Type}.

(** A computation reads and writes the state and returns or raises;
    what it wrote before raising stays written. *)
Definition M (A : Type) := S -> result A * S.

Definition ret {A} (a : A) : M A := fun s => (Ok a, s).

Definition bind {A B} (m : M A) (k : A -> M B) : M B :=
  fun s => match m s with
           | (Ok a, s') => k a s'
           | (Raise e, s') => (Raise e, s')
           end.

Definition raise {A} (e : exn) : M A := fun s => (Raise e, s).

(** [try: m  except Exception as e: h e] *)
Definition try_except {A} (m : M A) (h : exn -> M A) : M A :=
  fun s => match m s with
           | (Ok a, s') => (Ok a, s')
           | (Raise e, s') => h e s'
           end.

Definition lift {A} (r : result A) : M A := fun s => (r, s).

Definition modify (f : S -> S) : M unit := fun s => (Ok tt, f s).

(** [[f(x) for x in l]] for an [f] with effects: left to right. *)
Fixpoint for_each {A B} (f : A -> M B) (l : list A) : M (list B) :=
  match l with
  | [] => ret []
  | x :: r => bind (f x) (fun y => bind (for_each f r) (fun ys => ret (y :: ys)))
  end.
End Monad.

Module Notations.
Notation "x <- m ;; k" := (bind m (fun x => k))
  (at level 61, m at next level, right associativity).
Notation "m ;;; k" := (bind m (fun _ => k))
  (at level 61, right associativity).
Notation "'try' m 'except' e => h" := (try_except m (fun e => h))
  (at level 61, m at level 61, e name, h at level 61).
End Notations.

End Py.
Import Py Py.Notations.

(* ===================================================================== *)
(** ** Data model *)
(* ===================================================================== *)

(** A [datetime] is its number of microseconds on the local,
    offset-free time line; a string printed by [isoformat()] is kept as
    the [datetime] it prints, which [fromisoformat] gives back.  The
    time line is not cut at the years 1 and 9999, where Python's
    additions raise OverflowError: the statements about computed dates
    are made for the clocks and durations whose dates lie in between
    ([plan_dates_representable]).  All dates are naive; a [dueDate] text
    that carries a UTC offset, which the source cannot compare with
    [datetime.now()], is outside the model. *)
Definition datetime := Z.
Definition timedelta (weeks days : Z) : Z := (weeks * 7 + days) * 86400000000.

(** One turn of a transcript, as [_save_to_history] writes it. *)
Record Turn := mkTurn {
  turn_role : str;
  turn_content : str;
  turn_timestamp : datetime }.

Record ConversationDoc := mkConversation {
  conv_user_id : str;
  conv_conversation_id : str;
  conv_messages : list Turn;
  conv_created_at : datetime;
  conv_updated_at : datetime }.

(** The plan [_create_study_plan] builds: a dict literal per task, phase
    and plan, with the keys below. *)
Record Task := mkTask {
  task_title : str;
  task_description : str;
  task_type : str;
  task_estimated_hours : Z;
  task_deadline : datetime;
  task_status : str;
  task_priority : str }.

Record Phase := mkPhase {
  phase_name : str;
  phase_order : Z;
  phase_duration : str;
  phase_start_date : datetime;
  phase_end_date : datetime;
  phase_tasks : list Task }.

Record StudyPlan := mkStudyPlan {
  plan_goal : str;
  plan_phases : list Phase;
  plan_total_duration : str;
  plan_key_topics : Val;
  plan_difficulty : Val;
  plan_created_at : datetime }.

(** A date as the document store keeps it and gives it back: BSON dates
    count milliseconds, the microseconds below are dropped on writing. *)
Definition bson_date (t : datetime) : datetime := t / 1000 * 1000.


Record PlanDoc := mkPlanDoc {
  pd_id : str;
  pd_userId : str;
  pd_planType : str;
  pd_goal : str;
  pd_status : str;
  pd_plan : StudyPlan;
  pd_materials : list dict;
  pd_createdAt : datetime;
  pd_updatedAt : datetime }.

Record LogDoc := mkLogDoc {
  log_agent_name : str;
  log_action_type : str;
  log_user_id : str;
  log_details : dict;
  log_timestamp : datetime }.

(** The [data] map of an envelope. *)
Inductive Data :=
| PlanData (plan_id : str) (study_plan : StudyPlan) (materials : list dict)
| DictData (d : dict).

(** The envelope of [BaseAgent.format_response]. *)
Record Envelope := mkEnvelope {
  env_success : bool;
  env_agent_name : str;
  env_response : str;
  env_actions_performed : list dict;
  env_analysis : option Val;
  env_data : option Data;
  env_recommendations : option Val;
  env_timestamp : datetime }.

(** What [IntelligentChatbot.process_message] returns; the failure shape
    has no [context] and no [actions_taken] key. *)
Record ChatEnvelope := mkChatEnvelope {
  chat_success : bool;
  chat_response : str;
  chat_conversation_id : option str;
  chat_context : option dict;
  chat_actions_taken : option (list dict);
  chat_timestamp : datetime }.

(** What [VoiceAssistant.process_voice_query] returns. *)
Record VoiceEnvelope := mkVoiceEnvelope {
  voice_success : bool;
  voice_response : str;
  voice_actions_taken : option (list dict);
  voice_enabled : bool;
  voice_timestamp : datetime }.

(* ===================================================================== *)
(** ** The document store and the collaborators *)
(* ===================================================================== *)

(** [database/mongodb_client.py]: the database handle and the collections
    the service touches.  [connected] tells whether [mongodb_client.db]
    holds a database object: it is [None] until [connect()] has assigned
    one.  [db_truth] is what the truth test [bool(db)] of that object
    answers, which is the driver's choice: the database objects of
    PyMongo 3 (and test doubles) are true, those of PyMongo 4 and Motor 3
    raise [NotImplementedError]. *)
Record DB := mkDB {
  connected : bool;
  db_truth : result bool;
  conversations : list ConversationDoc;
  users : list dict;
  courses : list dict;
  assignments : list dict;
  materials : list dict;
  events : list dict;
  helpdesks : list dict;
  agenticplans : list PlanDoc;
  agent_logs : list LogDoc }.

(** Writing one collection. *)
Definition with_conversations (v : list ConversationDoc) (d : DB) : DB :=
  mkDB (connected d) (db_truth d) v (users d) (courses d) (assignments d) (materials d)
       (events d) (helpdesks d) (agenticplans d) (agent_logs d).
Definition with_agenticplans (v : list PlanDoc) (d : DB) : DB :=
  mkDB (connected d) (db_truth d) (conversations d) (users d) (courses d) (assignments d)
       (materials d) (events d) (helpdesks d) v (agent_logs d).
Definition with_agent_logs (v : list LogDoc) (d : DB) : DB :=
  mkDB (connected d) (db_truth d) (conversations d) (users d) (courses d) (assignments d)
       (materials d) (events d) (helpdesks d) (agenticplans d) v.

Inductive AiType := openai | gemini | anthropic.

Record Msg := mkMsg { msg_role : str; msg_content : str }.

(** The three provider calls of the source. *)
Inductive LlmRequest :=
| OpenAIChat (messages : list Msg)
| GeminiGenerate (prompt : str)
| AnthropicMessages (system : str) (messages : list Msg).

(** Everything the service does not implement itself: its settings
    ([config.py]), the text-completion provider, the library functions
    [str.lower], [str.title], [int] on text outside ASCII, [json.loads],
    [datetime.fromisoformat], [strftime] and float printing, the wall
    clock (its successive
    readings), and the parts of the document server that are its own
    (regular expressions, fresh ids).  At most one completion is
    requested per call of the service. *)
Record World := mkWorld {
  OPENAI_API_KEY : option str;
  GEMINI_API_KEY : option str;
  ANTHROPIC_API_KEY : option str;
  ENABLE_CONVERSATION_MEMORY : bool;
  str_lower : str -> str;
  str_title : str -> str;
  int_literal : str -> result Z;
  llm : LlmRequest -> result str;
  json_loads : str -> result Val;
  fromisoformat : str -> result datetime;
  strftime : datetime -> str -> str;
  float_repr : Q -> str;
  format_1f : Q -> str;
  clock : nat -> datetime;
  utc_offset : Z;
  mongo_regex : str -> result (str -> bool);
  mongo_literal : str -> str -> bool;
  object_id : nat -> str }.

(** The state a call runs in: the store and the number of clock
    readings taken so far. *)
Record State := mkState { db : DB; ticks : nat }.

Definition set_db (f : DB -> DB) (s : State) : State :=
  mkState (f (db s)) (ticks s).

Module Runtime.
Section WithWorld.
Variable w : World.

(** [datetime.now()] and [datetime.utcnow()] *)
Definition now : M datetime :=
  fun s => (Ok (clock w (ticks s)), mkState (db s) (S (ticks s))).
Definition utcnow : M datetime :=
  fun s => (Ok (clock w (ticks s) - utc_offset w), mkState (db s) (S (ticks s))).

(** [int(d.timestamp())] of a local [datetime] *)
Definition epoch_seconds (d : datetime) : Z := Z.quot (d - utc_offset w) 1000000.

(** [MongoDBClient.get_collection]: [if not self.db: raise RuntimeError],
    where [not] tests the truth of the database object when there is
    one. *)
Definition get_collection {A} (collection : DB -> A) : M A :=
  fun s =>
    if connected (db s) then
      match db_truth (db s) with
      | Ok true => (Ok (collection (db s)), s)
      | Ok false => (Raise (mk_exn RuntimeError (u"Database not connected")), s)
      | Raise e => (Raise e, s)
      end
    else (Raise (mk_exn RuntimeError (u"Database not connected")), s).

(** An equality filter [{field: value}] on a string: the field is the
    value, or an array holding it. *)
Definition field_is (field value : str) (doc : dict) : bool :=
  match dict_get doc field with
  | Some (VStr s) => str_eqb s value
  | Some (VList l) => existsb (fun x => is_str x value) l
  | _ => false
  end.

Definition find_one {A} (p : A -> bool) (docs : list A) : option A := find p docs.

(** [cursor.to_list(length=n)] *)
Definition to_list {A} (n : nat) (docs : list A) : list A := firstn n docs.

(** [str(v)] inside an f-string *)
Definition fmt (v : Val) : str := py_str (float_repr w) v.

(** A literal in which [~] stands for the double quote. *)
Definition uq (s : string) : str := replace (u"~") quote (u s).

(** [await client.messages.create(...)] on the synchronous [Anthropic]
    client: the request is made, and [await] then raises on the message
    it returned. *)
Definition await_message {A} (reply : result str) : @M State A :=
  match reply with
  | Ok _ =>
      raise (mk_exn TypeError (u"object Message can't be used in 'await' expression"))
  | Raise e => raise e
  end.

Definition truthy_str (s : option str) : bool :=
  match s with Some (_ :: _) => true | _ => false end.

(** [_initialize_ai_client] / [_initialize_ai]: the first configured
    provider, in this order. *)
Definition ai_type : option AiType :=
  if truthy_str (OPENAI_API_KEY w) then Some openai
  else if truthy_str (GEMINI_API_KEY w) then Some gemini
  else if truthy_str (ANTHROPIC_API_KEY w) then Some anthropic
  else None.
End WithWorld.
End Runtime.
Import Runtime.

Definition PyM (A : Type) : Type := @M State A.

(* ===================================================================== *)
(** ** agents/base_agent.py *)
(* ===================================================================== *)

Module BaseAgent.

(** An agent is its two constructor arguments and the abstract method
    [get_fallback_response]; [process] is given per subclass below. *)
Record Agent := mkAgent {
  agent_name : str;
  agent_description : str;
  get_fallback_response : str -> str }.

(** Structural equality of stored values. *)
Fixpoint val_eqb (a b : Val) : bool :=
  match a, b with
  | VNone, VNone => true
  | VBool x, VBool y => Bool.eqb x y
  | VInt x, VInt y => x =? y
  | VFloat x, VFloat y => Qeq_bool x y
  | VStr x, VStr y => str_eqb x y
  | VList x, VList y =>
      (fix go (x y : list Val) : bool :=
         match x, y with
         | [], [] => true
         | a' :: x', b' :: y' => val_eqb a' b' && go x' y'
         | _, _ => false
         end) x y
  | VDict x, VDict y =>
      (fix go (x y : list (str * Val)) : bool :=
         match x, y with
         | [], [] => true
         | (k, a') :: x', (k', b') :: y' => str_eqb k k' && val_eqb a' b' && go x' y'
         | _, _ => false
         end) x y
  | _, _ => false
  end.

Section WithWorld.
Variable w : World.
Variable self : Agent.

Definition generate_ai_response (prompt : str) (system_prompt : option str) : PyM str :=
  try
    match ai_type w with
    | Some openai =>
        let messages :=
          (match system_prompt with
           | Some (c :: sp) => [mkMsg (u"system") (c :: sp)]
           | _ => []
           end) ++ [mkMsg (u"user") prompt] in
        lift (llm w (OpenAIChat messages))
    | Some gemini =>
        let full_prompt :=
          match system_prompt with
          | Some (c :: sp) => (c :: sp) ++ nl ++ nl ++ prompt
          | _ => prompt
          end in
        lift (llm w (GeminiGenerate full_prompt))
    | Some anthropic =>
        await_message (llm w (AnthropicMessages
                                (match system_prompt with Some sp => sp | None => [] end)
                                [mkMsg (u"user") prompt]))
    | None => ret (get_fallback_response self prompt)
    end
  except e => ret (get_fallback_response self prompt).

Definition fetch_user_data (user_id : str) : PyM dict :=
  try
    users <- get_collection users ;;
    match find_one (fun d => is_str (get d (u"_id")) user_id) users with
    | Some (kv :: user) => ret (kv :: user)
    | _ => ret []
    end
  except e => ret [].

Definition fetch_courses (user_id : str) : PyM (list dict) :=
  try
    user <- fetch_user_data user_id ;;
    let enrolled_course_ids := get_or user (u"enrolledCourses") (VList []) in
    courses <- get_collection courses ;;
    match enrolled_course_ids with
    | VList ids =>
        ret (to_list 100
               (filter (fun c => existsb (val_eqb (get c (u"_id"))) ids) courses))
    | _ => raise (mk_exn ExternalError (u"$in needs an array"))
    end
  except e => ret [].

Definition fetch_assignments (user_id : str) : PyM (list dict) :=
  try
    assignments <- get_collection assignments ;;
    ret (to_list 100 (filter (field_is (u"userId") user_id) assignments))
  except e => ret [].

(** A [$regex] filter on a text field, and the [$in: [regex]] filter on
    [tags] whose pattern is the escaped query, case ignored
    ([mongo_literal]). *)
Definition text_matches (re : str -> bool) (field : str) (doc : dict) : bool :=
  match dict_get doc field with
  | Some (VStr s) => re s
  | Some (VList l) => existsb (fun x => match x with VStr s => re s | _ => false end) l
  | _ => false
  end.

Definition fetch_materials (query : option str) : PyM (list dict) :=
  try
    materials <- get_collection materials ;;
    match query with
    | Some (c :: q) =>
        let query := c :: q in
        let regex := mongo_literal w query in
        re <- lift (mongo_regex w query) ;;
        ret (to_list 50
               (filter (fun m => text_matches re (u"title") m
                                 || text_matches re (u"description") m
                                 || text_matches regex (u"tags") m) materials))
    | _ => ret (to_list 50 materials)
    end
  except e => ret [].

Definition log_action (action_type user_id : str) (details : dict) : PyM unit :=
  try
    logs <- get_collection agent_logs ;;
    t <- utcnow w ;;
    modify (set_db (with_agent_logs
      (logs ++ [mkLogDoc (agent_name self) action_type user_id details (bson_date t)])))
  except e => ret tt.

Definition format_response (response : str) (actions : option (list dict))
    (analysis : option Val) (data : option Data) (recommendations : option Val)
  : PyM Envelope :=
  t <- utcnow w ;;
  ret {| env_success := true;
         env_agent_name := agent_name self;
         env_response := response;
         env_actions_performed := match actions with Some (a :: l) => a :: l | _ => [] end;
         env_analysis := analysis;
         env_data := data;
         env_recommendations := recommendations;
         env_timestamp := t |}.

(** The action every [process] records in its [except] branch. *)
Definition error_action (e : exn) : dict :=
  [(u"type", VStr (u"error")); (u"message", VStr (exn_msg e)); (u"success", VBool false)].

(** The [except Exception as e:] branch shared by the four [process]
    methods. *)
Definition recover (query : str) (e : exn) : PyM Envelope :=
  format_response (get_fallback_response self query) (Some [error_action e])
                  None None None.
End WithWorld.

End BaseAgent.
Import BaseAgent.

(* ===================================================================== *)
(** ** agents/student_agents.py *)
(* ===================================================================== *)

Module StudentStudyPlannerAgent.

Definition get_fallback_response (query : str) : str :=
  u"📚 I've created a basic study plan for: " ++ query ++ u"

**Plan Overview:**
• Duration: 2 weeks
• Daily study sessions: 2 hours
• Weekly assessments
• Recommended materials will be provided

I'll help you stay on track with your studies! Check your dashboard for the complete plan.".

Definition self : Agent :=
  mkAgent (u"Study Planner Agent")
          (u"AI agent that creates personalized study plans and manages academic goals")
          get_fallback_response.

(** The dict [_gather_user_context] returns. *)
Record UserContext := mkUserContext {
  uc_user : dict;
  uc_courses : list dict;
  uc_assignments : list dict;
  uc_total_courses : nat;
  uc_pending_assignments : nat }.

(** The analysis used when the model's answer cannot be decoded. *)
Definition fallback_analysis (query : str) : Val :=
  VDict [(u"goal_type", VStr (u"general_study"));
         (u"difficulty_level", VStr (u"intermediate"));
         (u"estimated_duration", VStr (u"2 weeks"));
         (u"key_topics", VList [VStr query]);
         (u"prerequisites", VList []);
         (u"recommendations",
            VList [VStr (u"Start with fundamentals");
                   VStr (u"Practice regularly");
                   VStr (u"Review materials daily")])].

(** [range(n)] *)
Definition range (n : Z) : list Z := map Z.of_nat (seq 0 (Z.to_nat n)).

(** [v.get(...)] on a value that must be a dict. *)
Definition as_dict (v : Val) : PyM dict :=
  match v with
  | VDict d => ret d
  | _ =>
      raise (mk_exn AttributeError
               (u"'" ++ type_name v ++ u"' object has no attribute 'get'"))
  end.

(** [v[:n]] followed by iteration. *)
Definition head_items (n : nat) (v : Val) : PyM (list Val) :=
  match v with
  | VList l => ret (take n l)
  | VStr s => ret (map (fun c => VStr [c]) (take n s))
  | VDict _ => raise (mk_exn TypeError (u"unhashable type: 'slice'"))
  | _ => raise (mk_exn TypeError (u"'" ++ type_name v ++ u"' object is not subscriptable"))
  end.

Section WithWorld.
Variable w : World.

Definition _gather_user_context (user_id : str) : PyM UserContext :=
  user <- fetch_user_data user_id ;;
  courses <- fetch_courses user_id ;;
  assignments <- fetch_assignments user_id ;;
  ret (mkUserContext user courses assignments (length courses)
         (length (filter (fun a => is_str (get a (u"status")) (u"pending")) assignments))).

(** The text between the fence markers or the outermost braces of the
    model's answer. *)
Definition extract_json (ai_response : str) : PyM str :=
  if str_in (u"```json") ai_response then
    match nth_error (split_on (u"```json") ai_response) 1 with
    | Some rest =>
        match nth_error (split_on (u"```") rest) 0 with
        | Some block => ret (strip block)
        | None => raise (mk_exn IndexError (u"list index out of range"))
        end
    | None => raise (mk_exn IndexError (u"list index out of range"))
    end
  else if str_in (u"```") ai_response then
    match nth_error (split_on (u"```") ai_response) 1 with
    | Some block => ret (strip block)
    | None => raise (mk_exn IndexError (u"list index out of range"))
    end
  else if str_in (u"{") ai_response then
    match index (u"{") ai_response, rindex (u"}") ai_response with
    | Some i, Some j => ret (slice i (j + 1) ai_response)
    | _, _ => raise (mk_exn ValueError (u"substring not found"))
    end
  else ret ai_response.

Definition _analyze_study_goal (query : str) (context : UserContext) : PyM Val :=
  let system_prompt :=
    u"You are an expert academic advisor. Analyze the student's study goal and provide insights.

Student Context:
- Department: " ++ fmt w (get_or (uc_user context) (u"department") (VStr (u"N/A"))) ++ u"
- Year: " ++ fmt w (get_or (uc_user context) (u"year") (VStr (u"N/A"))) ++ u"
- Enrolled Courses: " ++ str_of_nat (uc_total_courses context) ++ u"
- Pending Assignments: " ++ str_of_nat (uc_pending_assignments context) ++ uq"

Provide analysis in JSON format:
{
    ~goal_type~: ~exam_prep|skill_learning|course_completion|general_study~,
    ~difficulty_level~: ~beginner|intermediate|advanced~,
    ~estimated_duration~: ~number of weeks~,
    ~key_topics~: [~topic1~, ~topic2~],
    ~prerequisites~: [~prereq1~, ~prereq2~],
    ~recommendations~: [~rec1~, ~rec2~]
}" in
  let prompt :=
    u"Student Goal: " ++ query ++ nl ++ nl
      ++ u"Analyze this study goal and provide structured guidance." in
  ai_response <- generate_ai_response w self prompt (Some system_prompt) ;;
  try
    json_str <- extract_json ai_response ;;
    analysis <- lift (json_loads w json_str) ;;
    ret analysis
  except e => ret (fallback_analysis query).

(** [int(analysis.get("estimated_duration", "2").split()[0])] *)
Definition duration_weeks_of (analysis : Val) : PyM Z :=
  a <- as_dict analysis ;;
  match get_or a (u"estimated_duration") (VStr (u"2")) with
  | VStr s =>
      match split_ws s with
      | first :: _ =>
          if forallb (fun c => (c <? 128)%N) first then
            match int_of_str first with
            | Some n => ret n
            | None =>
                raise (mk_exn ValueError
                         (u"invalid literal for int() with base 10: '" ++ first ++ u"'"))
            end
          else lift (int_literal w first)
      | [] => raise (mk_exn IndexError (u"list index out of range"))
      end
  | v =>
      raise (mk_exn AttributeError
               (u"'" ++ type_name v ++ u"' object has no attribute 'split'"))
  end.

(** The body of [for day in range(7)]. *)
Definition daily_task (goal : str) (week day : Z) : PyM Task :=
  t <- now w ;;
  ret {| task_title := u"Day " ++ str_of_Z (day + 1) ++ u": Study Session";
         task_description := u"Focus on " ++ goal;
         task_type := u"study";
         task_estimated_hours := 2;
         task_deadline := t + timedelta week day;
         task_status := u"pending";
         task_priority := if day <? 3 then u"high" else u"medium" |}.

(** The body of [for week in range(duration_weeks)]. *)
Definition make_phase (goal : str) (week : Z) : PyM Phase :=
  t0 <- now w ;;
  t1 <- now w ;;
  let start_date := t0 + timedelta week 0 in
  let end_date := t1 + timedelta (week + 1) 0 in
  daily <- for_each (daily_task goal week) (range 7) ;;
  let assessment :=
    {| task_title := u"Week " ++ str_of_Z (week + 1) ++ u" Assessment";
       task_description := u"Test your understanding of " ++ goal;
       task_type := u"assessment";
       task_estimated_hours := 1;
       task_deadline := end_date;
       task_status := u"pending";
       task_priority := u"high" |} in
  ret {| phase_name := u"Week " ++ str_of_Z (week + 1);
         phase_order := week;
         phase_duration := u"1 week";
         phase_start_date := start_date;
         phase_end_date := end_date;
         phase_tasks := daily ++ [assessment] |}.

Definition _create_study_plan (goal : str) (context : UserContext) (analysis : Val)
  : PyM StudyPlan :=
  duration_weeks <- duration_weeks_of analysis ;;
  phases <- for_each (make_phase goal) (range duration_weeks) ;;
  a <- as_dict analysis ;;
  t <- now w ;;
  ret {| plan_goal := goal;
         plan_phases := phases;
         plan_total_duration := str_of_Z duration_weeks ++ u" weeks";
         plan_key_topics := get_or a (u"key_topics") (VList []);
         plan_difficulty := get_or a (u"difficulty_level") (VStr (u"intermediate"));
         plan_created_at := t |}.

Definition _find_relevant_materials (query : str) (plan : StudyPlan) : PyM (list dict) :=
  materials <- fetch_materials w (Some query) ;;
  ret (map (fun material =>
              dict_set (dict_set material (u"relevance_score") (VInt 85))
                       (u"ai_recommended") (VBool true)) materials).

Definition _save_study_plan (user_id : str) (plan : StudyPlan) (materials : list dict)
  : PyM str :=
  try
    plans_collection <- get_collection agenticplans ;;
    created <- utcnow w ;;
    updated <- utcnow w ;;
    let inserted_id := object_id w (length plans_collection) in
    let plan_doc :=
      mkPlanDoc inserted_id user_id (u"study") (plan_goal plan) (u"active")
                plan materials (bson_date created) (bson_date updated) in
    modify (set_db (with_agenticplans (plans_collection ++ [plan_doc]))) ;;;
    ret inserted_id
  except e => ret (u"temp_id").

Definition bullets (items : list str) : str :=
  join nl (map (fun x => u"• " ++ x) items).

Definition _generate_response (plan : StudyPlan) (materials : list dict) (analysis : Val)
  : PyM str :=
  let duration := plan_total_duration plan in
  let phases := length (plan_phases plan) in
  a <- as_dict analysis ;;
  difficulty <-
    match get_or a (u"difficulty_level") (VStr (u"intermediate")) with
    | VStr s => ret (str_title w s)
    | v =>
        raise (mk_exn AttributeError
                 (u"'" ++ type_name v ++ u"' object has no attribute 'title'"))
    end ;;
  topics <- head_items 5 (get_or a (u"key_topics") (VList [VStr (u"Core concepts")])) ;;
  recs <- head_items 3 (get_or a (u"recommendations") (VList [])) ;;
  ret (u"✅ **Study Plan Created Successfully!**

📚 **Goal:** " ++ plan_goal plan ++ u"
⏱️ **Duration:** " ++ duration ++ u"
📊 **Difficulty:** " ++ difficulty ++ u"

**📅 Plan Structure:**
• " ++ str_of_nat phases ++ u" phases (weeks) of structured learning
• Daily study sessions (2 hours recommended)
• Weekly assessments to track progress

**🎯 Key Topics to Cover:**
" ++ bullets (map (fmt w) topics) ++ u"

**📖 Study Materials Found:** " ++ str_of_nat (length materials) ++ u" resources
" ++ bullets (map (fun m => fmt w (get_or m (u"title") (VStr (u"Material")))) (take 3 materials)) ++ u"

**💡 AI Recommendations:**
" ++ bullets (map (fmt w) recs) ++ u"

**🚀 Next Steps:**
1. Review your personalized plan in the dashboard
2. Access study materials from the resources section
3. Start with Week 1, Day 1 tasks
4. Track your progress regularly

Your study plan is ready! Let's achieve your academic goals together! 🎓").

(** The [try] block of [process], then [process]. *)
Definition attempt (query user_id : str) (context : option dict) : PyM Envelope :=
    user_context <- _gather_user_context user_id ;;
    analysis <- _analyze_study_goal query user_context ;;
    study_plan <- _create_study_plan query user_context analysis ;;
    materials <- _find_relevant_materials query study_plan ;;
    plan_id <- _save_study_plan user_id study_plan materials ;;
    response <- _generate_response study_plan materials analysis ;;
    log_action w self (u"create_study_plan") user_id
      [(u"plan_id", VStr plan_id); (u"goal", VStr query);
       (u"phases", VInt (Z.of_nat (length (plan_phases study_plan))))] ;;;
    a <- as_dict analysis ;;
    format_response w self response
      (Some [[(u"type", VStr (u"study_plan_created")); (u"plan_id", VStr plan_id);
              (u"success", VBool true)];
             [(u"type", VStr (u"materials_found"));
              (u"count", VInt (Z.of_nat (length materials))); (u"success", VBool true)]])
      (Some analysis)
      (Some (PlanData plan_id study_plan (take 5 materials)))
      (Some (get_or a (u"recommendations") (VList []))).

Definition process (query user_id : str) (context : option dict) : PyM Envelope :=
  try attempt query user_id context
  except e => recover w self query e.
End WithWorld.

End StudentStudyPlannerAgent.

Module StudentAssignmentManagerAgent.

Definition get_fallback_response (query : str) : str :=
  u"📝 **Assignment Manager**

I'm here to help you manage your assignments! I can:
• Track all your assignments and deadlines
• Help you prioritize your work
• Generate content and outlines
• Provide study tips and resources

What do you need help with today?".

Definition self : Agent :=
  mkAgent (u"Assignment Manager Agent")
          (u"AI agent that manages assignments, deadlines, and provides academic assistance")
          get_fallback_response.

(** [any(word in text for word in words)] *)
Definition any_in (words : list str) (text : str) : bool :=
  existsb (fun word => str_in word text) words.

Definition _detect_action_type (w : World) (query : str) : str :=
  let query_lower := str_lower w query in
  if any_in [u"list"; u"show"; u"what are"; u"my assignments"] query_lower
  then u"list_assignments"
  else if any_in [u"generate"; u"create"; u"write"; u"help me with"] query_lower
  then u"generate_content"
  else if any_in [u"help"; u"stuck"; u"how to"; u"guide"] query_lower
  then u"get_help"
  else u"general".

(** [a.get("status") == status] *)
Definition has_status (status : str) (a : dict) : bool :=
  is_str (get a (u"status")) status.

(** The sort key of [_list_assignments] and Python's [<] on it. *)
Definition sort_key := (datetime * Z)%type.
Definition key_lt (a b : sort_key) : bool :=
  (fst a <? fst b) || ((fst a =? fst b) && (snd a <? snd b)).

(** [sorted(items, key=...)]: a stable sort; every item is paired with
    its key, computed once. *)
Fixpoint insert_by_key {A} (x : sort_key * A) (l : list (sort_key * A))
  : list (sort_key * A) :=
  match l with
  | [] => [x]
  | y :: r => if key_lt (fst y) (fst x) then y :: insert_by_key x r else x :: y :: r
  end.
Definition sorted_by_key {A} (l : list (sort_key * A)) : list (sort_key * A) :=
  fold_right insert_by_key [] l.

(** [{"high": 0, "medium": 1, "low": 2}.get(x.get("priority", "medium"), 1)] *)
Definition priority_rank (x : dict) : result Z :=
  match get_or x (u"priority") (VStr (u"medium")) with
  | VStr s =>
      Ok (if str_eqb s (u"high") then 0
          else if str_eqb s (u"medium") then 1
          else if str_eqb s (u"low") then 2
          else 1)
  | VList _ => Raise (mk_exn TypeError (u"unhashable type: 'list'"))
  | VDict _ => Raise (mk_exn TypeError (u"unhashable type: 'dict'"))
  | _ => Ok 1
  end.

Section WithWorld.
Variable w : World.

(** [datetime.fromisoformat(a.get("dueDate", datetime.now().isoformat()))]:
    the default is read from the clock whether it is used or not. *)
Definition parse_due (a : dict) (default : datetime) : result datetime :=
  match dict_get a (u"dueDate") with
  | None => Ok default
  | Some (VStr s) => fromisoformat w s
  | Some _ => Raise (mk_exn TypeError (u"fromisoformat: argument must be str"))
  end.

Definition due_date (a : dict) : PyM datetime :=
  default <- now w ;;
  lift (parse_due a default).

Definition is_overdue (a : dict) : PyM bool :=
  due <- due_date a ;;
  t <- now w ;;
  ret (due <? t).

(** [[a for a in l if c(a)]] for a condition with effects. *)
Fixpoint filter_m {A} (c : A -> PyM bool) (l : list A) : PyM (list A) :=
  match l with
  | [] => ret []
  | a :: r =>
      b <- c a ;;
      rest <- filter_m c r ;;
      ret (if b then a :: rest else rest)
  end.

Definition key_of (x : dict) : PyM (sort_key * dict) :=
  due <- due_date x ;;
  rank <- lift (priority_rank x) ;;
  ret ((due, rank), x).

Definition prioritize (pending : list dict) : PyM (list dict) :=
  keyed <- for_each key_of pending ;;
  ret (map snd (sorted_by_key keyed)).

Definition dashboard_line (ia : nat * dict) : PyM str :=
  let (i, a) := ia in
  due <- due_date a ;;
  ret (str_of_nat (i + 1) ++ u". **" ++ fmt w (get_or a (u"title") (VStr (u"Assignment")))
       ++ u"** - Due: " ++ strftime w due (u"%b %d, %Y")
       ++ u" (" ++ fmt w (get_or a (u"priority") (VStr (u"medium"))) ++ u" priority)").

Definition enumerate {A} (l : list A) : list (nat * A) := combine (seq 0 (length l)) l.

Definition _list_assignments (user_id query : str) : PyM Envelope :=
  assignments <- fetch_assignments user_id ;;
  match assignments with
  | [] =>
      format_response w self
        (u"📝 You don't have any assignments yet. When assignments are added, I'll help you manage them!")
        None None (Some (DictData [(u"assignments", VList [])])) None
  | _ =>
      let pending := filter (has_status (u"pending")) assignments in
      let completed := filter (has_status (u"completed")) assignments in
      overdue <- filter_m is_overdue pending ;;
      prioritized <- prioritize pending ;;
      lines <- for_each dashboard_line (enumerate (take 5 prioritized)) ;;
      let response := u"📝 **Assignment Dashboard**

**📊 Overview:**
• Total Assignments: " ++ str_of_nat (length assignments) ++ u"
• Pending: " ++ str_of_nat (length pending) ++ u"
• Completed: " ++ str_of_nat (length completed) ++ u"
• ⚠️ Overdue: " ++ str_of_nat (length overdue) ++ u"

**🎯 Top Priority Assignments:**
" ++ join nl lines ++ u"

**💡 Recommendations:**
• Focus on overdue assignments first
• Allocate time for high-priority tasks
• Break down large assignments into smaller tasks

Need help with any specific assignment? Just ask!" in
      format_response w self response
        (Some [[(u"type", VStr (u"assignments_analyzed"));
                (u"count", VInt (Z.of_nat (length assignments)));
                (u"success", VBool true)]])
        (Some (VDict [(u"total", VInt (Z.of_nat (length assignments)));
                      (u"pending", VInt (Z.of_nat (length pending)));
                      (u"completed", VInt (Z.of_nat (length completed)));
                      (u"overdue", VInt (Z.of_nat (length overdue)))]))
        (Some (DictData [(u"assignments", VList (map VDict (take 10 prioritized)))]))
        None
  end.

Definition _generate_assignment_content (user_id query : str) : PyM Envelope :=
  let system_prompt := u"You are an expert academic assistant. Help students create high-quality assignment content.

Provide:
1. Outline/structure
2. Key points to cover
3. Research suggestions
4. Writing tips" in
  ai_response <- generate_ai_response w self query (Some system_prompt) ;;
  let response := u"✍️ **Assignment Content Generation**

" ++ ai_response ++ u"

**📚 Additional Resources:**
• Check the materials section for relevant resources
• Review course materials for background information
• Ensure proper citations and references

**💡 Pro Tips:**
• Start with an outline
• Break down into sections
• Review and revise before submission

Need more specific help? Let me know!" in
  format_response w self response
    (Some [[(u"type", VStr (u"content_generated")); (u"success", VBool true)]])
    None None None.

Definition _provide_assignment_help (user_id query : str) : PyM Envelope :=
  let system_prompt :=
    u"You are a helpful academic tutor. Provide clear, step-by-step guidance for student queries." in
  ai_response <- generate_ai_response w self query (Some system_prompt) ;;
  format_response w self (u"📖 **Assignment Help**" ++ nl ++ nl ++ ai_response)
    (Some [[(u"type", VStr (u"help_provided")); (u"success", VBool true)]])
    None None None.

Definition _general_assignment_guidance (user_id query : str) : PyM Envelope :=
  assignments <- fetch_assignments user_id ;;
  let response := u"📚 **Assignment Management**

I can help you with:
• 📋 List and track your assignments
• ✍️ Generate assignment content and outlines
• 📖 Provide research and writing guidance
• ⏰ Manage deadlines and priorities

You currently have **" ++ str_of_nat (length assignments) ++ u" assignments**.

What would you like help with?" in
  format_response w self response None None None None.

(** The [try] block of [process], then [process]. *)
Definition attempt (query user_id : str) (context : option dict) : PyM Envelope :=
  let action_type := _detect_action_type w query in
  if str_eqb action_type (u"list_assignments") then _list_assignments user_id query
  else if str_eqb action_type (u"generate_content")
  then _generate_assignment_content user_id query
  else if str_eqb action_type (u"get_help") then _provide_assignment_help user_id query
  else _general_assignment_guidance user_id query.

Definition process (query user_id : str) (context : option dict) : PyM Envelope :=
  try attempt query user_id context
  except e => recover w self query e.
End WithWorld.

End StudentAssignmentManagerAgent.

(* ===================================================================== *)
(** ** agents/admin_agents.py *)
(* ===================================================================== *)

Module AdminReportGeneratorAgent.

Definition get_fallback_response (query : str) : str :=
  u"📊 **Report Generator**

I can generate comprehensive reports including:
• Student Performance Analytics
• Engagement Metrics
• Course Analytics
• System Overview

What type of report would you like to generate?".

Definition self : Agent :=
  mkAgent (u"Report Generator Agent")
          (u"AI agent that generates comprehensive analytics and reports for administrators")
          get_fallback_response.

Definition any_in := StudentAssignmentManagerAgent.any_in.

Definition _detect_report_type (w : World) (query : str) : str :=
  let query_lower := str_lower w query in
  if any_in [u"student"; u"performance"; u"grades"] query_lower
  then u"student_performance"
  else if any_in [u"engagement"; u"activity"; u"participation"] query_lower
  then u"engagement"
  else if any_in [u"course"; u"enrollment"; u"class"] query_lower
  then u"course_analytics"
  else u"overview".

(** [len(v)] *)
Definition py_len (v : Val) : PyM nat :=
  match v with
  | VList l => ret (length l)
  | VStr s => ret (length s)
  | VDict d => ret (length d)
  | _ => raise (mk_exn TypeError (u"object of type '" ++ type_name v ++ u"' has no len()"))
  end.

Definition count_where (p : dict -> bool) (docs : list dict) : nat := length (filter p docs).

Definition ratio (a b : nat) : Q := Qmake (Z.of_nat a) (Pos.of_nat b).

(** [set(...)] of department values, then [sorted(...)].  Members must be
    hashable; two or more members are ordered if all are text (by code
    point).  Sets of several numbers are not modelled. *)
Fixpoint str_lt (a b : str) : bool :=
  match a, b with
  | _, [] => false
  | [], _ :: _ => true
  | x :: a', y :: b' => (x <? y)%N || ((x =? y)%N && str_lt a' b')
  end.

Fixpoint insert_str (x : str) (l : list str) : list str :=
  match l with
  | [] => [x]
  | y :: r => if str_lt y x then y :: insert_str x r else x :: y :: r
  end.

Fixpoint dedup (l : list Val) : list Val :=
  match l with
  | [] => []
  | x :: r => if existsb (val_eqb x) r then dedup r else x :: dedup r
  end.

Definition py_set (l : list Val) : PyM (list Val) :=
  if existsb (fun v => match v with VList _ | VDict _ => true | _ => false end) l
  then raise (mk_exn TypeError (u"unhashable type"))
  else ret (dedup l).

Definition all_text (l : list Val) : option (list str) :=
  fold_right (fun v acc => match v, acc with
                           | VStr s, Some r => Some (s :: r)
                           | _, _ => None
                           end) (Some []) l.

Definition py_sorted (l : list Val) : PyM (list Val) :=
  match l with
  | [] | [_] => ret l
  | _ =>
      match all_text l with
      | Some names => ret (map VStr (fold_right insert_str [] names))
      | None => raise (mk_exn TypeError (u"'<' not supported between instances"))
      end
  end.

Section WithWorld.
Variable w : World.

Definition _generate_student_performance_report : PyM Envelope :=
  users <- get_collection users ;;
  let students := to_list 1000 (filter (field_is (u"role") (u"student")) users) in
  courses <- get_collection courses ;;
  let all_courses := to_list 100 courses in
  assignments <- get_collection assignments ;;
  let all_assignments := to_list 1000 assignments in
  let total_students := length students in
  let active_students := count_where (fun s => truthy (get s (u"enrolledCourses"))) students in
  enrolled <- for_each (fun s => py_len (get_or s (u"enrolledCourses") (VList []))) students ;;
  let avg_courses_per_student :=
    ratio (fold_right Nat.add O enrolled) (Nat.max total_students 1) in
  let completed_assignments :=
    count_where (fun a => is_str (get a (u"status")) (u"completed")) all_assignments in
  let total_assignments := length all_assignments in
  let completion_rate :=
    (ratio completed_assignments (Nat.max total_assignments 1) * 100)%Q in
  let analysis_prompt := u"Analyze this student performance data and provide insights:

Total Students: " ++ str_of_nat total_students ++ u"
Active Students: " ++ str_of_nat active_students ++ u"
Avg Courses per Student: " ++ format_1f w avg_courses_per_student ++ u"
Assignment Completion Rate: " ++ format_1f w completion_rate ++ u"%

Provide:
1. Key insights
2. Trends
3. Recommendations for improvement
4. Areas of concern" in
  ai_insights <- generate_ai_response w self analysis_prompt None ;;
  t <- now w ;;
  let response := u"📊 **Student Performance Report**

**📈 Key Metrics:**
• Total Students: " ++ str_of_nat total_students ++ u"
• Active Students: " ++ str_of_nat active_students ++ u"
• Average Courses per Student: " ++ format_1f w avg_courses_per_student ++ u"
• Assignment Completion Rate: " ++ format_1f w completion_rate ++ u"%

**🔍 AI Insights:**
" ++ ai_insights ++ u"

**📅 Report Generated:** " ++ strftime w t (u"%B %d, %Y at %I:%M %p") ++ u"

This report provides a comprehensive overview of student performance across the institution." in
  log_action w self (u"generate_report") (u"admin")
    [(u"report_type", VStr (u"student_performance"));
     (u"students_analyzed", VInt (Z.of_nat total_students))] ;;;
  format_response w self response
    (Some [[(u"type", VStr (u"report_generated"));
            (u"report_type", VStr (u"student_performance")); (u"success", VBool true)]])
    (Some (VDict [(u"total_students", VInt (Z.of_nat total_students));
                  (u"active_students", VInt (Z.of_nat active_students));
                  (u"completion_rate", VFloat completion_rate)]))
    (Some (DictData [(u"students", VInt (Z.of_nat total_students));
                     (u"courses", VInt (Z.of_nat (length all_courses)));
                     (u"assignments", VInt (Z.of_nat total_assignments))]))
    None.

Definition _generate_engagement_report : PyM Envelope :=
  events <- get_collection events ;;
  let all_events := to_list 100 events in
  materials <- get_collection materials ;;
  let all_materials := to_list 100 materials in
  let total_events := length all_events in
  let upcoming_events :=
    count_where (fun e => is_str (get e (u"status")) (u"upcoming")) all_events in
  t <- now w ;;
  let response := u"📊 **Engagement Analytics Report**

**🎯 Event Metrics:**
• Total Events: " ++ str_of_nat total_events ++ u"
• Upcoming Events: " ++ str_of_nat upcoming_events ++ u"
• Materials Available: " ++ str_of_nat (length all_materials) ++ u"

**💡 Engagement Insights:**
• Students are actively participating in campus activities
• Study materials are being regularly accessed
• Event registration shows healthy engagement levels

**📅 Generated:** " ++ strftime w t (u"%B %d, %Y") in
  format_response w self response
    (Some [[(u"type", VStr (u"report_generated"));
            (u"report_type", VStr (u"engagement")); (u"success", VBool true)]])
    None
    (Some (DictData [(u"events", VInt (Z.of_nat total_events));
                     (u"materials", VInt (Z.of_nat (length all_materials)))]))
    None.

Definition _generate_course_analytics : PyM Envelope :=
  courses <- get_collection courses ;;
  let all_courses := to_list 100 courses in
  let total_courses := length all_courses in
  departments <-
    py_set (map (fun c => get_or c (u"department") (VStr (u"Unknown"))) all_courses) ;;
  ordered <- py_sorted departments ;;
  t <- now w ;;
  let response := u"📊 **Course Analytics Report**

**📚 Course Metrics:**
• Total Courses: " ++ str_of_nat total_courses ++ u"
• Departments: " ++ str_of_nat (length departments) ++ u"
• Average Enrollment: Calculating...

**🎓 Department Breakdown:**
" ++ join nl (map (fun dept => u"• " ++ fmt w dept) ordered) ++ u"

**📅 Generated:** " ++ strftime w t (u"%B %d, %Y") in
  format_response w self response
    (Some [[(u"type", VStr (u"report_generated"));
            (u"report_type", VStr (u"course_analytics")); (u"success", VBool true)]])
    None
    (Some (DictData [(u"courses", VInt (Z.of_nat total_courses));
                     (u"departments", VInt (Z.of_nat (length departments)))]))
    None.

Definition _generate_overview_report : PyM Envelope :=
  users <- get_collection users ;;
  courses <- get_collection courses ;;
  events <- get_collection events ;;
  materials <- get_collection materials ;;
  let student_count := count_where (field_is (u"role") (u"student")) users in
  let course_count := length courses in
  let event_count := length events in
  let material_count := length materials in
  t <- now w ;;
  let response := u"📊 **System Overview Report**

**🎓 Institution Snapshot:**
• Students: " ++ str_of_nat student_count ++ u"
• Courses: " ++ str_of_nat course_count ++ u"
• Events: " ++ str_of_nat event_count ++ u"
• Study Materials: " ++ str_of_nat material_count ++ u"

**✅ System Status:** All systems operational
**📅 Report Date:** " ++ strftime w t (u"%B %d, %Y at %I:%M %p") ++ u"

**💡 Quick Insights:**
• Platform is actively being used by students and faculty
• Content library is growing
• Engagement metrics show positive trends

For detailed analytics, request specific report types (student performance, engagement, or course analytics)." in
  format_response w self response
    (Some [[(u"type", VStr (u"report_generated"));
            (u"report_type", VStr (u"overview")); (u"success", VBool true)]])
    None
    (Some (DictData [(u"students", VInt (Z.of_nat student_count));
                     (u"courses", VInt (Z.of_nat course_count));
                     (u"events", VInt (Z.of_nat event_count));
                     (u"materials", VInt (Z.of_nat material_count))]))
    None.

(** The [try] block of [process], then [process]. *)
Definition attempt (query user_id : str) (context : option dict) : PyM Envelope :=
  let report_type := _detect_report_type w query in
  if str_eqb report_type (u"student_performance")
  then _generate_student_performance_report
  else if str_eqb report_type (u"engagement") then _generate_engagement_report
  else if str_eqb report_type (u"course_analytics") then _generate_course_analytics
  else _generate_overview_report.

Definition process (query user_id : str) (context : option dict) : PyM Envelope :=
  try attempt query user_id context
  except e => recover w self query e.
End WithWorld.

End AdminReportGeneratorAgent.

Module AdminHelpdeskManagerAgent.

Definition get_fallback_response (query : str) : str :=
  u"🎫 **Helpdesk Manager**

I'm here to help you manage support tickets efficiently!

Features:
• Intelligent ticket categorization
• AI-powered solution suggestions
• Priority assignment
• Response template generation

How can I assist you today?".

Definition self : Agent :=
  mkAgent (u"Helpdesk Manager Agent")
          (u"AI agent that intelligently manages helpdesk tickets and support requests")
          get_fallback_response.

Definition any_in := StudentAssignmentManagerAgent.any_in.
Definition count_where := AdminReportGeneratorAgent.count_where.

Definition _detect_action_type (w : World) (query : str) : str :=
  let query_lower := str_lower w query in
  if any_in [u"categorize"; u"category"; u"classify"] query_lower
  then u"categorize"
  else if any_in [u"solve"; u"solution"; u"fix"; u"help"] query_lower
  then u"suggest_solution"
  else if any_in [u"list"; u"show"; u"tickets"; u"pending"] query_lower
  then u"list_tickets"
  else u"general".

(** [context.get("description", query) if context else query], which the
    caller hands to the provider and then slices and prints.  A
    description that cannot be sliced is taken as the TypeError of the
    slice.  A list can be sliced: such a description is printed by the
    source as the list it is, which this model, whose prompts are text,
    does not follow; it is taken as a TypeError as well. *)
Definition description_of (query : str) (context : option dict) : PyM str :=
  match context with
  | Some (kv :: c) =>
      match get_or (kv :: c) (u"description") (VStr query) with
      | VStr s => ret s
      | VDict _ => raise (mk_exn TypeError (u"unhashable type: 'slice'"))
      | v => raise (mk_exn TypeError (u"'" ++ type_name v ++ u"' object is not subscriptable"))
      end
  | _ => ret query
  end.

Section WithWorld.
Variable w : World.

Definition _categorize_ticket (query : str) (context : option dict) : PyM Envelope :=
  ticket_description <- description_of query context ;;
  let system_prompt := u"You are a helpdesk categorization expert. Categorize support tickets accurately.

Categories:
- Technical Issue
- Account Access
- Course Enrollment
- Payment/Billing
- General Inquiry
- Feature Request
- Bug Report

Provide:
1. Category
2. Priority (High/Medium/Low)
3. Suggested department
4. Estimated resolution time" in
  ai_response <- generate_ai_response w self ticket_description (Some system_prompt) ;;
  let response := u"🎫 **Ticket Categorization**

**Ticket:** " ++ take 100 ticket_description ++ u"...

**AI Analysis:**
" ++ ai_response ++ u"

**Actions:**
✅ Ticket categorized automatically
✅ Priority assigned
✅ Routed to appropriate department

The ticket has been processed and is ready for assignment." in
  format_response w self response
    (Some [[(u"type", VStr (u"ticket_categorized")); (u"success", VBool true)];
           [(u"type", VStr (u"priority_assigned")); (u"success", VBool true)]])
    None None None.

Definition _suggest_solution (query : str) (context : option dict) : PyM Envelope :=
  issue_description <- description_of query context ;;
  let system_prompt := u"You are a technical support expert. Provide clear, step-by-step solutions.

Format your response as:
1. Problem Summary
2. Solution Steps
3. Prevention Tips" in
  ai_response <- generate_ai_response w self issue_description (Some system_prompt) ;;
  let response := u"💡 **Solution Suggestion**

**Issue:** " ++ take 100 issue_description ++ u"...

**Recommended Solution:**
" ++ ai_response ++ u"

**📋 Response Template Ready**
You can send this solution directly to the user or customize it further." in
  format_response w self response
    (Some [[(u"type", VStr (u"solution_generated")); (u"success", VBool true)]])
    None None None.

Definition _list_tickets : PyM Envelope :=
  try
    helpdesk <- get_collection helpdesks ;;
    let tickets := to_list 100 helpdesk in
    let total_tickets := length tickets in
    let open_tickets := count_where (fun t => is_str (get t (u"status")) (u"open")) tickets in
    let resolved_tickets :=
      count_where (fun t => is_str (get t (u"status")) (u"resolved")) tickets in
    let with_priority p :=
      count_where (fun t => is_str (get t (u"priority")) p) tickets in
    let response := u"🎫 **Helpdesk Dashboard**

**📊 Ticket Overview:**
• Total Tickets: " ++ str_of_nat total_tickets ++ u"
• Open: " ++ str_of_nat open_tickets ++ u"
• Resolved: " ++ str_of_nat resolved_tickets ++ u"

**🔥 Priority Distribution:**
• High Priority: " ++ str_of_nat (with_priority (u"high")) ++ u"
• Medium Priority: " ++ str_of_nat (with_priority (u"medium")) ++ u"
• Low Priority: " ++ str_of_nat (with_priority (u"low")) ++ u"

**💡 AI Recommendations:**
• Focus on high-priority tickets first
• Average response time: 24 hours
• Consider adding more FAQ resources

Need help with a specific ticket? Let me know!" in
    format_response w self response None
      (Some (VDict [(u"total", VInt (Z.of_nat total_tickets));
                    (u"open", VInt (Z.of_nat open_tickets));
                    (u"resolved", VInt (Z.of_nat resolved_tickets))]))
      (Some (DictData [(u"tickets", VList (map VDict (take 10 tickets)))]))
      None
  except e =>
    format_response w self (u"Currently, there are no tickets in the system.")
      None None (Some (DictData [(u"tickets", VList [])])) None.

Definition _general_helpdesk_info : PyM Envelope :=
  let response := u"🎫 **Helpdesk Manager**

I can help you with:
• 📋 Auto-categorize support tickets
• 💡 Suggest solutions based on AI analysis
• 📊 View ticket statistics and priorities
• ✉️ Generate response templates
• 👥 Auto-assign tickets to staff

What would you like me to help with?" in
  format_response w self response None None None None.

(** The [try] block of [process], then [process]. *)
Definition attempt (query user_id : str) (context : option dict) : PyM Envelope :=
  let action_type := _detect_action_type w query in
  if str_eqb action_type (u"categorize") then _categorize_ticket query context
  else if str_eqb action_type (u"suggest_solution") then _suggest_solution query context
  else if str_eqb action_type (u"list_tickets") then _list_tickets
  else _general_helpdesk_info.

Definition process (query user_id : str) (context : option dict) : PyM Envelope :=
  try attempt query user_id context
  except e => recover w self query e.
End WithWorld.

End AdminHelpdeskManagerAgent.

(* ===================================================================== *)
(** ** chatbot/intelligent_chatbot.py *)
(* ===================================================================== *)

Module IntelligentChatbot.

Definition any_in := StudentAssignmentManagerAgent.any_in.

Definition action_keywords : list str :=
  [u"create"; u"generate"; u"make"; u"show me"; u"find"; u"search";
   u"enroll"; u"register"; u"add"; u"schedule"; u"plan";
   u"list my"; u"what are my"; u"get my"].

Definition _detect_action_intent (w : World) (message : str) : bool :=
  let message_lower := str_lower w message in
  any_in action_keywords message_lower.

(** What [_route_to_agent] returns: an agent's envelope, or the two-key
    dict of its last branch. *)
Inductive RouteResult :=
| AgentReply (e : Envelope)
| Placeholder (response : str) (actions_performed : list dict).

(** [response_data.get("response", "Action completed!")] and
    [response_data.get("actions_performed", [])] *)
Definition route_response (r : RouteResult) : str :=
  match r with AgentReply e => env_response e | Placeholder t _ => t end.
Definition route_actions (r : RouteResult) : list dict :=
  match r with AgentReply e => env_actions_performed e | Placeholder _ a => a end.

Definition same_conversation (user_id conv_id : str) (c : ConversationDoc) : bool :=
  str_eqb (conv_user_id c) user_id && str_eqb (conv_conversation_id c) conv_id.

(** [update_one(filter, {"$push": {"messages": {"$each": turns}},
    "$set": {"updated_at": t}, "$setOnInsert": {"created_at": t'}},
    upsert=True)] on the first document the filter selects. *)
Fixpoint push_turns (user_id conv_id : str) (turns : list Turn) (updated created : datetime)
    (docs : list ConversationDoc) : list ConversationDoc :=
  match docs with
  | [] => [mkConversation user_id conv_id turns created updated]
  | c :: r =>
      if same_conversation user_id conv_id c
      then mkConversation (conv_user_id c) (conv_conversation_id c)
                          (conv_messages c ++ turns) (conv_created_at c) updated :: r
      else c :: push_turns user_id conv_id turns updated created r
  end.

(** [context.get('user', {}).get(key, default)] *)
Definition user_field (context : dict) (key : str) (default : Val) : PyM Val :=
  match get_or context (u"user") (VDict []) with
  | VDict user => ret (get_or user key default)
  | v =>
      raise (mk_exn AttributeError
               (u"'" ++ type_name v ++ u"' object has no attribute 'get'"))
  end.

Definition turn_msg (t : Turn) : Msg := mkMsg (turn_role t) (turn_content t).

Section WithWorld.
Variable w : World.

Definition _get_conversation_history (user_id conv_id : str) : PyM (list Turn) :=
  try
    if ENABLE_CONVERSATION_MEMORY w then
      conversations <- get_collection conversations ;;
      match find_one (same_conversation user_id conv_id) conversations with
      | Some conv => ret (last_n 10 (conv_messages conv))
      | None => ret []
      end
    else ret []
  except e => ret [].

Definition _save_to_history (user_id conv_id message response : str) : PyM unit :=
  try
    if ENABLE_CONVERSATION_MEMORY w then
      conversations <- get_collection conversations ;;
      t_user <- utcnow w ;;
      t_assistant <- utcnow w ;;
      updated <- utcnow w ;;
      created <- utcnow w ;;
      modify (set_db (with_conversations
        (push_turns user_id conv_id
           [mkTurn (u"user") message (bson_date t_user);
            mkTurn (u"assistant") response (bson_date t_assistant)]
           (bson_date updated) (bson_date created) conversations)))
    else ret tt
  except e => ret tt.

Definition _gather_context (user_id : str) (additional_context : option dict) : PyM dict :=
  let context := match additional_context with Some (kv :: c) => kv :: c | _ => [] end in
  try
    users <- get_collection users ;;
    let context :=
      match find_one (fun d => is_str (get d (u"_id")) user_id) users with
      | Some (kv :: user) =>
          let user := kv :: user in
          dict_set context (u"user")
            (VDict [(u"name", get user (u"name")); (u"role", get user (u"role"));
                    (u"department", get user (u"department"));
                    (u"year", get user (u"year"))])
      | _ => context
      end in
    t <- now w ;;
    ret (dict_set context (u"timestamp") (VStr (strftime w t (u"%B %d, %Y at %I:%M %p"))))
  except e => ret context.

Definition _route_to_agent (message user_id : str) (context : dict) : PyM RouteResult :=
  let message_lower := str_lower w message in
  if any_in [u"study plan"; u"learning plan"; u"schedule"] message_lower then
    e <- StudentStudyPlannerAgent.process w message user_id (Some context) ;;
    ret (AgentReply e)
  else if any_in [u"assignment"; u"homework"; u"task"] message_lower then
    e <- StudentAssignmentManagerAgent.process w message user_id (Some context) ;;
    ret (AgentReply e)
  else
    ret (Placeholder (u"I can help you with that! Could you provide more details?") []).

Definition _get_rule_based_response (message : str) (context : dict) : PyM str :=
  let message_lower := str_lower w message in
  let greetings := [u"hello"; u"hi"; u"hey"; u"good morning"; u"good afternoon"] in
  if any_in greetings message_lower then
    user_name <- user_field context (u"name") (VStr (u"there")) ;;
    ret (u"Hello " ++ fmt w user_name
         ++ u"! 👋 How can I assist you today? I can help with courses, assignments, events, and more!")
  else if str_in (u"help") message_lower then
    ret (u"I'm here to help! I can assist you with:

📚 **Academic:** Study plans, assignments, course information
🎯 **Campus Life:** Events, navigation, facilities
📊 **Information:** Timetables, faculty details, materials
🤖 **AI Features:** Intelligent agents, analytics, recommendations

What would you like help with?")
  else if any_in [u"course"; u"class"; u"subject"] message_lower then
    ret (u"I can help you with course information, enrollment, and materials. What specific course information do you need?")
  else if str_in (u"event") message_lower then
    ret (u"Looking for campus events? I can show you upcoming events, help you register, and provide event details. What would you like to know?")
  else
    ret (u"I understand you're asking about: " ++ quote ++ message ++ quote ++ u"

I can help you with various campus-related queries. Could you provide more specific details or try asking about:
• Courses and enrollment
• Study materials and resources
• Campus events and activities
• Your timetable and schedule
• Assignments and deadlines

What would you like to know more about?").

(** The system prompt of the conversational path. *)
Definition system_prompt_of (context : dict) : PyM str :=
  name <- user_field context (u"name") (VStr (u"Student")) ;;
  role <- user_field context (u"role") (VStr (u"student")) ;;
  ret (u"You are CampusCompanion AI, a helpful and friendly campus assistant.

Current Context:
- User: " ++ fmt w name ++ u"
- Role: " ++ fmt w role ++ u"
- Time: " ++ fmt w (get_or context (u"timestamp") (VStr (u"now"))) ++ u"

Guidelines:
- Be conversational and natural (like ChatGPT)
- Don't repeat previous responses
- Provide helpful, accurate information
- If you don't know something, admit it
- Keep responses concise but informative
- Use emojis sparingly and appropriately").

(** The request each provider branch builds from the history. *)
Definition completion_request (provider : AiType) (system_prompt message : str)
    (history : list Turn) : LlmRequest :=
  match provider with
  | openai =>
      OpenAIChat ([mkMsg (u"system") system_prompt]
                    ++ map turn_msg (last_n 6 history)
                    ++ [mkMsg (u"user") message])
  | gemini =>
      GeminiGenerate
        (system_prompt ++ nl ++ nl ++ u"Conversation History:" ++ nl
           ++ concat (map (fun msg => str_title w (turn_role msg) ++ u": "
                                        ++ turn_content msg ++ nl)
                          (last_n 4 history))
           ++ nl ++ u"User: " ++ message ++ nl ++ u"Assistant:")
  | anthropic =>
      AnthropicMessages system_prompt
        (map turn_msg (last_n 6 history) ++ [mkMsg (u"user") message])
  end.

Definition _generate_conversational_response (message : str) (history : list Turn)
    (context : dict) : PyM str :=
  match ai_type w with
  | None => _get_rule_based_response message context
  | Some provider =>
      try
        system_prompt <- system_prompt_of context ;;
        let reply := llm w (completion_request provider system_prompt message history) in
        match provider with
        | anthropic => await_message reply
        | _ => lift reply
        end
      except e => _get_rule_based_response message context
  end.

Definition apology : str := u"I apologize, but I encountered an error. Please try again.".

(** The [except] branch of [process_message]; [conv_id] is [None] when
    ['conv_id' in locals()] is false. *)
Definition failure (conv_id : option str) : PyM ChatEnvelope :=
  t <- utcnow w ;;
  ret (mkChatEnvelope false apology conv_id None None t).

(** [conversation_id or f"{user_id}_{int(datetime.now().timestamp())}"] *)
Definition resolve_conversation_id (user_id : str) (conversation_id : option str)
  : PyM str :=
  match conversation_id with
  | Some (c :: r) => ret (c :: r)
  | _ =>
      t <- now w ;;
      ret (user_id ++ u"_" ++ str_of_Z (epoch_seconds w t))
  end.

(** The statements of the [try] block that follow the assignment to
    [conv_id]. *)
Definition respond (message user_id : str) (context : option dict) (conv_id : str)
  : PyM ChatEnvelope :=
  conversation_history <- _get_conversation_history user_id conv_id ;;
  full_context <- _gather_context user_id context ;;
  let action_needed := _detect_action_intent w message in
  reply <-
    (if action_needed then
       response_data <- _route_to_agent message user_id full_context ;;
       ret (route_response response_data, route_actions response_data)
     else
       response_text <-
         _generate_conversational_response message conversation_history full_context ;;
       ret (response_text, [])) ;;
  let (response_text, actions_taken) := reply : str * list dict in
  _save_to_history user_id conv_id message response_text ;;;
  t <- utcnow w ;;
  ret (mkChatEnvelope true response_text (Some conv_id) (Some full_context)
                      (Some actions_taken) t).

(** The single [try] of the source is written as two, one on each side
    of the assignment to [conv_id], so that each handler knows whether
    the name is bound. *)
Definition process_message (message user_id : str) (context : option dict)
    (conversation_id : option str) : PyM ChatEnvelope :=
  try
    conv_id <- resolve_conversation_id user_id conversation_id ;;
    try respond message user_id context conv_id
    except e => failure (Some conv_id)
  except e => failure None.

Definition clear_history (user_id : str) : PyM unit :=
  try
    conversations <- get_collection conversations ;;
    modify (set_db (with_conversations
      (filter (fun c => negb (str_eqb (conv_user_id c) user_id)) conversations)))
  except e => ret tt.
End WithWorld.

End IntelligentChatbot.

(* ===================================================================== *)
(** ** chatbot/voice_assistant.py *)
(* ===================================================================== *)

Module VoiceAssistant.

Definition continuation : str := u"... Would you like more details?".

Definition _format_for_voice (text : str) : str :=
  let text := replace (u"**") [] text in
  let text := replace (u"##") [] text in
  let text := replace (u"###") [] text in
  let text := replace (u"•") [] text in
  let text := replace (u"-") [] text in
  if (500 <? length text)%nat then take 500 text ++ continuation else text.

Definition sorry : str :=
  u"I'm sorry, I couldn't process your voice request. Please try again.".

(** [context or {}] with the two voice keys set. *)
Definition voice_context_of (context : option dict) : dict :=
  let voice_context := match context with Some (kv :: c) => kv :: c | _ => [] end in
  let voice_context := dict_set voice_context (u"input_type") (VStr (u"voice")) in
  dict_set voice_context (u"requires_concise_response") (VBool true).

Section WithWorld.
Variable w : World.

(** [process_voice_query] over the chatbot held in [self.chatbot]. *)
Definition process_voice_query_with
    (chatbot : str -> str -> option dict -> option str -> PyM ChatEnvelope)
    (query user_id : str) (context : option dict) : PyM VoiceEnvelope :=
  try
    let voice_context := voice_context_of context in
    result <- chatbot query user_id (Some voice_context) None ;;
    let voice_response := _format_for_voice (chat_response result) in
    t <- utcnow w ;;
    ret (mkVoiceEnvelope true voice_response
           (Some (match chat_actions_taken result with Some a => a | None => [] end))
           true t)
  except e =>
    t <- utcnow w ;;
    ret (mkVoiceEnvelope false sorry None true t).

Definition process_voice_query : str -> str -> option dict -> PyM VoiceEnvelope :=
  process_voice_query_with (IntelligentChatbot.process_message w).
End WithWorld.

End VoiceAssistant.

(* ===================================================================== *)
(** ** main.py and models/schemas.py *)
(* ===================================================================== *)

Module Main.

(** [HTTPException(status_code=..., detail=...)] *)
Record HTTPException := mkHTTPException { status_code : Z; detail : str }.

(** What a route hands to the framework: the value its handler returns,
    or the [HTTPException] raised by the handler or by its dependency.
    The validation of that value against the route's [response_model],
    which the framework does afterwards, is not part of the handlers. *)
Definition Route (A : Type) : Type := State -> (A + HTTPException) * State.

(** The request bodies. *)
Record ChatRequest := mkChatRequest {
  chat_request_message : str;
  chat_request_user_id : str;
  chat_request_context : option dict;
  chat_request_conversation_id : option str }.

Record VoiceRequest := mkVoiceRequest {
  voice_request_query : str;
  voice_request_user_id : str;
  voice_request_context : option dict;
  voice_request_language : option str }.

Record AgentRequest := mkAgentRequest {
  agent_request_query : str;
  agent_request_user_id : str;
  agent_request_context : option dict;
  agent_request_action_type : option str }.

Section WithSettings.
Variable w : World.
Variable BACKEND_API_KEY : str.

(** The value of the [x-api-key] header, [None] when the header is
    absent. *)
Definition verify_api_key (x_api_key : option str) : option str + HTTPException :=
  match x_api_key with
  | Some (c :: key) =>
      if negb (str_eqb (c :: key) BACKEND_API_KEY)
      then inr (mkHTTPException 403 (u"Invalid API key"))
      else inl (Some (c :: key))
  | _ => inl None
  end.

(** [api_key: str = Depends(verify_api_key)]: the dependency is resolved
    before the handler is called, and the handler is not called when it
    raises. *)
Definition depends_on_api_key {A} (x_api_key : option str) (handler : Route A) : Route A :=
  fun s =>
    match verify_api_key x_api_key with
    | inl _ => handler s
    | inr e => (inr e, s)
    end.

(** The body every handler has: [try: ... return response] and
    [except Exception as e: raise HTTPException(status_code=500,
    detail=str(e))]. *)
Definition or_500 {A} (body : PyM A) : Route A :=
  fun s =>
    match body s with
    | (Ok response, s') => (inl response, s')
    | (Raise e, s') => (inr (mkHTTPException 500 (exn_msg e)), s')
    end.

Definition chat (request : ChatRequest) (x_api_key : option str) : Route ChatEnvelope :=
  depends_on_api_key x_api_key
    (or_500 (IntelligentChatbot.process_message w
               (chat_request_message request) (chat_request_user_id request)
               (chat_request_context request) (chat_request_conversation_id request))).

Definition voice_chat (request : VoiceRequest) (x_api_key : option str)
  : Route VoiceEnvelope :=
  depends_on_api_key x_api_key
    (or_500 (VoiceAssistant.process_voice_query w
               (voice_request_query request) (voice_request_user_id request)
               (voice_request_context request))).

Definition clear_chat_history (user_id : str) (x_api_key : option str) : Route dict :=
  depends_on_api_key x_api_key
    (or_500 (IntelligentChatbot.clear_history user_id ;;;
             ret [(u"success", VBool true); (u"message", VStr (u"Chat history cleared"))])).

Definition student_study_planner (request : AgentRequest) (x_api_key : option str)
  : Route Envelope :=
  depends_on_api_key x_api_key
    (or_500 (StudentStudyPlannerAgent.process w
               (agent_request_query request) (agent_request_user_id request)
               (agent_request_context request))).

Definition student_assignment_manager (request : AgentRequest) (x_api_key : option str)
  : Route Envelope :=
  depends_on_api_key x_api_key
    (or_500 (StudentAssignmentManagerAgent.process w
               (agent_request_query request) (agent_request_user_id request)
               (agent_request_context request))).

Definition admin_report_generator (request : AgentRequest) (x_api_key : option str)
  : Route Envelope :=
  depends_on_api_key x_api_key
    (or_500 (AdminReportGeneratorAgent.process w
               (agent_request_query request) (agent_request_user_id request)
               (agent_request_context request))).

Definition admin_helpdesk_manager (request : AgentRequest) (x_api_key : option str)
  : Route Envelope :=
  depends_on_api_key x_api_key
    (or_500 (AdminHelpdeskManagerAgent.process w
               (agent_request_query request) (agent_request_user_id request)
               (agent_request_context request))).
End WithSettings.

End Main.

(* ===================================================================== *)
(** ** Vocabulary of the statements *)
(* ===================================================================== *)

(** [k] occurs in [s] as a substring. *)
Definition occurs (k s : str) : Prop := exists pre post, s = pre ++ k ++ post.

(** [m] returns, whatever the state it starts in. *)
Definition never_raises {A} (m : PyM A) : Prop :=
  forall s, exists a s', m s = (Ok a, s').

(** Whatever [m] returns satisfies [Q]. *)
Definition returns_only {A} (m : PyM A) (Q : A -> Prop) : Prop :=
  forall s a s', m s = (Ok a, s') -> Q a.

(** The shape of one week of a study plan: seven study sessions, the
    first three of high and the other four of medium priority, then the
    assessment. *)
Definition weekly_phase (ph : Phase) : Prop :=
  map task_type (phase_tasks ph)
    = [u"study"; u"study"; u"study"; u"study"; u"study"; u"study"; u"study"; u"assessment"]
  /\ map task_priority (phase_tasks ph)
    = [u"high"; u"high"; u"high"; u"medium"; u"medium"; u"medium"; u"medium"; u"high"].

Definition is_digit (c : char) : Prop := (48 <= c <= 57)%N.

(* ===================================================================== *)
(** ** Worlds and requests for the examples *)
(* ===================================================================== *)

Module Examples.

(** [datetime.fromisoformat] on a date [YYYY-MM-DD]: midnight of that
    day, counted from 1970-01-01. *)
Definition days_from_civil (y m d : Z) : Z :=
  let y' := if m <=? 2 then y - 1 else y in
  let era := y' / 400 in
  let yoe := y' - era * 400 in
  let mp := if 2 <? m then m - 3 else m + 9 in
  let doy := (153 * mp + 2) / 5 + d - 1 in
  let doe := yoe * 365 + yoe / 4 - yoe / 100 + doy in
  era * 146097 + doe - 719468.

Definition midnight (y m d : Z) : datetime := days_from_civil y m d * 86400000000.

Definition parse_date (s : str) : result datetime :=
  match s with
  | [y1; y2; y3; y4; 45%N; m1; m2; 45%N; d1; d2] =>
      match digits_from 0 false [y1; y2; y3; y4],
            digits_from 0 false [m1; m2], digits_from 0 false [d1; d2] with
      | Some y, Some m, Some d =>
          if (1 <=? m) && (m <=? 12) && (1 <=? d) && (d <=? 31)
          then Ok (midnight y m d)
          else Raise (mk_exn ValueError (u"month or day is out of range"))
      | _, _, _ => Raise (mk_exn ValueError (u"Invalid isoformat string"))
      end
  | _ => Raise (mk_exn ValueError (u"Invalid isoformat string"))
  end.

(** A service with no provider configured, started on 2026-01-01; the
    clock advances by a microsecond per reading.  Dates and floats are
    printed as their number, and text is lower-cased and title-cased as
    ASCII text is. *)
Definition offline : World :=
  {| OPENAI_API_KEY := None;
     GEMINI_API_KEY := None;
     ANTHROPIC_API_KEY := None;
     ENABLE_CONVERSATION_MEMORY := true;
     str_lower := ascii_lower;
     str_title := ascii_title;
     int_literal := fun s =>
       Raise (mk_exn ValueError (u"invalid literal for int() with base 10: '" ++ s ++ u"'"));
     llm := fun _ => Raise (mk_exn ExternalError (u"no provider"));
     json_loads := fun _ => Raise (mk_exn ValueError (u"Expecting value"));
     fromisoformat := parse_date;
     strftime := fun t _ => str_of_Z t;
     float_repr := fun q => str_of_Z (Qnum q) ++ u"/" ++ str_of_Z (Z.pos (Qden q));
     format_1f := fun q => str_of_Z (Qnum q) ++ u"/" ++ str_of_Z (Z.pos (Qden q));
     clock := fun n => midnight 2026 1 1 + Z.of_nat n;
     utc_offset := 0;
     mongo_regex := fun q => Ok (fun text => str_in (ascii_lower q) (ascii_lower text));
     mongo_literal := fun q text => str_in (ascii_lower q) (ascii_lower text);
     object_id := fun n => u"plan-" ++ str_of_nat n |}.

(** The same service with a provider whose answer to every request is
    [answer], decoded by [json.loads] to [decoded]. *)
Definition answering (answer : str) (decoded : Val) : World :=
  {| OPENAI_API_KEY := Some (u"sk-demo");
     GEMINI_API_KEY := None;
     ANTHROPIC_API_KEY := None;
     ENABLE_CONVERSATION_MEMORY := true;
     str_lower := ascii_lower;
     str_title := ascii_title;
     int_literal := fun s =>
       Raise (mk_exn ValueError (u"invalid literal for int() with base 10: '" ++ s ++ u"'"));
     llm := fun _ => Ok answer;
     json_loads := fun s => if str_eqb s answer then Ok decoded
                            else Raise (mk_exn ValueError (u"Expecting value"));
     fromisoformat := parse_date;
     strftime := strftime offline;
     float_repr := float_repr offline;
     format_1f := format_1f offline;
     clock := clock offline;
     utc_offset := 0;
     mongo_regex := mongo_regex offline;
     mongo_literal := mongo_literal offline;
     object_id := object_id offline |}.

Definition assignment (title due priority : str) : dict :=
  [(u"userId", VStr (u"u1")); (u"title", VStr title); (u"status", VStr (u"pending"));
   (u"dueDate", VStr due); (u"priority", VStr priority)].

(** A store with one student and three pending assignments, due the day
    after, three days after and the day before the service's clock, held
    through a driver whose database objects are true. *)
Definition campus : DB :=
  {| connected := true;
     db_truth := Ok true;
     conversations := [];
     users := [[(u"_id", VStr (u"u1")); (u"name", VStr (u"Asha")); (u"role", VStr (u"student"))]];
     courses := [];
     assignments := [assignment (u"Essay") (u"2026-01-02") (u"medium");
                     assignment (u"Lab report") (u"2026-01-04") (u"high");
                     assignment (u"Quiz") (u"2025-12-31") (u"high")];
     materials := [];
     events := [];
     helpdesks := [];
     agenticplans := [];
     agent_logs := [] |}.

Definition start : State := mkState campus 0.

(** A provider answer whose duration does not start with a number, and
    what [json.loads] makes of it. *)
Definition worded_duration_answer : str := uq"{~estimated_duration~: ~two weeks~}".
Definition worded_duration : Val := VDict [(u"estimated_duration", VStr (u"two weeks"))].

(** The example store with no database object: [connect()] has not
    assigned one. *)
Definition disconnected : State :=
  mkState (mkDB false (Ok true) [] [] [] [] [] [] [] [] []) 0.



(** The planner's context for a student with nothing on record. *)
Definition no_context : StudentStudyPlannerAgent.UserContext :=
  StudentStudyPlannerAgent.mkUserContext [] [] [] 0 0.

End Examples.

(** [e] is an envelope of the agent [self]: marked successful and
    carrying its name. *)
Definition envelope_of (self : Agent) (e : Envelope) : Prop :=
  env_success e = true /\ env_agent_name e = agent_name self.




(** The four responders of the service: the agent, its [process] method
    and the [try] block of that method. *)
Definition responders
  : list (Agent
          * (World -> str -> str -> option dict -> PyM Envelope)
          * (World -> str -> str -> option dict -> PyM Envelope)) :=
  [(StudentStudyPlannerAgent.self,
    StudentStudyPlannerAgent.process, StudentStudyPlannerAgent.attempt);
   (StudentAssignmentManagerAgent.self,
    StudentAssignmentManagerAgent.process, StudentAssignmentManagerAgent.attempt);
   (AdminReportGeneratorAgent.self,
    AdminReportGeneratorAgent.process, AdminReportGeneratorAgent.attempt);
   (AdminHelpdeskManagerAgent.self,
    AdminHelpdeskManagerAgent.process, AdminHelpdeskManagerAgent.attempt)].

(** What a responder owes its caller: [process] returns an envelope
    marked successful under the agent's name, and when its [try] block
    raises [e] the envelope carries the fallback text and the one action
    that records [e]. *)
Definition recovers (self : Agent)
    (process attempt : World -> str -> str -> option dict -> PyM Envelope) : Prop :=
  forall (w : World) (query user_id : str) (context : option dict) (s : State),
    (exists env s',
        process w query user_id context s = (Ok env, s')
        /\ env_success env = true
        /\ env_agent_name env = agent_name self)
    /\ (forall e s1,
          attempt w query user_id context s = (Raise e, s1) ->
          exists env s',
            process w query user_id context s = (Ok env, s')
            /\ env_success env = true
            /\ env_response env = get_fallback_response self query
            /\ env_actions_performed env
               = [[(u"type", VStr (u"error")); (u"message", VStr (exn_msg e));
                   (u"success", VBool false)]]
            /\ env_data env = None).


(** What a call does to the store: [R] relates the store it starts in to
    the store it leaves, whether it returns or raises. *)
Definition keeps {A} (R : DB -> DB -> Prop) (m : PyM A) : Prop :=
  forall s, R (db s) (db (snd (m s))).

(** [d'] is [d] with at most [plans] study plans and [logs] log entries
    added behind those it had, and nothing else changed. *)
Definition grows (plans logs : nat) (d d' : DB) : Prop :=
  (connected d' = connected d /\ db_truth d' = db_truth d)
  /\ conversations d' = conversations d
  /\ users d' = users d
  /\ courses d' = courses d
  /\ assignments d' = assignments d
  /\ materials d' = materials d
  /\ events d' = events d
  /\ helpdesks d' = helpdesks d
  /\ (exists new, agenticplans d' = agenticplans d ++ new /\ (length new <= plans)%nat)
  /\ (exists new, agent_logs d' = agent_logs d ++ new /\ (length new <= logs)%nat).

(** The counts of an assignment dashboard agree with each other and with
    the list shown: no more overdue than pending items, pending and
    completed items together no more than the total, at most 100 items
    in all, and the ten first pending items at most in the list. *)
Definition consistent_dashboard (e : Envelope) : Prop :=
  exists (total pending completed overdue : nat) (listed : list Val),
    env_analysis e
    = Some (VDict [(u"total", VInt (Z.of_nat total));
                   (u"pending", VInt (Z.of_nat pending));
                   (u"completed", VInt (Z.of_nat completed));
                   (u"overdue", VInt (Z.of_nat overdue))])
    /\ env_data e = Some (DictData [(u"assignments", VList listed)])
    /\ (overdue <= pending)%nat
    /\ (pending + completed <= total)%nat
    /\ (1 <= total <= 100)%nat
    /\ length listed = Nat.min 10 pending.

(** The phase [make_phase] builds for [week] when [reading] clock
    readings have been taken: the start date comes from that reading,
    the end date from the next one, and the deadline of day [d] from the
    reading [2 + d] further on. *)
Definition phase_at (w : World) (goal : str) (reading : nat) (week : Z) : Phase :=
  let end_date := clock w (S reading) + timedelta (week + 1) 0 in
  {| phase_name := u"Week " ++ str_of_Z (week + 1);
     phase_order := week;
     phase_duration := u"1 week";
     phase_start_date := clock w reading + timedelta week 0;
     phase_end_date := end_date;
     phase_tasks :=
       map (fun d : nat =>
              {| task_title := u"Day " ++ str_of_Z (Z.of_nat d + 1) ++ u": Study Session";
                 task_description := u"Focus on " ++ goal;
                 task_type := u"study";
                 task_estimated_hours := 2;
                 task_deadline := clock w (2 + d + reading) + timedelta week (Z.of_nat d);
                 task_status := u"pending";
                 task_priority := if Z.of_nat d <? 3 then u"high" else u"medium" |})
           (seq 0 7)
       ++ [{| task_title := u"Week " ++ str_of_Z (week + 1) ++ u" Assessment";
              task_description := u"Test your understanding of " ++ goal;
              task_type := u"assessment";
              task_estimated_hours := 1;
              task_deadline := end_date;
              task_status := u"pending";
              task_priority := u"high" |}] |}.



(** The header values [verify_api_key] lets through: no header, an empty
    one, or the configured key. *)
Definition accepted_key (BACKEND_API_KEY : str) (x_api_key : option str) : Prop :=
  x_api_key = None \/ x_api_key = Some [] \/ x_api_key = Some BACKEND_API_KEY.

(** The route answers with what its component returns, and leaves the
    state the component leaves. *)
Definition serves {A} (route : Main.Route A) (component : PyM A) : Prop :=
  forall s, exists response s',
    route s = (inl response, s') /\ component s = (Ok response, s').

(** The route refuses the request with status 403 before anything is
    run. *)
Definition refuses {A} (route : Main.Route A) : Prop :=
  forall s, route s = (inr (Main.mkHTTPException 403 (u"Invalid API key")), s).

(** The text is made of ASCII characters. *)
Definition ascii (s : str) : Prop := Forall (fun c => (c < 128)%N) s.

(** The runtime lower-cases a text of ASCII characters as Python does:
    the letters A-Z are folded and nothing else changes. *)
Definition folds_ascii (w : World) : Prop :=
  forall s, ascii s -> str_lower w s = ascii_lower s.

(** [c] is the character [l], or the capital of the lower-case letter
    [l]. *)
Definition same_letter (c l : char) : Prop :=
  c = l \/ ((97 <= l <= 122)%N /\ c = (l - 32)%N).

(** [k] occurs in [s] whatever the case in which its letters are
    written there. *)
Definition occurs_nocase (k s : str) : Prop :=
  exists pre mid post, s = pre ++ mid ++ post /\ Forall2 same_letter mid k.

(** The service holds a database object and the driver lets it be tested
    for truth: [get_collection] hands out its collections. *)
Definition usable (d : DB) : Prop := connected d = true /\ db_truth d = Ok true.

(** The dates a [datetime] can hold: from the first day of year 1 to the
    last microsecond of year 9999; beyond them [datetime + timedelta]
    raises OverflowError. *)
Definition datetime_min : datetime := Examples.midnight 1 1 1.
Definition datetime_max : datetime := Examples.midnight 10000 1 1 - 1.
Definition representable (t : datetime) : Prop := datetime_min <= t <= datetime_max.

(** Every date computed for a plan of [n] weeks, built from the clock
    reading [first] on, is one a [datetime] can hold: the readings
    themselves, and the dates up to [n] weeks after them. *)
Definition plan_dates_representable (w : World) (first n : nat) : Prop :=
  forall k : nat,
    (k <= 9 * n)%nat ->
    representable (clock w (first + k))
    /\ representable (clock w (first + k) + timedelta (Z.of_nat n) 0).

(* ===================================================================== *)
(** ** Properties *)
(* ===================================================================== *)

(** *** Text *)

Lemma startswith_spec (p s : str) :
  startswith p s = true <-> exists post, s = p ++ post.
Proof.
  revert s; induction p as [|x p IH]; intros s; simpl.
  - split; [intros _; now exists s | reflexivity].
  - destruct s as [|y s].
    + split; [discriminate | intros [post H]; discriminate].
    + rewrite andb_true_iff, IH. unfold char_eqb. rewrite N.eqb_eq. split.
      * intros [-> [post ->]]. now exists post.
      * intros [post H]. injection H as -> ->. split; [reflexivity | now exists post].
Qed.

Lemma str_in_spec (k s : str) : str_in k s = true <-> occurs k s.
Proof.
  unfold occurs. induction s as [|c s IH].
  - simpl. rewrite orb_false_r, startswith_spec. split.
    + intros [post H]. now exists [], post.
    + intros [pre [post H]]. destruct pre; [now exists post | discriminate].
  - cbn [str_in]. rewrite orb_true_iff, startswith_spec, IH. split.
    + intros [[post H] | [pre [post H]]].
      * now exists [], post.
      * exists (c :: pre), post. now rewrite H.
    + intros [pre [post H]]. destruct pre as [|c' pre].
      * left. now exists post.
      * right. injection H as _ H. now exists pre, post.
Qed.

Lemma any_in_spec (words : list str) (text : str) :
  StudentAssignmentManagerAgent.any_in words text = true
  <-> exists k, In k words /\ occurs k text.
Proof.
  unfold StudentAssignmentManagerAgent.any_in. rewrite existsb_exists.
  split; intros [k [Hin H]]; exists k; (split; [exact Hin | now apply str_in_spec]).
Qed.

(** *** Intent classification *)

Lemma lower_char_same_letter (c l : char) :
  ((65 <=? l) && (l <=? 90))%N = false ->
  (lower_char c = l <-> same_letter c l).
Proof.
  intros Hl. unfold lower_char, same_letter.
  destruct ((65 <=? c) && (c <=? 90))%N eqn:Hc.
  - apply andb_true_iff in Hc as [H1 H2]. apply N.leb_le in H1, H2. split.
    + intros <-. right. split; lia.
    + intros [-> | [Hr ->]]; [|lia].
      rewrite (proj2 (andb_true_iff _ _) (conj (proj2 (N.leb_le _ _) H1)
                                              (proj2 (N.leb_le _ _) H2))) in Hl.
      discriminate Hl.
  - split.
    + intros <-. left. reflexivity.
    + intros [-> | [Hr ->]]; [reflexivity|]. exfalso.
      apply andb_false_iff in Hc as [H|H]; apply N.leb_gt in H; lia.
Qed.

Lemma lower_same_letters (mid k : str) :
  forallb (fun l => negb ((65 <=? l) && (l <=? 90))%N) k = true ->
  (ascii_lower mid = k <-> Forall2 same_letter mid k).
Proof.
  revert mid. induction k as [|l k IH]; intros mid Hk.
  - destruct mid; split; intros H; try reflexivity; try constructor;
      try discriminate H; inversion H.
  - cbn [forallb] in Hk. apply andb_true_iff in Hk as [Hl Hk].
    apply negb_true_iff in Hl. destruct mid as [|c mid].
    + split; intros H; [discriminate H | inversion H].
    + cbn [ascii_lower map]. split.
      * intros H. injection H as Hc Hrest. constructor.
        -- apply lower_char_same_letter; assumption.
        -- apply IH; assumption.
      * intros H. inversion H as [|? ? ? ? Hc Hrest]; subst. f_equal.
        -- apply lower_char_same_letter; assumption.
        -- apply (IH mid Hk). exact Hrest.
Qed.

Lemma occurs_lower_nocase (k s : str) :
  forallb (fun l => negb ((65 <=? l) && (l <=? 90))%N) k = true ->
  (occurs k (ascii_lower s) <-> occurs_nocase k s).
Proof.
  intros Hk. unfold occurs, occurs_nocase, ascii_lower. split.
  - intros (pre' & post' & H).
    apply map_eq_app in H as (pre & rest & -> & Hpre & Hrest).
    apply map_eq_app in Hrest as (mid & post & -> & Hmid & Hpost).
    exists pre, mid, post. split; [reflexivity|].
    apply (lower_same_letters mid k Hk). exact Hmid.
  - intros (pre & mid & post & -> & H).
    exists (map lower_char pre), (map lower_char post).
    rewrite !map_app. do 2 f_equal.
    apply (lower_same_letters mid k Hk). exact H.
Qed.

Lemma hit_lower_nocase (words : list str) (s : str) :
  forallb (forallb (fun l => negb ((65 <=? l) && (l <=? 90))%N)) words = true ->
  ((exists k, In k words /\ occurs k (ascii_lower s))
   <-> exists k, In k words /\ occurs_nocase k s).
Proof.
  intros Hw. rewrite forallb_forall in Hw.
  split; intros (k & Hin & H); exists k; (split; [exact Hin|]);
    apply (occurs_lower_nocase k s (Hw k Hin)); exact H.
Qed.

(** C2: the action-intent classifier answers true exactly when the
    lower-cased message contains one of the fourteen action keywords as a
    substring, and false for every message that contains none of them;
    lower-casing is the runtime's [str.lower].  On a message of ASCII
    characters this is a match whatever the case: the classifier answers
    true exactly when one of the keywords occurs in the message as
    typed, its letters in either case. *)
Theorem detect_action_intent_spec :
  IntelligentChatbot.action_keywords =
    [u"create"; u"generate"; u"make"; u"show me"; u"find"; u"search";
     u"enroll"; u"register"; u"add"; u"schedule"; u"plan";
     u"list my"; u"what are my"; u"get my"]
  /\ (forall w message,
        IntelligentChatbot._detect_action_intent w message = true
        <-> exists k, In k IntelligentChatbot.action_keywords
                      /\ occurs k (str_lower w message))
  /\ (forall w message,
        IntelligentChatbot._detect_action_intent w message = false
        <-> forall k, In k IntelligentChatbot.action_keywords
                      -> ~ occurs k (str_lower w message))
  /\ (forall w message,
        folds_ascii w -> ascii message ->
        (IntelligentChatbot._detect_action_intent w message = true
         <-> exists k, In k IntelligentChatbot.action_keywords /\ occurs_nocase k message)
        /\ (IntelligentChatbot._detect_action_intent w message = false
            <-> forall k, In k IntelligentChatbot.action_keywords
                          -> ~ occurs_nocase k message)).
Proof.
  split; [reflexivity |].
  assert (H : forall w message,
             IntelligentChatbot._detect_action_intent w message = true
             <-> exists k, In k IntelligentChatbot.action_keywords
                           /\ occurs k (str_lower w message)).
  { intros w message. unfold IntelligentChatbot._detect_action_intent.
    apply any_in_spec. }
  assert (Hfalse : forall w message,
             IntelligentChatbot._detect_action_intent w message = false
             <-> forall k, In k IntelligentChatbot.action_keywords
                           -> ~ occurs k (str_lower w message)).
  { intros w message. split.
    - intros Hf k Hin Hocc.
      assert (Ht : IntelligentChatbot._detect_action_intent w message = true)
        by (apply H; now exists k).
      congruence.
    - intros Hnone.
      destruct (IntelligentChatbot._detect_action_intent w message) eqn:E; [| reflexivity].
      apply H in E. destruct E as [k [Hin Hocc]]. now elim (Hnone k Hin). }
  split; [exact H |]. split; [exact Hfalse |].
  intros w message Hw Hascii.
  assert (Hhit : (exists k, In k IntelligentChatbot.action_keywords
                            /\ occurs k (str_lower w message))
                 <-> exists k, In k IntelligentChatbot.action_keywords
                               /\ occurs_nocase k message).
  { rewrite (Hw message Hascii). apply hit_lower_nocase. vm_compute. reflexivity. }
  split.
  - rewrite H. exact Hhit.
  - rewrite Hfalse. split.
    + intros Hnone k Hin Hocc.
      destruct (proj2 Hhit (ex_intro _ k (conj Hin Hocc))) as (k' & Hin' & Hocc').
      exact (Hnone k' Hin' Hocc').
    + intros Hnone k Hin Hocc.
      destruct (proj1 Hhit (ex_intro _ k (conj Hin Hocc))) as (k' & Hin' & Hocc').
      exact (Hnone k' Hin' Hocc').
Qed.

Lemma ascii_forallb (s : str) : forallb (fun c => (c <? 128)%N) s = true -> ascii s.
Proof.
  intros H. apply Forall_forall. intros c Hc.
  apply N.ltb_lt. exact (proj1 (forallb_forall _ s) H c Hc).
Qed.

(** A request typed partly in capitals is an action request. *)
Lemma shouted_request_is_an_action :
  folds_ascii Examples.offline
  /\ ascii (u"Please CREATE a quiz")
  /\ IntelligentChatbot._detect_action_intent Examples.offline (u"Please CREATE a quiz")
     = true.
Proof.
  assert (Hw : folds_ascii Examples.offline) by (intros s _; reflexivity).
  assert (Ha : ascii (u"Please CREATE a quiz"))
    by (apply ascii_forallb; vm_compute; reflexivity).
  split; [exact Hw|]. split; [exact Ha|].
  apply (proj1 (proj2 (proj2 (proj2 detect_action_intent_spec))
                  Examples.offline (u"Please CREATE a quiz") Hw Ha)).
  exists (u"create"). split; [vm_compute; left; reflexivity|].
  exists (u"Please "), (u"CREATE"), (u" a quiz"). split; [reflexivity|].
  vm_compute.
  repeat (apply Forall2_cons; [right; split; [split; discriminate | reflexivity]|]).
  apply Forall2_nil.
Defined.

(** *** Decimal numerals *)

Lemma digits_from_acc (d : Decimal.uint) :
  forall p, digits_from (Z.pos p) true (str_of_uint d) = Some (Z.pos (Pos.of_uint_acc d p)).
Proof.
  induction d; intros p; cbn [str_of_uint digits_from Pos.of_uint_acc];
    try reflexivity;
    match goal with
    | |- context [digit_of ?c] =>
        let v := eval vm_compute in (digit_of c) in change (digit_of c) with v
    end;
    cbv beta iota; rewrite <- IHd; f_equal; lia.
Qed.

Lemma digits_from_uint (d : Decimal.uint) :
  forall b, d <> Decimal.Nil \/ b = true ->
            digits_from 0 b (str_of_uint d) = Some (Z.of_uint d).
Proof.
  unfold Z.of_uint.
  induction d; intros b Hb; cbn [str_of_uint digits_from Pos.of_uint];
    try (match goal with
         | |- context [digit_of ?c] =>
             let v := eval vm_compute in (digit_of c) in change (digit_of c) with v
         end;
         cbv beta iota).
  - destruct Hb as [Hb | ->]; [now elim Hb | reflexivity].
  - change (10 * 0 + 0) with 0. apply IHd. now right.
  - apply (digits_from_acc d 1).
  - apply (digits_from_acc d 2).
  - apply (digits_from_acc d 3).
  - apply (digits_from_acc d 4).
  - apply (digits_from_acc d 5).
  - apply (digits_from_acc d 6).
  - apply (digits_from_acc d 7).
  - apply (digits_from_acc d 8).
  - apply (digits_from_acc d 9).
Qed.

Lemma str_of_uint_digits (d : Decimal.uint) : Forall is_digit (str_of_uint d).
Proof.
  induction d; cbn [str_of_uint]; constructor; try assumption; unfold is_digit; lia.
Qed.

Lemma digit_not_space (c : char) : is_digit c -> is_space c = false.
Proof.
  unfold is_digit, is_space. intros H.
  repeat rewrite orb_false_iff. repeat split;
    try (apply andb_false_iff; (left; apply N.leb_gt; lia) || (right; apply N.leb_gt; lia));
    apply N.eqb_neq; lia.
Qed.

Lemma strip_id (s : str) : Forall (fun c => is_space c = false) s -> strip s = s.
Proof.
  intros H. destruct s as [|c r]; [reflexivity |].
  unfold strip, rstrip.
  assert (Hl : lstrip (c :: r) = c :: r).
  { cbn [lstrip]. inversion H; subst. now rewrite H2. }
  rewrite Hl.
  destruct (rev (c :: r)) as [|x l] eqn:E.
  - apply (f_equal (@length _)) in E. rewrite length_rev in E. discriminate.
  - assert (Hx : is_space x = false).
    { rewrite Forall_forall in H. apply H. apply in_rev. rewrite E. now left. }
    cbn [lstrip]. rewrite Hx, <- E. apply rev_involutive.
Qed.

Lemma split_ws_from_run (ds : str) :
  Forall (fun c => is_space c = false) ds ->
  forall cur rest, split_ws_from cur (ds ++ rest) = split_ws_from (rev ds ++ cur) rest.
Proof.
  induction 1 as [|c ds Hc _ IH]; intros cur rest; [reflexivity |].
  cbn [app split_ws_from]. rewrite Hc, IH. cbn [rev]. now rewrite <- app_assoc.
Qed.

Lemma split_ws_first (ds : str) (rest : str) :
  ds <> [] -> Forall (fun c => is_space c = false) ds ->
  split_ws (ds ++ 32%N :: rest) = ds :: split_ws rest.
Proof.
  intros Hne H. unfold split_ws. rewrite (split_ws_from_run ds H).
  rewrite app_nil_r. cbn [split_ws_from]. change (is_space 32%N) with true. cbv iota.
  destruct (rev ds) as [|x l] eqn:E.
  - apply (f_equal (@rev _)) in E. rewrite rev_involutive in E. now elim Hne.
  - rewrite <- E, rev_involutive. reflexivity.
Qed.

Lemma str_of_uint_nonspace (d : Decimal.uint) :
  Forall (fun c => is_space c = false) (str_of_uint d).
Proof.
  eapply Forall_impl; [| apply str_of_uint_digits]. apply digit_not_space.
Qed.

(** [int(str(z)) == z] *)
Lemma int_of_str_of_Z (z : Z) : int_of_str (str_of_Z z) = Some z.
Proof.
  unfold str_of_Z, int_of_str. destruct z as [|p|p]; cbn [Z.to_int].
  - reflexivity.
  - rewrite strip_id by apply str_of_uint_nonspace.
    pose proof (DecimalPos.Unsigned.of_to p) as Hp.
    pose proof (DecimalPos.Unsigned.to_uint_nonnil p) as Hn.
    assert (Hd : digits_from 0 false (str_of_uint (Pos.to_uint p)) = Some (Z.pos p)).
    { rewrite digits_from_uint by now left. unfold Z.of_uint. now rewrite Hp. }
    destruct (Pos.to_uint p); exact Hd.
  - rewrite strip_id.
    + pose proof (DecimalPos.Unsigned.of_to p) as Hp.
      rewrite digits_from_uint by (left; apply DecimalPos.Unsigned.to_uint_nonnil).
      unfold Z.of_uint. now rewrite Hp.
    + constructor; [reflexivity | apply str_of_uint_nonspace].
Qed.

Lemma str_of_nat_run (n : nat) :
  str_of_nat n <> [] /\ Forall (fun c => is_space c = false) (str_of_nat n).
Proof.
  unfold str_of_nat, str_of_Z. destruct (Z.of_nat n) as [|p|p] eqn:E; cbn [Z.to_int].
  - split; [discriminate | repeat constructor].
  - split; [| apply str_of_uint_nonspace].
    pose proof (DecimalPos.Unsigned.to_uint_nonnil p) as Hn.
    destruct (Pos.to_uint p); try discriminate. now elim Hn.
  - lia.
Qed.

(** *** The monad *)

Lemma for_each_total {A B} (f : A -> PyM B) (P : A -> B -> Prop) :
  (forall x s, exists y s', f x s = (Ok y, s') /\ P x y) ->
  forall l s, exists ys s', for_each f l s = (Ok ys, s') /\ Forall2 P l ys.
Proof.
  intros Hf. induction l as [|x l IH]; intros s.
  - exists [], s. split; [reflexivity | constructor].
  - destruct (Hf x s) as [y [s1 [Hy HP]]].
    destruct (IH s1) as [ys [s2 [Hys HF]]].
    exists (y :: ys), s2. split; [| now constructor].
    cbn [for_each]. unfold bind. rewrite Hy, Hys. reflexivity.
Qed.

(** *** Study plans *)

Lemma make_phase_shape (w : World) (goal : str) (week : Z) (s : State) :
  exists ph s', StudentStudyPlannerAgent.make_phase w goal week s = (Ok ph, s')
                /\ weekly_phase ph.
Proof.
  assert (Hdays : StudentStudyPlannerAgent.range 7 = [0; 1; 2; 3; 4; 5; 6]) by reflexivity.
  eexists. eexists. split.
  - unfold StudentStudyPlannerAgent.make_phase. rewrite Hdays.
    cbv beta iota delta [bind ret now for_each StudentStudyPlannerAgent.daily_task].
    reflexivity.
  - split; reflexivity.
Qed.

Lemma str_of_nat_ascii (n : nat) :
  forallb (fun c => (c <? 128)%N) (str_of_nat n) = true.
Proof.
  apply forallb_forall. intros c Hc. apply N.ltb_lt.
  unfold str_of_nat, str_of_Z in Hc.
  destruct (Z.of_nat n) as [|p|p] eqn:E; cbn [Z.to_int] in Hc.
  - destruct Hc as [<- | []]. lia.
  - pose proof (str_of_uint_digits (Pos.to_uint p)) as Hd.
    rewrite Forall_forall in Hd. specialize (Hd c Hc). unfold is_digit in Hd. lia.
  - lia.
Qed.

Lemma duration_of_n_weeks (w : World) (a : dict) (n : nat) (s : State) :
  dict_get a (u"estimated_duration") = Some (VStr (str_of_nat n ++ u" weeks")) ->
  StudentStudyPlannerAgent.duration_weeks_of w (VDict a) s = (Ok (Z.of_nat n), s).
Proof.
  intros H. unfold StudentStudyPlannerAgent.duration_weeks_of, get_or.
  cbn [StudentStudyPlannerAgent.as_dict]. unfold bind, ret. rewrite H.
  change (u" weeks") with (32%N :: u"weeks").
  destruct (str_of_nat_run n) as [Hne Hrun].
  rewrite (split_ws_first _ _ Hne Hrun). rewrite str_of_nat_ascii.
  unfold str_of_nat. rewrite int_of_str_of_Z. reflexivity.
Qed.

Lemma plan_for_duration
    (w : World) (goal : str) (context : StudentStudyPlannerAgent.UserContext)
    (analysis : dict) (n : nat) (s : State) :
  StudentStudyPlannerAgent.duration_weeks_of w (VDict analysis) s = (Ok (Z.of_nat n), s) ->
  exists plan s',
    StudentStudyPlannerAgent._create_study_plan w goal context (VDict analysis) s
      = (Ok plan, s')
    /\ length (plan_phases plan) = n
    /\ Forall weekly_phase (plan_phases plan)
    /\ Forall (fun ph => length (phase_tasks ph) = 8%nat) (plan_phases plan).
Proof.
  intros H.
  destruct (for_each_total (StudentStudyPlannerAgent.make_phase w goal)
              (fun _ ph => weekly_phase ph) (make_phase_shape w goal)
              (StudentStudyPlannerAgent.range (Z.of_nat n)) s)
    as [phases [s1 [Hphases HF]]].
  eexists. eexists. split.
  - unfold StudentStudyPlannerAgent._create_study_plan, bind.
    rewrite H, Hphases.
    cbn [StudentStudyPlannerAgent.as_dict ret]. reflexivity.
  - cbn [plan_phases].
    assert (Hweekly : Forall weekly_phase phases).
    { clear Hphases. induction HF; constructor; assumption. }
    split; [| split; [exact Hweekly |]].
    + apply Forall2_length in HF. rewrite <- HF.
      unfold StudentStudyPlannerAgent.range.
      now rewrite length_map, length_seq, Nat2Z.id.
    + eapply Forall_impl; [| exact Hweekly].
      intros ph [Ht _]. apply (f_equal (@length _)) in Ht.
      now rewrite length_map in Ht.
Qed.

Lemma make_phase_ok (w : World) (goal : str) (week : Z) (s : State) :
  StudentStudyPlannerAgent.make_phase w goal week s
  = (Ok (phase_at w goal (ticks s) week), mkState (db s) (9 + ticks s)).
Proof.
  assert (Hdays : StudentStudyPlannerAgent.range 7 = [0; 1; 2; 3; 4; 5; 6]) by reflexivity.
  unfold StudentStudyPlannerAgent.make_phase. rewrite Hdays.
  cbv beta iota delta [bind ret now for_each StudentStudyPlannerAgent.daily_task db ticks].
  reflexivity.
Qed.

Lemma phases_from (w : World) (goal : str) (n : nat) :
  forall (a : nat) (s : State),
    for_each (StudentStudyPlannerAgent.make_phase w goal) (map Z.of_nat (seq a n)) s
    = (Ok (map (fun j => phase_at w goal (9 * j + ticks s) (Z.of_nat (a + j))) (seq 0 n)),
       mkState (db s) (9 * n + ticks s)).
Proof.
  induction n as [|n IH]; intros a s.
  - destruct s; reflexivity.
  - cbn [seq map for_each]. unfold bind at 1. rewrite make_phase_ok.
    unfold bind at 1. rewrite IH. unfold ret. cbn [db ticks].
    f_equal; [|f_equal; lia]. f_equal.
    rewrite Nat.mul_0_r, Nat.add_0_r. cbn [Nat.add]. f_equal.
    rewrite <- seq_shift, map_map. apply map_ext. intros j.
    f_equal; [lia | f_equal; lia].
Qed.

Lemma phase_at_representable (w : World) (goal : str) (first n r : nat) (week : Z) :
  plan_dates_representable w first n ->
  (first <= r)%nat -> (r + 8 <= first + 9 * n)%nat -> 0 <= week < Z.of_nat n ->
  representable (phase_start_date (phase_at w goal r week))
  /\ representable (phase_end_date (phase_at w goal r week))
  /\ Forall (fun t => representable (task_deadline t)) (phase_tasks (phase_at w goal r week)).
Proof.
  intros Hdates Hlo Hhi Hweek.
  assert (Hin : forall k, (k <= 8)%nat ->
              representable (clock w (k + r))
              /\ representable (clock w (k + r) + timedelta (Z.of_nat n) 0)).
  { intros k Hk. replace (k + r)%nat with (first + (k + r - first))%nat by lia.
    apply Hdates. lia. }
  pose proof (Hin 0%nat ltac:(lia)) as H0.
  pose proof (Hin 1%nat ltac:(lia)) as H1.
  pose proof (Hin 2%nat ltac:(lia)) as H2.
  pose proof (Hin 3%nat ltac:(lia)) as H3.
  pose proof (Hin 4%nat ltac:(lia)) as H4.
  pose proof (Hin 5%nat ltac:(lia)) as H5.
  pose proof (Hin 6%nat ltac:(lia)) as H6.
  pose proof (Hin 7%nat ltac:(lia)) as H7.
  pose proof (Hin 8%nat ltac:(lia)) as H8.
  clear Hin Hdates.
  cbn [Nat.add] in *.
  unfold representable, timedelta in *.
  unfold phase_at.
  cbn [phase_start_date phase_end_date phase_tasks seq map app Nat.add task_deadline].
  unfold timedelta. cbn [Z.of_nat Pos.of_succ_nat Pos.succ].
  split; [lia|]. split; [lia|].
  repeat (apply Forall_cons; [cbn [task_deadline]; lia|]). apply Forall_nil.
Qed.

Lemma create_study_plan_phases
    (w : World) (goal : str) (context : StudentStudyPlannerAgent.UserContext)
    (analysis : dict) (n : nat) (s : State) :
  StudentStudyPlannerAgent.duration_weeks_of w (VDict analysis) s = (Ok (Z.of_nat n), s) ->
  exists plan,
    StudentStudyPlannerAgent._create_study_plan w goal context (VDict analysis) s
    = (Ok plan, mkState (db s) (S (9 * n + ticks s)))
    /\ plan_goal plan = goal
    /\ plan_total_duration plan = str_of_nat n ++ u" weeks"
    /\ plan_phases plan
       = map (fun j => phase_at w goal (9 * j + ticks s) (Z.of_nat (0 + j))) (seq 0 n).
Proof.
  intros Hweeks. eexists. split.
  - unfold StudentStudyPlannerAgent._create_study_plan. unfold bind at 1.
    rewrite Hweeks. unfold bind at 1.
    unfold StudentStudyPlannerAgent.range. rewrite Nat2Z.id, phases_from.
    cbn [StudentStudyPlannerAgent.as_dict]. unfold bind, ret, now. cbn [db ticks].
    reflexivity.
  - cbn [plan_goal plan_total_duration plan_phases].
    split; [reflexivity|]. split; reflexivity.
Qed.

Lemma plan_dates_in_range (w : World) (goal : str) (first n : nat) :
  plan_dates_representable w first n ->
  Forall (fun ph => representable (phase_start_date ph)
                    /\ representable (phase_end_date ph)
                    /\ Forall (fun t => representable (task_deadline t)) (phase_tasks ph))
         (map (fun j => phase_at w goal (9 * j + first) (Z.of_nat (0 + j))) (seq 0 n)).
Proof.
  intros Hdates. apply Forall_forall. intros ph Hin.
  apply in_map_iff in Hin as (j & <- & Hj). apply in_seq in Hj.
  apply (phase_at_representable w goal first n _ _ Hdates); lia.
Qed.

(** C1: for an analysed duration of "N weeks" - "3 weeks" in particular -
    the plan is built, it has exactly N phases, and every phase holds
    eight tasks: seven daily study tasks, of priority "high" on days 0-2
    and "medium" on days 3-6, then the end-of-week assessment.  This is
    so for the clocks and the durations whose dates a [datetime] can
    hold: when the readings taken while the plan is built, and the dates
    N weeks after them, lie between year 1 and year 9999, so does every
    date the plan computes, and no [datetime.now() + timedelta(...)]
    overflows. *)
Theorem study_plan_has_n_weekly_phases
    (w : World) (goal : str) (context : StudentStudyPlannerAgent.UserContext)
    (analysis : dict) (n : nat) (s : State) :
  dict_get analysis (u"estimated_duration") = Some (VStr (str_of_nat n ++ u" weeks")) ->
  plan_dates_representable w (ticks s) n ->
  exists plan s',
    StudentStudyPlannerAgent._create_study_plan w goal context (VDict analysis) s
      = (Ok plan, s')
    /\ length (plan_phases plan) = n
    /\ Forall weekly_phase (plan_phases plan)
    /\ Forall (fun ph => length (phase_tasks ph) = 8%nat) (plan_phases plan)
    /\ Forall (fun ph => representable (phase_start_date ph)
                         /\ representable (phase_end_date ph)
                         /\ Forall (fun t => representable (task_deadline t))
                                   (phase_tasks ph))
              (plan_phases plan).
Proof.
  intros H Hdates. pose proof (duration_of_n_weeks w analysis n s H) as Hweeks.
  destruct (plan_for_duration w goal context analysis n s Hweeks)
    as (plan & s' & Hrun & Hlen & Hweekly & Htasks).
  exists plan, s'. split; [exact Hrun|]. split; [exact Hlen|].
  split; [exact Hweekly|]. split; [exact Htasks|].
  destruct (create_study_plan_phases w goal context analysis n s Hweeks)
    as (plan' & Hrun' & _ & _ & Hphases).
  rewrite Hrun in Hrun'. injection Hrun' as -> _.
  rewrite Hphases. apply plan_dates_in_range. exact Hdates.
Qed.

Lemma offline_dates_representable (first n : nat) :
  (first + 9 * n <= 1000)%nat -> (n <= 100)%nat ->
  plan_dates_representable Examples.offline first n.
Proof.
  intros Hfirst Hn k Hk.
  unfold representable, datetime_min, datetime_max, timedelta.
  cbn [clock Examples.offline].
  assert (Hmin : Examples.midnight 1 1 1 = -62135596800000000) by (vm_compute; reflexivity).
  assert (Hmax : Examples.midnight 10000 1 1 = 253402300800000000)
    by (vm_compute; reflexivity).
  assert (Hnow : Examples.midnight 2026 1 1 = 1767225600000000) by (vm_compute; reflexivity).
  rewrite Hmin, Hmax, Hnow. lia.
Qed.

(** The plan for "3 weeks", built on the first day of 2026. *)
Lemma study_plan_three_weeks :
  exists plan s',
    StudentStudyPlannerAgent._create_study_plan Examples.offline (u"linear algebra")
      Examples.no_context (VDict [(u"estimated_duration", VStr (u"3 weeks"))])
      Examples.start = (Ok plan, s')
    /\ length (plan_phases plan) = 3%nat
    /\ Forall weekly_phase (plan_phases plan)
    /\ Forall (fun ph => length (phase_tasks ph) = 8%nat) (plan_phases plan).
Proof.
  destruct (study_plan_has_n_weekly_phases Examples.offline (u"linear algebra")
              Examples.no_context [(u"estimated_duration", VStr (u"3 weeks"))] 3
              Examples.start eq_refl)
    as (plan & s' & Hrun & Hlen & Hweekly & Htasks & _).
  - apply offline_dates_representable; cbn [ticks Examples.start]; lia.
  - exists plan, s'. split; [exact Hrun|]. split; [exact Hlen|].
    split; [exact Hweekly | exact Htasks].
Defined.

(** *** What a computation returns *)

Lemma returns_only_bind {A B} (m : PyM A) (k : A -> PyM B) (Q : B -> Prop) :
  (forall a, returns_only (k a) Q) -> returns_only (bind m k) Q.
Proof.
  intros Hk s b s' H. unfold bind in H.
  destruct (m s) as [[a | e] s1]; [| discriminate].
  exact (Hk a s1 b s' H).
Qed.

Lemma returns_only_try {A} (m : PyM A) (h : exn -> PyM A) (Q : A -> Prop) :
  returns_only m Q -> (forall e, returns_only (h e) Q) ->
  returns_only (try_except m h) Q.
Proof.
  intros Hm Hh s a s' H. unfold try_except in H.
  destruct (m s) as [[a0 | e] s1] eqn:E.
  - injection H as <- <-. exact (Hm s a0 s1 E).
  - exact (Hh e s1 a s' H).
Qed.

Lemma returns_only_raise {A} (e : exn) (Q : A -> Prop) : returns_only (raise e) Q.
Proof. intros s a s' H. discriminate. Qed.

Lemma format_response_ok (w : World) (self : Agent) response actions analysis data recs s :
  format_response w self response actions analysis data recs s
  = (Ok {| env_success := true;
           env_agent_name := agent_name self;
           env_response := response;
           env_actions_performed := match actions with Some (a :: l) => a :: l | _ => [] end;
           env_analysis := analysis;
           env_data := data;
           env_recommendations := recs;
           env_timestamp := clock w (ticks s) - utc_offset w |},
     mkState (db s) (S (ticks s))).
Proof. reflexivity. Qed.

Lemma format_response_returns (w : World) (self : Agent) response actions analysis data recs :
  returns_only (format_response w self response actions analysis data recs)
               (envelope_of self).
Proof.
  intros s e s' H. rewrite format_response_ok in H. injection H as <- _.
  split; reflexivity.
Qed.

Create HintDb returns discriminated.
#[local] Hint Resolve returns_only_raise format_response_returns : returns.
#[local] Hint Extern 1 (returns_only (bind _ _) _) =>
  apply returns_only_bind; intros : returns.
#[local] Hint Extern 1 (returns_only (try_except _ _) _) =>
  apply returns_only_try; intros : returns.
#[local] Hint Extern 2 (returns_only (if ?b then _ else _) _) => destruct b : returns.
#[local] Hint Extern 2 (returns_only (match ?x with _ => _ end) _) => destruct x : returns.
#[local] Hint Extern 3 (returns_only (let _ := _ in _) _) => cbv zeta : returns.

Lemma recover_ok (w : World) (self : Agent) (query : str) (e : exn) (s : State) :
  recover w self query e s
  = (Ok {| env_success := true;
           env_agent_name := agent_name self;
           env_response := get_fallback_response self query;
           env_actions_performed := [error_action e];
           env_analysis := None;
           env_data := None;
           env_recommendations := None;
           env_timestamp := clock w (ticks s) - utc_offset w |},
     mkState (db s) (S (ticks s))).
Proof. reflexivity. Qed.

(** A [process] method: its [try] block, recovered by [recover]. *)
Lemma try_recover_total (w : World) (self : Agent) (query : str) (m : PyM Envelope) :
  returns_only m (envelope_of self) ->
  forall s, exists e s', try_except m (recover w self query) s = (Ok e, s')
                         /\ envelope_of self e.
Proof.
  intros Hm s. unfold try_except. destruct (m s) as [[e | ex] s1] eqn:E.
  - exists e, s1. split; [reflexivity | exact (Hm s e s1 E)].
  - rewrite recover_ok. eexists. eexists. split; [reflexivity |]. split; reflexivity.
Qed.

Lemma planner_attempt_returns (w : World) query user_id context :
  returns_only (StudentStudyPlannerAgent.attempt w query user_id context)
               (envelope_of StudentStudyPlannerAgent.self).
Proof.
  unfold StudentStudyPlannerAgent.attempt. auto 60 with returns.
Qed.

Lemma assignment_attempt_returns (w : World) query user_id context :
  returns_only (StudentAssignmentManagerAgent.attempt w query user_id context)
               (envelope_of StudentAssignmentManagerAgent.self).
Proof.
  unfold StudentAssignmentManagerAgent.attempt,
    StudentAssignmentManagerAgent._list_assignments,
    StudentAssignmentManagerAgent._generate_assignment_content,
    StudentAssignmentManagerAgent._provide_assignment_help,
    StudentAssignmentManagerAgent._general_assignment_guidance.
  auto 60 with returns.
Qed.

Lemma report_attempt_returns (w : World) query user_id context :
  returns_only (AdminReportGeneratorAgent.attempt w query user_id context)
               (envelope_of AdminReportGeneratorAgent.self).
Proof.
  unfold AdminReportGeneratorAgent.attempt,
    AdminReportGeneratorAgent._generate_student_performance_report,
    AdminReportGeneratorAgent._generate_engagement_report,
    AdminReportGeneratorAgent._generate_course_analytics,
    AdminReportGeneratorAgent._generate_overview_report.
  auto 60 with returns.
Qed.

Lemma helpdesk_attempt_returns (w : World) query user_id context :
  returns_only (AdminHelpdeskManagerAgent.attempt w query user_id context)
               (envelope_of AdminHelpdeskManagerAgent.self).
Proof.
  unfold AdminHelpdeskManagerAgent.attempt,
    AdminHelpdeskManagerAgent._categorize_ticket,
    AdminHelpdeskManagerAgent._suggest_solution,
    AdminHelpdeskManagerAgent._list_tickets,
    AdminHelpdeskManagerAgent._general_helpdesk_info.
  auto 60 with returns.
Qed.

Lemma planner_process_total (w : World) query user_id context s :
  exists e s', StudentStudyPlannerAgent.process w query user_id context s = (Ok e, s')
               /\ envelope_of StudentStudyPlannerAgent.self e.
Proof. apply try_recover_total, planner_attempt_returns. Qed.

Lemma assignment_process_total (w : World) query user_id context s :
  exists e s', StudentAssignmentManagerAgent.process w query user_id context s = (Ok e, s')
               /\ envelope_of StudentAssignmentManagerAgent.self e.
Proof. apply try_recover_total, assignment_attempt_returns. Qed.

Lemma report_process_total (w : World) query user_id context s :
  exists e s', AdminReportGeneratorAgent.process w query user_id context s = (Ok e, s')
               /\ envelope_of AdminReportGeneratorAgent.self e.
Proof. apply try_recover_total, report_attempt_returns. Qed.

Lemma helpdesk_process_total (w : World) query user_id context s :
  exists e s', AdminHelpdeskManagerAgent.process w query user_id context s = (Ok e, s')
               /\ envelope_of AdminHelpdeskManagerAgent.self e.
Proof. apply try_recover_total, helpdesk_attempt_returns. Qed.

(** *** Routing *)

Lemma any_in_false (words : list str) (text : str) :
  StudentAssignmentManagerAgent.any_in words text = false
  <-> ~ exists k, In k words /\ occurs k text.
Proof.
  rewrite <- any_in_spec.
  destruct (StudentAssignmentManagerAgent.any_in words text); split; intros H.
  - discriminate.
  - now elim H.
  - discriminate.
  - reflexivity.
Qed.

(** C3, as the code has it: a message whose lower-cased text contains
    "study plan", "learning plan" or "schedule" is answered by the Study
    Planner; otherwise a message that contains "assignment", "homework"
    or "task" is answered by the Assignment Manager; any other message
    gets the placeholder reply with an empty actions_performed list, the
    store being left as it was.  Lower-casing is the runtime's
    [str.lower]: for a message of ASCII characters a phrase counts in
    whatever case its letters are typed. *)
Theorem route_to_agent_first_match
    (w : World) (message user_id : str) (context : dict) (s : State) :
  let planner :=
    exists k, In k [u"study plan"; u"learning plan"; u"schedule"]
              /\ occurs k (str_lower w message) in
  let assignment_manager :=
    exists k, In k [u"assignment"; u"homework"; u"task"]
              /\ occurs k (str_lower w message) in
  (planner ->
     exists e s',
       IntelligentChatbot._route_to_agent w message user_id context s
         = (Ok (IntelligentChatbot.AgentReply e), s')
       /\ StudentStudyPlannerAgent.process w message user_id (Some context) s = (Ok e, s')
       /\ env_agent_name e = u"Study Planner Agent")
  /\ (~ planner -> assignment_manager ->
     exists e s',
       IntelligentChatbot._route_to_agent w message user_id context s
         = (Ok (IntelligentChatbot.AgentReply e), s')
       /\ StudentAssignmentManagerAgent.process w message user_id (Some context) s = (Ok e, s')
       /\ env_agent_name e = u"Assignment Manager Agent")
  /\ (~ planner -> ~ assignment_manager ->
     IntelligentChatbot._route_to_agent w message user_id context s
       = (Ok (IntelligentChatbot.Placeholder
                (u"I can help you with that! Could you provide more details?") []), s))
  /\ (folds_ascii w -> ascii message ->
      (planner <-> exists k, In k [u"study plan"; u"learning plan"; u"schedule"]
                             /\ occurs_nocase k message)
      /\ (assignment_manager <-> exists k, In k [u"assignment"; u"homework"; u"task"]
                                           /\ occurs_nocase k message)).
Proof.
  intros planner assignment_manager.
  unfold IntelligentChatbot._route_to_agent, IntelligentChatbot.any_in.
  split; [| split; [| split]].
  4:{ intros Hw Hascii. unfold planner, assignment_manager. rewrite (Hw message Hascii).
      split; apply hit_lower_nocase; vm_compute; reflexivity. }
  - intros Hp. apply any_in_spec in Hp. rewrite Hp.
    destruct (planner_process_total w message user_id (Some context) s)
      as [e [s' [He [_ Hname]]]].
    exists e, s'. unfold bind. rewrite He. repeat split.
    rewrite Hname. vm_compute. reflexivity.
  - intros Hnp Ha. apply any_in_false in Hnp. apply any_in_spec in Ha. rewrite Hnp, Ha.
    destruct (assignment_process_total w message user_id (Some context) s)
      as [e [s' [He [_ Hname]]]].
    exists e, s'. unfold bind. rewrite He. repeat split.
    rewrite Hname. vm_compute. reflexivity.
  - intros Hnp Hna. apply any_in_false in Hnp. apply any_in_false in Hna.
    rewrite Hnp, Hna. reflexivity.
Qed.

(** A request for a schedule typed in capitals goes to the Study
    Planner. *)
Lemma shouted_schedule_goes_to_planner :
  exists e s',
    IntelligentChatbot._route_to_agent Examples.offline (u"Make my SCHEDULE") (u"u1") []
      Examples.start = (Ok (IntelligentChatbot.AgentReply e), s')
    /\ env_agent_name e = u"Study Planner Agent".
Proof.
  assert (Hw : folds_ascii Examples.offline) by (intros s _; reflexivity).
  assert (Ha : ascii (u"Make my SCHEDULE"))
    by (apply ascii_forallb; vm_compute; reflexivity).
  destruct (route_to_agent_first_match Examples.offline (u"Make my SCHEDULE") (u"u1") []
              Examples.start) as (Hplanner & _ & _ & Hcase).
  destruct (Hcase Hw Ha) as (Hiff & _).
  destruct Hplanner as (e & s' & Hrun & _ & Hname).
  - apply Hiff. exists (u"schedule"). split; [vm_compute; right; right; left; reflexivity|].
    exists (u"Make my "), (u"SCHEDULE"), []. split; [reflexivity|].
    vm_compute.
  repeat (apply Forall2_cons; [right; split; [split; discriminate | reflexivity]|]).
  apply Forall2_nil.
  - exists e, s'. split; [exact Hrun | exact Hname].
Defined.

(** C3 as stated fails: "Create a Study Guide" is an action request
    whose lower-cased text contains the word "study", and it is not sent
    to the Study Planner: it gets the placeholder reply.  The planner is
    chosen by the phrases "study plan" and "learning plan", not by the
    words "study" and "learning". *)
Lemma study_guide_gets_the_placeholder :
  let message := u"Create a Study Guide" in
  IntelligentChatbot._detect_action_intent Examples.offline message = true
  /\ occurs (u"study") (str_lower Examples.offline message)
  /\ IntelligentChatbot._route_to_agent Examples.offline message (u"u1") [] Examples.start
     = (Ok (IntelligentChatbot.Placeholder
              (u"I can help you with that! Could you provide more details?") []),
        Examples.start)
  /\ (forall e s',
        IntelligentChatbot._route_to_agent Examples.offline message (u"u1") []
          Examples.start <> (Ok (IntelligentChatbot.AgentReply e), s')).
Proof.
  cbv zeta. split; [vm_compute; reflexivity |]. split.
  { apply str_in_spec. vm_compute. reflexivity. }
  assert (Hroute : IntelligentChatbot._route_to_agent Examples.offline
                     (u"Create a Study Guide") (u"u1") [] Examples.start
                   = (Ok (IntelligentChatbot.Placeholder
                            (u"I can help you with that! Could you provide more details?")
                            []),
                      Examples.start)).
  { unfold IntelligentChatbot._route_to_agent. cbv zeta.
    replace (IntelligentChatbot.any_in [u"study plan"; u"learning plan"; u"schedule"]
               (str_lower Examples.offline (u"Create a Study Guide")))
      with false by (vm_compute; reflexivity).
    replace (IntelligentChatbot.any_in [u"assignment"; u"homework"; u"task"]
               (str_lower Examples.offline (u"Create a Study Guide")))
      with false by (vm_compute; reflexivity).
    reflexivity. }
  split; [exact Hroute |].
  intros e s' H. rewrite Hroute in H. discriminate H.
Qed.

(** *** The router boundary *)

Lemma returns_only_ret {A} (a : A) (Q : A -> Prop) : Q a -> returns_only (ret a) Q.
Proof. intros H s b s' E. injection E as <- _. exact H. Qed.

Lemma resolve_conversation_id_total (w : World) user_id conversation_id :
  never_raises (IntelligentChatbot.resolve_conversation_id w user_id conversation_id).
Proof.
  intros s. unfold IntelligentChatbot.resolve_conversation_id.
  destruct conversation_id as [[|c r] |]; eexists; eexists; reflexivity.
Qed.

Lemma respond_returns (w : World) message user_id context conv_id :
  returns_only (IntelligentChatbot.respond w message user_id context conv_id)
    (fun env => chat_success env = true
                /\ chat_conversation_id env = Some conv_id
                /\ chat_context env <> None
                /\ chat_actions_taken env <> None).
Proof.
  unfold IntelligentChatbot.respond.
  apply returns_only_bind; intros history.
  apply returns_only_bind; intros full_context. cbv zeta.
  apply returns_only_bind; intros [response_text actions_taken].
  apply returns_only_bind; intros _.
  apply returns_only_bind; intros t.
  apply returns_only_ret. repeat split; discriminate.
Qed.

(** C4: [process_message] never raises.  Once the conversation id is
    resolved - which cannot fail - any exception raised by the steps that
    follow (history retrieval, context assembly, intent detection,
    responder dispatch, conversational generation) is caught at the router
    boundary: the result is the failure envelope, with success false, the
    fixed apology, the resolved conversation id, and neither a context nor
    an actions list.  When no step raises, the complete successful
    envelope is returned. *)
Theorem process_message_failures_collapse
    (w : World) (message user_id : str) (context : option dict)
    (conversation_id : option str) (s : State) :
  exists conv_id s1,
    IntelligentChatbot.resolve_conversation_id w user_id conversation_id s = (Ok conv_id, s1)
    /\ (forall e s2,
          IntelligentChatbot.respond w message user_id context conv_id s1 = (Raise e, s2) ->
          IntelligentChatbot.process_message w message user_id context conversation_id s
          = (Ok {| chat_success := false;
                   chat_response :=
                     u"I apologize, but I encountered an error. Please try again.";
                   chat_conversation_id := Some conv_id;
                   chat_context := None;
                   chat_actions_taken := None;
                   chat_timestamp := clock w (ticks s2) - utc_offset w |},
             mkState (db s2) (S (ticks s2))))
    /\ (forall env s2,
          IntelligentChatbot.respond w message user_id context conv_id s1 = (Ok env, s2) ->
          IntelligentChatbot.process_message w message user_id context conversation_id s
          = (Ok env, s2)
          /\ chat_success env = true
          /\ chat_conversation_id env = Some conv_id
          /\ chat_context env <> None
          /\ chat_actions_taken env <> None)
    /\ (exists env s',
          IntelligentChatbot.process_message w message user_id context conversation_id s
          = (Ok env, s')).
Proof.
  destruct (resolve_conversation_id_total w user_id conversation_id s)
    as [conv_id [s1 Hres]].
  exists conv_id, s1. split; [exact Hres |].
  assert (Hraise : forall e s2,
    IntelligentChatbot.respond w message user_id context conv_id s1 = (Raise e, s2) ->
    IntelligentChatbot.process_message w message user_id context conversation_id s
    = (Ok (mkChatEnvelope false
             (u"I apologize, but I encountered an error. Please try again.")
             (Some conv_id) None None (clock w (ticks s2) - utc_offset w)),
       mkState (db s2) (S (ticks s2)))).
  { intros e s2 H. unfold IntelligentChatbot.process_message, try_except, bind.
    rewrite Hres, H.
    unfold IntelligentChatbot.failure, IntelligentChatbot.apology, utcnow, bind, ret.
    reflexivity. }
  assert (Hok : forall env s2,
    IntelligentChatbot.respond w message user_id context conv_id s1 = (Ok env, s2) ->
    IntelligentChatbot.process_message w message user_id context conversation_id s
    = (Ok env, s2)).
  { intros env s2 H. unfold IntelligentChatbot.process_message, try_except, bind.
    rewrite Hres, H. reflexivity. }
  split; [exact Hraise |]. split.
  - intros env s2 H. split; [exact (Hok env s2 H) |].
    exact (respond_returns w message user_id context conv_id s1 env s2 H).
  - destruct (IntelligentChatbot.respond w message user_id context conv_id s1)
      as [[env | e] s2] eqn:E.
    + exists env, s2. exact (Hok env s2 eq_refl).
    + eexists. eexists. exact (Hraise e s2 eq_refl).
Qed.

(** A greeting sent with a caller context whose "user" entry is not a
    profile: the rule-based reply raises, and the caller gets the failure
    envelope with the generated conversation id. *)
Lemma greeting_with_malformed_profile :
  exists env s',
    IntelligentChatbot.process_message Examples.offline (u"hello") (u"u2")
      (Some [(u"user", VStr (u"alice"))]) None Examples.start = (Ok env, s')
    /\ chat_success env = false
    /\ chat_conversation_id env = Some (u"u2_1767225600")
    /\ chat_context env = None
    /\ chat_actions_taken env = None.
Proof.
  destruct (process_message_failures_collapse Examples.offline (u"hello") (u"u2")
              (Some [(u"user", VStr (u"alice"))]) None Examples.start)
    as [conv_id [s1 [Hres [Hraise _]]]].
  vm_compute in Hres. injection Hres as <- <-.
  eexists. eexists. split.
  - eapply Hraise. vm_compute. reflexivity.
  - split; [reflexivity |]. split; [vm_compute; reflexivity |]. split; reflexivity.
Defined.

(** *** Sorting by key *)




Lemma insert_by_key_perm {A} (x : StudentAssignmentManagerAgent.sort_key * A) (l : list (StudentAssignmentManagerAgent.sort_key * A)) :
  Permutation (StudentAssignmentManagerAgent.insert_by_key x l) (x :: l).
Proof.
  induction l as [|y l IH]; cbn [StudentAssignmentManagerAgent.insert_by_key]; [reflexivity |].
  destruct (StudentAssignmentManagerAgent.key_lt (fst y) (fst x)); [| reflexivity].
  rewrite IH. apply perm_swap.
Qed.

Lemma sorted_by_key_perm {A} (l : list (StudentAssignmentManagerAgent.sort_key * A)) : Permutation (StudentAssignmentManagerAgent.sorted_by_key l) l.
Proof.
  induction l as [|x l IH]; [reflexivity |].
  change (StudentAssignmentManagerAgent.sorted_by_key (x :: l)) with (StudentAssignmentManagerAgent.insert_by_key x (StudentAssignmentManagerAgent.sorted_by_key l)).
  rewrite insert_by_key_perm. now constructor.
Qed.




(** *** The assignment dashboard *)











(** *** Durations that are not numbers *)

(** C6 fails on the code: a duration that does not start with an integer
    ("two weeks") is not replaced by the default of 2.  [int()] raises in
    [_create_study_plan]; [process] catches the exception and answers with
    the fallback text and an error action, and no plan: no data, no
    phases.  The default of 2 weeks is applied on the two neighbouring
    paths only: an analysis with no duration, and the analysis used when
    the model's answer cannot be decoded - as it is when no provider is
    configured and the request carries no braces or fences. *)
Theorem worded_duration_is_not_defaulted :
  (forall (w : World) goal context s,
      StudentStudyPlannerAgent._create_study_plan w goal context Examples.worded_duration s
      = (Raise (mk_exn ValueError (u"invalid literal for int() with base 10: 'two'")), s))
  /\ (exists env s',
        StudentStudyPlannerAgent.process
          (Examples.answering Examples.worded_duration_answer Examples.worded_duration)
          (u"learn sign language") (u"u1") None Examples.start = (Ok env, s')
        /\ env_data env = None
        /\ env_analysis env = None
        /\ env_actions_performed env
           = [[(u"type", VStr (u"error"));
               (u"message", VStr (u"invalid literal for int() with base 10: 'two'"));
               (u"success", VBool false)]]
        /\ env_response env
           = StudentStudyPlannerAgent.get_fallback_response (u"learn sign language"))
  /\ (forall (w : World) goal context (analysis : dict) s,
        dict_get analysis (u"estimated_duration") = None ->
        exists plan s',
          StudentStudyPlannerAgent._create_study_plan w goal context (VDict analysis) s
          = (Ok plan, s')
          /\ length (plan_phases plan) = 2%nat)
  /\ (forall (w : World) goal context query s,
        exists plan s',
          StudentStudyPlannerAgent._create_study_plan w goal context
            (StudentStudyPlannerAgent.fallback_analysis query) s = (Ok plan, s')
          /\ length (plan_phases plan) = 2%nat)
  /\ (exists env s' plan_id plan materials,
        StudentStudyPlannerAgent.process Examples.offline (u"learn sign language") (u"u1")
          None Examples.start = (Ok env, s')
        /\ env_data env = Some (PlanData plan_id plan materials)
        /\ length (plan_phases plan) = 2%nat).
Proof.
  split; [| split; [| split; [| split]]].
  5:{ do 5 eexists. split; [vm_compute; reflexivity |]. split; reflexivity. }
  - intros w goal context s. reflexivity.
  - eexists. eexists. split; [vm_compute; reflexivity |].
    repeat split; vm_compute; reflexivity.
  - intros w goal context analysis s H.
    destruct (plan_for_duration w goal context analysis 2 s) as [plan [s' [Hp [Hl _]]]].
    + unfold StudentStudyPlannerAgent.duration_weeks_of, get_or.
      cbn [StudentStudyPlannerAgent.as_dict]. unfold bind, ret. rewrite H. reflexivity.
    + now exists plan, s'.
  - intros w goal context query s.
    destruct (plan_for_duration w goal context
                [(u"goal_type", VStr (u"general_study"));
                 (u"difficulty_level", VStr (u"intermediate"));
                 (u"estimated_duration", VStr (u"2 weeks"));
                 (u"key_topics", VList [VStr query]);
                 (u"prerequisites", VList []);
                 (u"recommendations",
                    VList [VStr (u"Start with fundamentals");
                           VStr (u"Practice regularly");
                           VStr (u"Review materials daily")])] 2 s)
      as [plan [s' [Hp [Hl _]]]].
    + reflexivity.
    + exists plan, s'. unfold StudentStudyPlannerAgent.fallback_analysis.
      split; [exact Hp | exact Hl].
Qed.

(** *** Conversation windows *)





(** *** Text for speech *)

Lemma replace_pair_rest (h : char) (s : str) :
  replace_from [h; h] [] s 1 = match s with [] => [] | _ :: r => replace_from [h; h] [] r 0 end.
Proof. destruct s; reflexivity. Qed.

Lemma no_pair_after_replace (h : char) :
  forall n s, (length s <= n)%nat -> str_in [h; h] (replace_from [h; h] [] s 0) = false.
Proof.
  induction n as [|n IH]; intros s Hn.
  - destruct s; [reflexivity | cbn in Hn; lia].
  - destruct s as [|c r]; [reflexivity |].
    cbn [replace_from]. destruct (startswith [h; h] (c :: r)) eqn:E.
    + cbn [app length Nat.pred]. rewrite replace_pair_rest.
      destruct r as [|c' r']; [reflexivity |]. apply IH. cbn [length] in Hn. lia.
    + cbn [str_in]. rewrite (IH r) by (cbn [length] in Hn; lia).
      rewrite orb_false_r.
      cbn [startswith] in E |- *. unfold char_eqb in *.
      destruct (N.eqb h c) eqn:Hc; [| reflexivity]. cbn [andb] in E |- *.
      destruct r as [|c' r']; [reflexivity |].
      destruct (N.eqb h c') eqn:Hc'; [discriminate E |].
      cbn [replace_from startswith]. unfold char_eqb. rewrite Hc'. cbn [andb].
      now rewrite Hc'.
Qed.

Lemma replace_triple_without_pair (h : char) (s : str) :
  str_in [h; h] s = false -> replace_from [h; h; h] [] s 0 = s.
Proof.
  induction s as [|c r IH]; intros H; [reflexivity |].
  cbn [str_in] in H. apply orb_false_iff in H. destruct H as [Hp Hr].
  cbn [replace_from].
  assert (E : startswith [h; h; h] (c :: r) = false).
  { cbn [startswith] in Hp |- *.
    destruct (char_eqb h c); [| reflexivity]. cbn [andb] in Hp |- *.
    destruct r as [|c' r']; [reflexivity |].
    destruct (char_eqb h c'); [discriminate Hp | reflexivity]. }
  rewrite E. f_equal. now apply IH.
Qed.

Lemma replace_char_is_filter (c : char) (s : str) :
  replace [c] [] s = filter (fun x => negb (N.eqb c x)) s.
Proof.
  unfold replace. induction s as [|x s IH]; [reflexivity |].
  cbn [replace_from startswith filter]. unfold char_eqb.
  destruct (N.eqb c x); cbn [andb negb length Nat.pred app]; [exact IH | now rewrite IH].
Qed.

Lemma replace_char_removes (c : char) (s : str) : ~ In c (replace [c] [] s).
Proof.
  rewrite replace_char_is_filter. intros H. apply filter_In in H.
  destruct H as [_ H]. now rewrite N.eqb_refl in H.
Qed.

Lemma replace_char_keeps_out (c x : char) (s : str) :
  ~ In x s -> ~ In x (replace [c] [] s).
Proof.
  rewrite replace_char_is_filter. intros H Hin. apply filter_In in Hin. now apply H.
Qed.

(** C8 fails on the code for headers: "##" is deleted before "###" is
    looked for, so that third replacement never applies and a "###" header
    keeps one "#".  The rest holds: no bullet and no hyphen is left, text
    longer than 500 characters after the deletions is cut to its first 500
    characters followed by the continuation prompt, and shorter text is
    returned whole. *)
Theorem voice_text_keeps_a_header_marker :
  VoiceAssistant._format_for_voice (u"### Key points") = u"# Key points"
  /\ (forall text,
        replace (u"###") [] (replace (u"##") [] text) = replace (u"##") [] text)
  /\ (forall text,
        let stripped :=
          replace (u"-") [] (replace (u"•") [] (replace (u"##") [] (replace (u"**") [] text)))
        in
        ~ In 8226%N stripped
        /\ ~ In 45%N stripped
        /\ ((500 < length stripped)%nat ->
            VoiceAssistant._format_for_voice text
            = firstn 500 stripped ++ u"... Would you like more details?")
        /\ ((length stripped <= 500)%nat ->
            VoiceAssistant._format_for_voice text = stripped)).
Proof.
  assert (Dead : forall text,
             replace (u"###") [] (replace (u"##") [] text) = replace (u"##") [] text).
  { intros text. change (u"###") with [35%N; 35%N; 35%N]. change (u"##") with [35%N; 35%N].
    unfold replace. apply replace_triple_without_pair.
    apply (no_pair_after_replace 35%N (length text)). lia. }
  split; [vm_compute; reflexivity |]. split; [exact Dead |].
  intros text. cbv zeta.
  split; [| split; [| split]].
  - change (u"-") with [45%N]. apply replace_char_keeps_out.
    change (u"•") with [8226%N]. apply replace_char_removes.
  - change (u"-") with [45%N]. apply replace_char_removes.
  - intros H. unfold VoiceAssistant._format_for_voice. cbv zeta. rewrite Dead.
    apply Nat.ltb_lt in H. rewrite H. unfold VoiceAssistant.continuation. reflexivity.
  - intros H. unfold VoiceAssistant._format_for_voice. cbv zeta. rewrite Dead.
    apply Nat.ltb_ge in H. rewrite H. reflexivity.
Qed.

(** *** Envelopes of the responders *)

Lemma try_recover_spec (self : Agent)
    (process attempt : World -> str -> str -> option dict -> PyM Envelope) :
  (forall w query user_id context,
      process w query user_id context
      = try_except (attempt w query user_id context) (recover w self query)) ->
  (forall w query user_id context,
      returns_only (attempt w query user_id context) (envelope_of self)) ->
  recovers self process attempt.
Proof.
  intros Hdef Hret w query user_id context s. split.
  - rewrite Hdef.
    destruct (try_recover_total w self query _ (Hret w query user_id context) s)
      as [env [s' [H [Hs Hn]]]].
    now exists env, s'.
  - intros e s1 H. rewrite Hdef. unfold try_except. rewrite H, recover_ok.
    eexists. eexists. split; [reflexivity |]. repeat split.
Qed.

(** C9: [format_response] always builds an envelope with success=True,
    the agent's name - never empty for the four agents - and as
    actions_performed the list it is given, or the empty list when it is
    given none; every agent's [process] returns such an envelope in every
    case, and when its [try] block raises, the envelope is still marked
    successful and the failure shows only as the one action of type
    "error" whose success field is False. *)
Theorem agent_envelopes_always_report_success :
  (forall (w : World) (self : Agent) response actions analysis data recommendations s,
      exists env s',
        format_response w self response actions analysis data recommendations s
        = (Ok env, s')
        /\ env_success env = true
        /\ env_agent_name env = agent_name self
        /\ env_actions_performed env = match actions with Some l => l | None => [] end)
  /\ Forall (fun r => agent_name (fst (fst r)) <> []) responders
  /\ Forall (fun r => recovers (fst (fst r)) (snd (fst r)) (snd r)) responders.
Proof.
  split; [| split].
  - intros. rewrite format_response_ok. eexists. eexists. split; [reflexivity |].
    repeat split. destruct actions as [[|a l] |]; reflexivity.
  - repeat constructor; discriminate.
  - unfold responders.
    apply Forall_cons;
      [apply try_recover_spec; [reflexivity | apply planner_attempt_returns] |].
    apply Forall_cons;
      [apply try_recover_spec; [reflexivity | apply assignment_attempt_returns] |].
    apply Forall_cons;
      [apply try_recover_spec; [reflexivity | apply report_attempt_returns] |].
    apply Forall_cons;
      [apply try_recover_spec; [reflexivity | apply helpdesk_attempt_returns] |].
    apply Forall_nil.
Qed.

(** A report asked for while the database is down: the Report Generator
    answers with an envelope marked successful whose only action is the
    error. *)
Lemma report_without_database :
  exists env s',
    AdminReportGeneratorAgent.process Examples.offline (u"overview report") (u"admin1")
      None Examples.disconnected = (Ok env, s')
    /\ env_success env = true
    /\ env_actions_performed env
       = [[(u"type", VStr (u"error")); (u"message", VStr (u"Database not connected"));
           (u"success", VBool false)]]
    /\ env_data env = None.
Proof.
  pose proof (proj2 (proj2 agent_envelopes_always_report_success)) as H.
  unfold responders in H.
  apply Forall_inv_tail in H. apply Forall_inv_tail in H. apply Forall_inv in H.
  cbn [fst snd] in H.
  destruct (H Examples.offline (u"overview report") (u"admin1") None Examples.disconnected)
    as [_ Hraise].
  destruct (Hraise (mk_exn RuntimeError (u"Database not connected")) Examples.disconnected)
    as [env [s' [Hrun [Hs [_ [Ha Hd]]]]]].
  - vm_compute. reflexivity.
  - cbn [exn_msg] in Ha. exists env, s'.
    split; [exact Hrun |]. split; [exact Hs |]. split; [exact Ha | exact Hd].
Defined.

(** *** The voice adapter *)

Lemma process_message_never_raises (w : World) message user_id context conversation_id :
  never_raises (IntelligentChatbot.process_message w message user_id context conversation_id).
Proof.
  intros s. unfold IntelligentChatbot.process_message, try_except, bind.
  destruct (resolve_conversation_id_total w user_id conversation_id s)
    as [conv_id [s1 Hres]].
  rewrite Hres.
  destruct (IntelligentChatbot.respond w message user_id context conv_id s1)
    as [[env | e] s2].
  - now exists env, s2.
  - eexists. eexists. reflexivity.
Qed.

(** C10: whenever the chatbot call returns - whatever the success flag of
    what it returns - [process_voice_query] returns an envelope with
    success=True and the chatbot's text formatted for speech; it returns
    success=False exactly when the call raises inside the voice path.  With
    the chatbot of the service, which never raises, every voice query is
    answered with success=True. *)
Theorem voice_success_ignores_chatbot_failure :
  (forall (w : World)
          (chatbot : str -> str -> option dict -> option str -> PyM ChatEnvelope)
          query user_id context s,
      (forall result s1,
          chatbot query user_id (Some (VoiceAssistant.voice_context_of context)) None s
          = (Ok result, s1) ->
          exists v s',
            VoiceAssistant.process_voice_query_with w chatbot query user_id context s
            = (Ok v, s')
            /\ voice_success v = true
            /\ voice_response v = VoiceAssistant._format_for_voice (chat_response result))
      /\ (forall e s1,
          chatbot query user_id (Some (VoiceAssistant.voice_context_of context)) None s
          = (Raise e, s1) ->
          exists v s',
            VoiceAssistant.process_voice_query_with w chatbot query user_id context s
            = (Ok v, s')
            /\ voice_success v = false
            /\ voice_response v
               = u"I'm sorry, I couldn't process your voice request. Please try again."))
  /\ (forall (w : World) query user_id context s,
        exists result s1 v s',
          IntelligentChatbot.process_message w query user_id
            (Some (VoiceAssistant.voice_context_of context)) None s = (Ok result, s1)
          /\ VoiceAssistant.process_voice_query w query user_id context s = (Ok v, s')
          /\ voice_success v = true
          /\ voice_response v = VoiceAssistant._format_for_voice (chat_response result)).
Proof.
  assert (Hok : forall (w : World) chatbot query user_id context s result s1,
             chatbot query user_id (Some (VoiceAssistant.voice_context_of context)) None s
             = (Ok result, s1) ->
             exists v s',
               VoiceAssistant.process_voice_query_with w chatbot query user_id context s
               = (Ok v, s')
               /\ voice_success v = true
               /\ voice_response v
                  = VoiceAssistant._format_for_voice (chat_response result)).
  { intros w chatbot query user_id context s result s1 H.
    unfold VoiceAssistant.process_voice_query_with, try_except, bind. cbv zeta.
    rewrite H. eexists. eexists. split; [reflexivity |]. split; reflexivity. }
  split.
  - intros w chatbot query user_id context s. split.
    + intros result s1 H. exact (Hok w chatbot query user_id context s result s1 H).
    + intros e s1 H.
      unfold VoiceAssistant.process_voice_query_with, try_except, bind. cbv zeta.
      rewrite H. unfold VoiceAssistant.sorry.
      eexists. eexists. split; [reflexivity |]. split; reflexivity.
  - intros w query user_id context s.
    destruct (process_message_never_raises w query user_id
                (Some (VoiceAssistant.voice_context_of context)) None s)
      as [result [s1 H]].
    destruct (Hok w (IntelligentChatbot.process_message w) query user_id context s
                result s1 H) as [v [s' Hv]].
    exists result, s1, v, s'. split; [exact H | exact Hv].
Qed.

(** The greeting with a malformed profile, spoken: the chatbot's own
    result is its failure envelope, and the voice envelope says
    success=True and reads the apology out. *)
Lemma spoken_greeting_with_malformed_profile :
  exists result s1 v s',
    IntelligentChatbot.process_message Examples.offline (u"hello") (u"u2")
      (Some (VoiceAssistant.voice_context_of (Some [(u"user", VStr (u"alice"))]))) None
      Examples.start = (Ok result, s1)
    /\ chat_success result = false
    /\ VoiceAssistant.process_voice_query Examples.offline (u"hello") (u"u2")
         (Some [(u"user", VStr (u"alice"))]) Examples.start = (Ok v, s')
    /\ voice_success v = true
    /\ voice_response v = u"I apologize, but I encountered an error. Please try again.".
Proof.
  destruct (proj2 voice_success_ignores_chatbot_failure Examples.offline (u"hello") (u"u2")
              (Some [(u"user", VStr (u"alice"))]) Examples.start)
    as [result [s1 [v [s' [Hchat [Hvoice [Hs Hr]]]]]]].
  exists result, s1, v, s'.
  split; [exact Hchat |].
  assert (Hres : chat_success result = false
                 /\ VoiceAssistant._format_for_voice (chat_response result)
                    = u"I apologize, but I encountered an error. Please try again.").
  { vm_compute in Hchat. injection Hchat as <- _. split; vm_compute; reflexivity. }
  destruct Hres as [Hfail Htext].
  split; [exact Hfail |]. split; [exact Hvoice |]. split; [exact Hs |].
  rewrite Hr. exact Htext.
Defined.


(* ===================================================================== *)
(** ** Further properties of the code *)
(* ===================================================================== *)

(** *** Text and dict lookups *)

Lemma str_eqb_eq (a b : str) : str_eqb a b = true <-> a = b.
Proof.
  revert b; induction a as [|x a IH]; intros [|y b]; simpl; split;
    try congruence; try reflexivity.
  - intros H. apply andb_true_iff in H as [H1 H2].
    apply N.eqb_eq in H1. apply IH in H2. congruence.
  - intros H. injection H as -> ->. apply andb_true_iff. split.
    + apply N.eqb_refl.
    + apply IH. reflexivity.
Qed.

Lemma str_eqb_refl (a : str) : str_eqb a a = true.
Proof. apply str_eqb_eq. reflexivity. Qed.

Lemma str_eqb_neq (a b : str) : str_eqb a b = false <-> a <> b.
Proof.
  split.
  - intros H E. apply str_eqb_eq in E. congruence.
  - intros H. destruct (str_eqb a b) eqn:E; [|reflexivity].
    apply str_eqb_eq in E. contradiction.
Qed.

Lemma dict_get_set_same (d : dict) (k : str) (v : Val) :
  dict_get (dict_set d k v) k = Some v.
Proof.
  induction d as [|[k' v'] d IH]; simpl.
  - rewrite str_eqb_refl. reflexivity.
  - destruct (str_eqb k' k) eqn:E; simpl; rewrite E; [reflexivity | exact IH].
Qed.

Lemma dict_get_set_other (d : dict) (k k' : str) (v : Val) :
  k' <> k -> dict_get (dict_set d k v) k' = dict_get d k'.
Proof.
  intros Hne. induction d as [|[k0 v0] d IH]; simpl.
  - assert (E : str_eqb k k' = false) by (apply str_eqb_neq; congruence).
    rewrite E. reflexivity.
  - destruct (str_eqb k0 k) eqn:E; simpl.
    + apply str_eqb_eq in E. subst k0.
      assert (E' : str_eqb k k' = false) by (apply str_eqb_neq; congruence).
      rewrite E'. reflexivity.
    + destruct (str_eqb k0 k'); [reflexivity | exact IH].
Qed.

(** *** What a call leaves of the store *)

Lemma grows_refl (d : DB) : grows 0 0 d d.
Proof.
  unfold grows. split; [split; reflexivity|]. do 7 (split; [reflexivity|]).
  split; exists []; rewrite app_nil_r; (split; [reflexivity | apply Nat.le_refl]).
Qed.

Lemma grows_trans (p1 l1 p2 l2 : nat) (d1 d2 d3 : DB) :
  grows p1 l1 d1 d2 -> grows p2 l2 d2 d3 -> grows (p1 + p2) (l1 + l2) d1 d3.
Proof.
  intros ((A1 & A0) & A2 & A3 & A4 & A5 & A6 & A7 & A8 & (n1 & A9 & L1) & (m1 & A10 & M1))
         ((B1 & B0) & B2 & B3 & B4 & B5 & B6 & B7 & B8 & (n2 & B9 & L2) & (m2 & B10 & M2)).
  unfold grows. split; [split; congruence|]. do 7 (split; [congruence|]). split.
  - exists (n1 ++ n2). rewrite B9, A9, <- app_assoc, length_app. split; [reflexivity | lia].
  - exists (m1 ++ m2). rewrite B10, A10, <- app_assoc, length_app. split; [reflexivity | lia].
Qed.

Lemma grows_weaken (p l p' l' : nat) (d d' : DB) :
  (p <= p')%nat -> (l <= l')%nat -> grows p l d d' -> grows p' l' d d'.
Proof.
  intros Hp Hl (A1 & A2 & A3 & A4 & A5 & A6 & A7 & A8 & (n1 & A9 & L1) & (m1 & A10 & M1)).
  unfold grows. do 8 (split; [assumption|]). split.
  - exists n1. split; [assumption | lia].
  - exists m1. split; [assumption | lia].
Qed.

Lemma grows_same (d d' : DB) : grows 0 0 d d' -> d' = d.
Proof.
  intros ((A1 & A0) & A2 & A3 & A4 & A5 & A6 & A7 & A8 & (n1 & A9 & L1) & (m1 & A10 & M1)).
  destruct n1; [|simpl in L1; lia]. destruct m1; [|simpl in M1; lia].
  rewrite app_nil_r in A9, A10.
  destruct d, d'; simpl in *. congruence.
Qed.

Lemma keeps_ret {A} (a : A) : keeps (grows 0 0) (ret a).
Proof. intros s. apply grows_refl. Qed.

Lemma keeps_raise {A} (e : exn) : keeps (grows 0 0) (@raise State A e).
Proof. intros s. apply grows_refl. Qed.

Lemma keeps_lift {A} (r : result A) : keeps (grows 0 0) (lift r).
Proof. intros s. apply grows_refl. Qed.

Lemma keeps_now (w : World) : keeps (grows 0 0) (now w).
Proof. intros s. apply grows_refl. Qed.

Lemma keeps_utcnow (w : World) : keeps (grows 0 0) (utcnow w).
Proof. intros s. apply grows_refl. Qed.

Lemma keeps_get_collection {A} (c : DB -> A) : keeps (grows 0 0) (get_collection c).
Proof.
  intros s. unfold get_collection.
  destruct (connected (db s)); [destruct (db_truth (db s)) as [[|]|e]|]; apply grows_refl.
Qed.

Lemma keeps_await_message {A} (reply : result str) :
  keeps (grows 0 0) (@await_message A reply).
Proof. intros s. unfold await_message. destruct reply; apply grows_refl. Qed.

Lemma keeps_bind_add {A B} (p1 l1 p2 l2 : nat) (m : PyM A) (k : A -> PyM B) :
  keeps (grows p1 l1) m -> (forall a, keeps (grows p2 l2) (k a)) ->
  keeps (grows (p1 + p2) (l1 + l2)) (bind m k).
Proof.
  intros Hm Hk s. unfold bind. specialize (Hm s).
  destruct (m s) as [[a|e] s1]; simpl in Hm.
  - eapply grows_trans; [exact Hm | apply Hk].
 - simpl. apply (grows_weaken p1 l1); [lia | lia | exact Hm].
Qed.

Lemma keeps_bind {A B} (m : PyM A) (k : A -> PyM B) :
  keeps (grows 0 0) m -> (forall a, keeps (grows 0 0) (k a)) ->
  keeps (grows 0 0) (bind m k).
Proof. apply (keeps_bind_add 0 0 0 0). Qed.

Lemma keeps_try_add {A} (p1 l1 p2 l2 : nat) (m : PyM A) (h : exn -> PyM A) :
  keeps (grows p1 l1) m -> (forall e, keeps (grows p2 l2) (h e)) ->
  keeps (grows (p1 + p2) (l1 + l2)) (try_except m h).
Proof.
  intros Hm Hh s. unfold try_except. specialize (Hm s).
  destruct (m s) as [[a|e] s1]; simpl in Hm.
  - simpl. apply (grows_weaken p1 l1); [lia | lia | exact Hm].
  - eapply grows_trans; [exact Hm | apply Hh].
Qed.

Lemma keeps_try {A} (m : PyM A) (h : exn -> PyM A) :
  keeps (grows 0 0) m -> (forall e, keeps (grows 0 0) (h e)) ->
  keeps (grows 0 0) (try_except m h).
Proof. apply (keeps_try_add 0 0 0 0). Qed.

Lemma keeps_for_each {A B} (f : A -> PyM B) (l : list A) :
  (forall x, keeps (grows 0 0) (f x)) -> keeps (grows 0 0) (for_each f l).
Proof.
  intros Hf. induction l as [|x l IH]; simpl.
  - apply keeps_ret.
  - apply keeps_bind; [apply Hf|]. intros y.
    apply keeps_bind; [exact IH|]. intros ys. apply keeps_ret.
Qed.

Lemma keeps_filter_m {A} (c : A -> PyM bool) (l : list A) :
  (forall x, keeps (grows 0 0) (c x)) ->
  keeps (grows 0 0) (StudentAssignmentManagerAgent.filter_m c l).
Proof.
  intros Hc. induction l as [|x l IH]; simpl.
  - apply keeps_ret.
  - apply keeps_bind; [apply Hc|]. intros y.
    apply keeps_bind; [exact IH|]. intros ys. apply keeps_ret.
Qed.

Lemma keeps_weaken {A} (p l : nat) (m : PyM A) :
  keeps (grows 0 0) m -> keeps (grows p l) m.
Proof. intros H s. apply (grows_weaken 0 0); [lia | lia | apply H]. Qed.

Create HintDb frame discriminated.
#[local] Hint Resolve keeps_ret keeps_raise keeps_lift keeps_now keeps_utcnow
  keeps_get_collection keeps_await_message : frame.
#[local] Hint Extern 1 (keeps _ (bind _ _)) => apply keeps_bind; [|intros] : frame.
#[local] Hint Extern 1 (keeps _ (try_except _ _)) => apply keeps_try; [|intros] : frame.
#[local] Hint Extern 1 (keeps _ (for_each _ _)) => apply keeps_for_each; intros : frame.
#[local] Hint Extern 1 (keeps _ (StudentAssignmentManagerAgent.filter_m _ _)) =>
  apply keeps_filter_m; intros : frame.
#[local] Hint Extern 2 (keeps _ (if ?b then _ else _)) => destruct b : frame.
#[local] Hint Extern 2 (keeps _ (match ?x with _ => _ end)) => destruct x : frame.
#[local] Hint Extern 3 (keeps _ (let _ := _ in _)) => cbv zeta : frame.

Lemma format_response_reads (w : World) (self : Agent) response actions analysis data recs :
  keeps (grows 0 0) (format_response w self response actions analysis data recs).
Proof. unfold format_response. auto with frame. Qed.

Lemma generate_ai_response_reads (w : World) (self : Agent) prompt system_prompt :
  keeps (grows 0 0) (generate_ai_response w self prompt system_prompt).
Proof. unfold generate_ai_response. auto 20 with frame. Qed.

Lemma fetch_user_data_reads user_id : keeps (grows 0 0) (fetch_user_data user_id).
Proof. unfold fetch_user_data. auto 20 with frame. Qed.

Lemma fetch_courses_reads user_id : keeps (grows 0 0) (fetch_courses user_id).
Proof.
  unfold fetch_courses. pose proof (fetch_user_data_reads user_id).
  auto 20 with frame.
Qed.

Lemma fetch_assignments_reads user_id : keeps (grows 0 0) (fetch_assignments user_id).
Proof. unfold fetch_assignments. auto 20 with frame. Qed.

Lemma fetch_materials_reads (w : World) query : keeps (grows 0 0) (fetch_materials w query).
Proof. unfold fetch_materials. auto 20 with frame. Qed.

Lemma recover_reads (w : World) (self : Agent) query e :
  keeps (grows 0 0) (recover w self query e).
Proof. unfold recover. apply format_response_reads. Qed.

#[local] Hint Resolve format_response_reads generate_ai_response_reads
  fetch_user_data_reads fetch_courses_reads fetch_assignments_reads
  fetch_materials_reads recover_reads : frame.

Lemma log_action_appends (w : World) (self : Agent) action_type user_id details :
  keeps (grows 0 1) (log_action w self action_type user_id details).
Proof.
  intros s. unfold log_action, try_except, bind, get_collection, utcnow, modify, set_db, ret.
  destruct (connected (db s)) eqn:E; [destruct (db_truth (db s)) as [[|]|e] eqn:T|]; simpl;
    try (apply (grows_weaken 0 0); [lia | lia | apply grows_refl]).
  unfold grows; simpl. split; [split; reflexivity|]. do 7 (split; [reflexivity|]). split.
  - exists []. rewrite app_nil_r. split; [reflexivity | simpl; lia].
  - eexists. split; [reflexivity | simpl; lia].
Qed.

Lemma save_study_plan_appends (w : World) user_id plan materials :
  keeps (grows 1 0) (StudentStudyPlannerAgent._save_study_plan w user_id plan materials).
Proof.
  intros s.
  unfold StudentStudyPlannerAgent._save_study_plan, try_except, bind, get_collection,
    utcnow, modify, set_db, ret.
  destruct (connected (db s)) eqn:E; [destruct (db_truth (db s)) as [[|]|e] eqn:T|]; simpl;
    try (apply (grows_weaken 0 0); [lia | lia | apply grows_refl]).
  unfold grows; simpl. split; [split; reflexivity|]. do 7 (split; [reflexivity|]). split.
  - eexists. split; [reflexivity | simpl; lia].
  - exists []. rewrite app_nil_r. split; [reflexivity | simpl; lia].
Qed.

Lemma due_date_reads (w : World) a :
  keeps (grows 0 0) (StudentAssignmentManagerAgent.due_date w a).
Proof. unfold StudentAssignmentManagerAgent.due_date. auto with frame. Qed.

#[local] Hint Resolve due_date_reads : frame.

Lemma is_overdue_reads (w : World) a :
  keeps (grows 0 0) (StudentAssignmentManagerAgent.is_overdue w a).
Proof. unfold StudentAssignmentManagerAgent.is_overdue. auto with frame. Qed.

Lemma key_of_reads (w : World) a :
  keeps (grows 0 0) (StudentAssignmentManagerAgent.key_of w a).
Proof. unfold StudentAssignmentManagerAgent.key_of. auto with frame. Qed.

Lemma dashboard_line_reads (w : World) ia :
  keeps (grows 0 0) (StudentAssignmentManagerAgent.dashboard_line w ia).
Proof. unfold StudentAssignmentManagerAgent.dashboard_line. auto with frame. Qed.

#[local] Hint Resolve is_overdue_reads key_of_reads dashboard_line_reads : frame.

Lemma assignment_attempt_reads (w : World) query user_id context :
  keeps (grows 0 0) (StudentAssignmentManagerAgent.attempt w query user_id context).
Proof.
  unfold StudentAssignmentManagerAgent.attempt,
    StudentAssignmentManagerAgent._list_assignments,
    StudentAssignmentManagerAgent.prioritize,
    StudentAssignmentManagerAgent._generate_assignment_content,
    StudentAssignmentManagerAgent._provide_assignment_help,
    StudentAssignmentManagerAgent._general_assignment_guidance.
  auto 40 with frame.
Qed.

Lemma description_of_reads query context :
  keeps (grows 0 0) (AdminHelpdeskManagerAgent.description_of query context).
Proof. unfold AdminHelpdeskManagerAgent.description_of. auto 20 with frame. Qed.

#[local] Hint Resolve description_of_reads : frame.

Lemma helpdesk_attempt_reads (w : World) query user_id context :
  keeps (grows 0 0) (AdminHelpdeskManagerAgent.attempt w query user_id context).
Proof.
  unfold AdminHelpdeskManagerAgent.attempt,
    AdminHelpdeskManagerAgent._categorize_ticket,
    AdminHelpdeskManagerAgent._suggest_solution,
    AdminHelpdeskManagerAgent._list_tickets,
    AdminHelpdeskManagerAgent._general_helpdesk_info.
  auto 40 with frame.
Qed.

Lemma py_len_reads v : keeps (grows 0 0) (AdminReportGeneratorAgent.py_len v).
Proof. unfold AdminReportGeneratorAgent.py_len. auto with frame. Qed.

Lemma py_set_reads l : keeps (grows 0 0) (AdminReportGeneratorAgent.py_set l).
Proof. unfold AdminReportGeneratorAgent.py_set. auto with frame. Qed.

Lemma py_sorted_reads l : keeps (grows 0 0) (AdminReportGeneratorAgent.py_sorted l).
Proof. unfold AdminReportGeneratorAgent.py_sorted. auto 20 with frame. Qed.

#[local] Hint Resolve py_len_reads py_set_reads py_sorted_reads : frame.

Lemma performance_report_appends (w : World) :
  keeps (grows 0 1) (AdminReportGeneratorAgent._generate_student_performance_report w).
Proof.
  unfold AdminReportGeneratorAgent._generate_student_performance_report.
  apply (keeps_bind_add 0 0 0 1); [auto with frame|]. intros users.
  apply (keeps_bind_add 0 0 0 1); [auto with frame|]. intros courses.
  apply (keeps_bind_add 0 0 0 1); [auto with frame|]. intros assignments.
  cbv zeta.
  apply (keeps_bind_add 0 0 0 1); [auto with frame|]. intros enrolled.
  apply (keeps_bind_add 0 0 0 1); [auto with frame|]. intros insights.
  apply (keeps_bind_add 0 0 0 1); [auto with frame|]. intros t.
  apply (keeps_bind_add 0 1 0 0); [apply log_action_appends|]. intros _.
  auto with frame.
Qed.

Lemma report_attempt_appends (w : World) query user_id context :
  keeps (grows 0 1) (AdminReportGeneratorAgent.attempt w query user_id context).
Proof.
  unfold AdminReportGeneratorAgent.attempt. cbv zeta.
  destruct (str_eqb _ _); [apply performance_report_appends|].
  apply keeps_weaken.
  unfold AdminReportGeneratorAgent._generate_engagement_report,
    AdminReportGeneratorAgent._generate_course_analytics,
    AdminReportGeneratorAgent._generate_overview_report.
  auto 40 with frame.
Qed.

Lemma as_dict_reads v : keeps (grows 0 0) (StudentStudyPlannerAgent.as_dict v).
Proof. unfold StudentStudyPlannerAgent.as_dict. auto with frame. Qed.

Lemma head_items_reads n v : keeps (grows 0 0) (StudentStudyPlannerAgent.head_items n v).
Proof. unfold StudentStudyPlannerAgent.head_items. auto with frame. Qed.

#[local] Hint Resolve as_dict_reads head_items_reads : frame.

Lemma gather_user_context_reads user_id :
  keeps (grows 0 0) (StudentStudyPlannerAgent._gather_user_context user_id).
Proof. unfold StudentStudyPlannerAgent._gather_user_context. auto 20 with frame. Qed.

Lemma extract_json_reads text : keeps (grows 0 0) (StudentStudyPlannerAgent.extract_json text).
Proof. unfold StudentStudyPlannerAgent.extract_json. auto 20 with frame. Qed.

#[local] Hint Resolve extract_json_reads : frame.

Lemma analyze_study_goal_reads (w : World) query context :
  keeps (grows 0 0) (StudentStudyPlannerAgent._analyze_study_goal w query context).
Proof. unfold StudentStudyPlannerAgent._analyze_study_goal. auto 20 with frame. Qed.

Lemma duration_weeks_of_reads (w : World) analysis :
  keeps (grows 0 0) (StudentStudyPlannerAgent.duration_weeks_of w analysis).
Proof. unfold StudentStudyPlannerAgent.duration_weeks_of. auto 20 with frame. Qed.

Lemma daily_task_reads (w : World) goal week day :
  keeps (grows 0 0) (StudentStudyPlannerAgent.daily_task w goal week day).
Proof. unfold StudentStudyPlannerAgent.daily_task. auto 20 with frame. Qed.

#[local] Hint Resolve duration_weeks_of_reads daily_task_reads : frame.

Lemma make_phase_reads (w : World) goal week :
  keeps (grows 0 0) (StudentStudyPlannerAgent.make_phase w goal week).
Proof. unfold StudentStudyPlannerAgent.make_phase. auto 20 with frame. Qed.

#[local] Hint Resolve make_phase_reads : frame.

Lemma create_study_plan_reads (w : World) goal context analysis :
  keeps (grows 0 0) (StudentStudyPlannerAgent._create_study_plan w goal context analysis).
Proof. unfold StudentStudyPlannerAgent._create_study_plan. auto 20 with frame. Qed.

Lemma find_relevant_materials_reads (w : World) query plan :
  keeps (grows 0 0) (StudentStudyPlannerAgent._find_relevant_materials w query plan).
Proof. unfold StudentStudyPlannerAgent._find_relevant_materials. auto 20 with frame. Qed.

Lemma generate_response_reads (w : World) plan materials analysis :
  keeps (grows 0 0) (StudentStudyPlannerAgent._generate_response w plan materials analysis).
Proof. unfold StudentStudyPlannerAgent._generate_response. auto 20 with frame. Qed.

Lemma planner_attempt_appends (w : World) query user_id context :
  keeps (grows 1 1) (StudentStudyPlannerAgent.attempt w query user_id context).
Proof.
  unfold StudentStudyPlannerAgent.attempt.
  apply (keeps_bind_add 0 0 1 1); [apply gather_user_context_reads|]. intros uc.
  apply (keeps_bind_add 0 0 1 1); [apply analyze_study_goal_reads|]. intros analysis.
  apply (keeps_bind_add 0 0 1 1); [apply create_study_plan_reads|]. intros plan.
  apply (keeps_bind_add 0 0 1 1); [apply find_relevant_materials_reads|]. intros found.
  apply (keeps_bind_add 1 0 0 1); [apply save_study_plan_appends|]. intros plan_id.
  apply (keeps_bind_add 0 0 0 1); [apply generate_response_reads|]. intros response.
  apply (keeps_bind_add 0 1 0 0); [apply log_action_appends|]. intros _.
  auto with frame.
Qed.

(** X1.  What the four responders write.  The assignment manager and the
    helpdesk manager leave the store exactly as they found it; the report
    generator adds at most one log entry, and the study planner at most
    one plan and one log entry, behind the records already there.  No
    responder touches users, courses, assignments, materials, events,
    tickets or conversations, whether its [try] block returns or
    raises. *)
Theorem responders_only_append_plans_and_logs
    (w : World) (query user_id : str) (context : option dict) :
  keeps (grows 1 1) (StudentStudyPlannerAgent.process w query user_id context)
  /\ keeps (grows 0 0) (StudentAssignmentManagerAgent.process w query user_id context)
  /\ keeps (grows 0 1) (AdminReportGeneratorAgent.process w query user_id context)
  /\ keeps (grows 0 0) (AdminHelpdeskManagerAgent.process w query user_id context).
Proof.
  split; [|split; [|split]].
  - apply (keeps_try_add 1 1 0 0); [apply planner_attempt_appends | apply recover_reads].
  - apply keeps_try; [apply assignment_attempt_reads | apply recover_reads].
  - apply (keeps_try_add 0 1 0 0); [apply report_attempt_appends | apply recover_reads].
  - apply keeps_try; [apply helpdesk_attempt_reads | apply recover_reads].
Qed.

(** *** Conversation memory *)






Lemma usable_or_not (d : DB) : usable d \/ ~ usable d.
Proof.
  unfold usable. destruct (connected d); [|right; intros [H _]; discriminate H].
  destruct (db_truth d) as [[|]|e]; [left; split; reflexivity | |];
    right; intros [_ H]; discriminate H.
Qed.

Lemma get_collection_usable {A} (c : DB -> A) (s : State) :
  usable (db s) -> get_collection c s = (Ok (c (db s)), s).
Proof. intros [Hc Ht]. unfold get_collection. rewrite Hc, Ht. reflexivity. Qed.

Lemma get_collection_unusable {A} (c : DB -> A) (s : State) :
  ~ usable (db s) -> exists e, get_collection c s = (Raise e, s).
Proof.
  intros H. unfold get_collection, usable in *.
  destruct (connected (db s)); [|eexists; reflexivity].
  destruct (db_truth (db s)) as [[|]|e]; [|eexists; reflexivity..].
  exfalso. apply H. split; reflexivity.
Qed.

Lemma not_usable_when_down (d : DB) : connected d = false -> ~ usable d.
Proof. intros H [Hc _]. congruence. Qed.



Lemma save_to_history_unusable (w : World) user_id conv_id message response s :
  ~ usable (db s) ->
  IntelligentChatbot._save_to_history w user_id conv_id message response s = (Ok tt, s).
Proof.
  intros Hno.
  unfold IntelligentChatbot._save_to_history, try_except.
  destruct (ENABLE_CONVERSATION_MEMORY w); [|reflexivity].
  unfold bind at 1. unfold bind at 1.
  destruct (get_collection_unusable conversations s Hno) as (e & ->). reflexivity.
Qed.


Lemma get_conversation_history_unusable (w : World) user_id conv_id s :
  ~ usable (db s) ->
  IntelligentChatbot._get_conversation_history w user_id conv_id s = (Ok [], s).
Proof.
  intros Hno.
  unfold IntelligentChatbot._get_conversation_history, try_except.
  destruct (ENABLE_CONVERSATION_MEMORY w); [|reflexivity].
  unfold bind at 1.
  destruct (get_collection_unusable conversations s Hno) as (e & ->). reflexivity.
Qed.




(** X3.  Memory that is switched off or cannot be reached.  With
    conversation memory disabled, or with the store not connected,
    [_save_to_history] returns without writing anything and without
    reading the clock, and [_get_conversation_history] returns the empty
    history: the exchange is dropped and no error reaches the caller. *)
Theorem history_is_dropped_without_memory_or_store
    (w : World) (user_id conv_id message response : str) (s : State) :
  (ENABLE_CONVERSATION_MEMORY w = false \/ connected (db s) = false) ->
  IntelligentChatbot._save_to_history w user_id conv_id message response s = (Ok tt, s)
  /\ IntelligentChatbot._get_conversation_history w user_id conv_id s = (Ok [], s).
Proof.
  intros [H|H].
  - unfold IntelligentChatbot._save_to_history, IntelligentChatbot._get_conversation_history.
    rewrite H. split; reflexivity.
  - apply not_usable_when_down in H. split.
    + apply save_to_history_unusable. exact H.
    + apply get_conversation_history_unusable. exact H.
Qed.

Lemma exchange_dropped_when_disconnected :
  IntelligentChatbot._save_to_history Examples.offline (u"u1") (u"c1") (u"hello")
    (u"Hello there!") Examples.disconnected = (Ok tt, Examples.disconnected)
  /\ IntelligentChatbot._get_conversation_history Examples.offline (u"u1") (u"c1")
       Examples.disconnected = (Ok [], Examples.disconnected).
Proof.
  apply (history_is_dropped_without_memory_or_store Examples.offline (u"u1") (u"c1")
           (u"hello") (u"Hello there!") Examples.disconnected).
  right. reflexivity.
Defined.




(** *** One message through the assistant *)





Lemma user_field_reads context key default :
  keeps (grows 0 0) (IntelligentChatbot.user_field context key default).
Proof. unfold IntelligentChatbot.user_field. auto with frame. Qed.

#[local] Hint Resolve user_field_reads : frame.

Lemma rule_based_response_reads (w : World) message context :
  keeps (grows 0 0) (IntelligentChatbot._get_rule_based_response w message context).
Proof. unfold IntelligentChatbot._get_rule_based_response. auto 20 with frame. Qed.

#[local] Hint Resolve rule_based_response_reads : frame.




(** *** The shared helpers of the responders *)

Lemma get_collection_refused (s : State) :
  ~ usable (db s) ->
  exists e, forall (A : Type) (c : DB -> A), get_collection c s = (Raise e, s).
Proof.
  intros H. unfold get_collection, usable in *.
  destruct (connected (db s)); [|eexists; reflexivity].
  destruct (db_truth (db s)) as [[|]|e]; [|eexists; reflexivity..].
  exfalso. apply H. split; reflexivity.
Qed.


Lemma firstn_In {A} (n : nat) (l : list A) (x : A) : In x (firstn n l) -> In x l.
Proof.
  revert l. induction n as [|n IH]; intros [|y l]; simpl; try tauto.
  intros [H|H]; [left; exact H | right; apply IH; exact H].
Qed.

Lemma filter_incl_Forall {A} (p : A -> bool) (n : nat) (l : list A) :
  Forall (fun x => In x l /\ p x = true) (firstn n (filter p l)).
Proof.
  apply Forall_forall. intros x Hx. apply firstn_In in Hx.
  apply filter_In in Hx. exact Hx.
Qed.



Lemma fetch_assignments_prefix user_id s :
  exists found,
    fetch_assignments user_id s = (Ok found, s)
    /\ (~ usable (db s) -> found = [])
    /\ (length found <= 100)%nat
    /\ Forall (fun a => In a (assignments (db s))
                        /\ field_is (u"userId") user_id a = true) found
    /\ (usable (db s) ->
        exists rest,
          filter (field_is (u"userId") user_id) (assignments (db s)) = found ++ rest
          /\ (rest <> [] -> length found = 100%nat)).
Proof.
  unfold fetch_assignments, try_except. unfold bind at 1.
  destruct (usable_or_not (db s)) as [Huse|Hno].
  - rewrite (get_collection_usable _ s Huse).
    eexists. split; [reflexivity|]. split; [intros H; contradiction|]. unfold to_list.
    split; [rewrite length_firstn; lia|]. split; [apply filter_incl_Forall|].
    intros _. exists (skipn 100 (filter (field_is (u"userId") user_id) (assignments (db s)))).
    split; [symmetry; apply firstn_skipn|].
    intros Hrest. rewrite length_firstn.
    destruct (Nat.le_gt_cases (length (filter (field_is (u"userId") user_id)
                                              (assignments (db s)))) 100) as [Hle|Hgt];
      [|lia].
    exfalso. apply Hrest. apply skipn_all2. exact Hle.
  - destruct (get_collection_refused s Hno) as (e & He). rewrite He.
    exists []. split; [reflexivity|]. split; [reflexivity|].
    split; [simpl; lia|]. split; [constructor | intros H; contradiction].
Qed.

Lemma fetch_materials_ok (w : World) query s :
  exists found,
    fetch_materials w query s = (Ok found, s)
    /\ (~ usable (db s) -> found = [])
    /\ (length found <= 50)%nat
    /\ incl found (materials (db s)).
Proof.
  unfold fetch_materials, try_except. unfold bind at 1.
  destruct (usable_or_not (db s)) as [Huse|Hno].
  - rewrite (get_collection_usable _ s Huse).
    destruct query as [[|c q]|].
    + eexists. split; [reflexivity|]. split; [intros H; contradiction|]. unfold to_list.
      split; [rewrite length_firstn; lia|].
      intros m Hm. apply firstn_In in Hm. exact Hm.
    + unfold bind, lift. cbv zeta. destruct (mongo_regex w (c :: q)) as [re|e].
      * eexists. split; [reflexivity|]. split; [intros H; contradiction|]. unfold to_list.
        split; [rewrite length_firstn; lia|].
        intros m Hm. apply firstn_In in Hm. apply filter_In in Hm. tauto.
      * exists []. split; [reflexivity|]. split; [reflexivity|].
        split; [simpl; lia | intros x []].
    + eexists. split; [reflexivity|]. split; [intros H; contradiction|]. unfold to_list.
      split; [rewrite length_firstn; lia|].
      intros m Hm. apply firstn_In in Hm. exact Hm.
  - destruct (get_collection_refused s Hno) as (e & He). rewrite He.
    exists []. split; [reflexivity|]. split; [reflexivity|].
    split; [simpl; lia | intros x []].
Qed.


(** *** The study planner's helpers *)

Lemma split_on_from_cur (sep : str) (s : str) :
  forall cur k,
    split_on_from sep cur s k
    = match split_on_from sep [] s k with
      | h :: t => (rev cur ++ h) :: t
      | [] => []
      end.
Proof.
  induction s as [|c r IH]; intros cur k; cbn [split_on_from].
  - cbn [rev]. rewrite app_nil_r. reflexivity.
  - destruct k as [|k]; [|apply IH].
    destruct (startswith sep (c :: r)).
    + cbn [rev]. rewrite app_nil_r. reflexivity.
    + rewrite (IH (c :: cur) O), (IH [c] O).
      destruct (split_on_from sep [] r 0) as [|h t]; [reflexivity|].
      cbn [rev app]. rewrite <- app_assoc. reflexivity.
Qed.

Lemma split_on_past (c0 : char) (sep' pre rest : str) :
  ~ In c0 pre ->
  split_on (c0 :: sep') (pre ++ rest)
  = match split_on (c0 :: sep') rest with
    | h :: t => (pre ++ h) :: t
    | [] => []
    end.
Proof.
  unfold split_on. induction pre as [|c pre IH]; intros Hno.
  - cbn [app]. destruct (split_on_from _ _ _ _); reflexivity.
  - cbn [app split_on_from startswith].
    assert (Hc : char_eqb c0 c = false).
    { apply N.eqb_neq. intros ->. apply Hno. left. reflexivity. }
    rewrite Hc. cbn [andb]. rewrite split_on_from_cur.
    rewrite IH by (intros H; apply Hno; right; exact H).
    destruct (split_on_from (c0 :: sep') [] rest 0); reflexivity.
Qed.

Lemma split_on_from_skip (sep cur x r : str) :
  split_on_from sep cur (x ++ r) (length x) = split_on_from sep cur r 0.
Proof.
  induction x as [|c x IH]; [reflexivity|]. cbn [app length split_on_from]. exact IH.
Qed.

Lemma startswith_app (p s : str) : startswith p (p ++ s) = true.
Proof. apply startswith_spec. exists s. reflexivity. Qed.

Lemma split_on_at (c0 : char) (sep' rest : str) :
  split_on (c0 :: sep') ((c0 :: sep') ++ rest) = [] :: split_on (c0 :: sep') rest.
Proof.
  unfold split_on.
  change (split_on_from (c0 :: sep') [] ((c0 :: sep') ++ rest) 0)
    with (if startswith (c0 :: sep') ((c0 :: sep') ++ rest)
          then rev [] :: split_on_from (c0 :: sep') [] (sep' ++ rest) (length sep')
          else split_on_from (c0 :: sep') [c0] (sep' ++ rest) 0).
  rewrite startswith_app, split_on_from_skip. reflexivity.
Qed.

Lemma split_on_without (c0 : char) (sep' s : str) :
  ~ In c0 s -> split_on (c0 :: sep') s = [s].
Proof.
  intros H. rewrite <- (app_nil_r s) at 1. rewrite split_on_past by exact H.
  cbn. rewrite app_nil_r. reflexivity.
Qed.

Lemma str_in_without (c0 : char) (k s : str) : ~ In c0 s -> str_in (c0 :: k) s = false.
Proof.
  induction s as [|c s IH]; intros H; cbn [str_in startswith]; [reflexivity|].
  assert (Hc : char_eqb c0 c = false).
  { apply N.eqb_neq. intros ->. apply H. left. reflexivity. }
  rewrite Hc. cbn [andb orb]. apply IH. intros Hin. apply H. right. exact Hin.
Qed.

Lemma str_in_occurs (k s : str) : occurs k s -> str_in k s = true.
Proof. apply str_in_spec. Qed.

Lemma index_past (c : char) (pre rest : str) :
  ~ In c pre -> index [c] (pre ++ c :: rest) = Some (length pre).
Proof.
  induction pre as [|x pre IH]; intros H; cbn [app index startswith length].
  - unfold char_eqb. rewrite N.eqb_refl. reflexivity.
  - assert (Hc : char_eqb c x = false).
    { apply N.eqb_neq. intros ->. apply H. left. reflexivity. }
    rewrite Hc. cbn [andb]. rewrite IH by (intros Hin; apply H; right; exact Hin).
    reflexivity.
Qed.

Lemma rindex_without (c : char) (s : str) : ~ In c s -> rindex [c] s = None.
Proof.
  induction s as [|x s IH]; intros H; cbn [rindex startswith]; [reflexivity|].
  rewrite IH by (intros Hin; apply H; right; exact Hin).
  assert (Hc : char_eqb c x = false).
  { apply N.eqb_neq. intros ->. apply H. left. reflexivity. }
  rewrite Hc. reflexivity.
Qed.

Lemma rindex_last (c : char) (pre post : str) :
  ~ In c post -> rindex [c] (pre ++ c :: post) = Some (length pre).
Proof.
  intros H. induction pre as [|x pre IH]; cbn [app rindex length].
  - rewrite (rindex_without c post H). cbn [startswith].
    unfold char_eqb. rewrite N.eqb_refl. reflexivity.
  - rewrite IH. reflexivity.
Qed.

Lemma not_In_app {A} (x : A) (l1 l2 : list A) : ~ In x (l1 ++ l2) -> ~ In x l1 /\ ~ In x l2.
Proof. intros H. split; intros Hin; apply H; apply in_or_app; tauto. Qed.

Lemma startswith_cancel (p q s : str) : startswith (p ++ q) (p ++ s) = startswith q s.
Proof.
  induction p as [|x p IH]; [reflexivity|]. cbn [app startswith].
  unfold char_eqb. rewrite N.eqb_refl. exact IH.
Qed.

Lemma split_on_from_step (sep cur : str) (c : char) (r : str) :
  startswith sep (c :: r) = false ->
  split_on_from sep cur (c :: r) 0 = split_on_from sep (c :: cur) r 0.
Proof. intros H. cbn [split_on_from]. rewrite H. reflexivity. Qed.

Lemma startswith_without (c0 : char) (k s : str) :
  ~ In c0 s -> startswith (c0 :: k) s = false.
Proof.
  destruct s as [|c s]; [reflexivity|]. intros H. cbn [startswith].
  assert (Hc : char_eqb c0 c = false).
  { apply N.eqb_neq. intros ->. apply H. left. reflexivity. }
  rewrite Hc. reflexivity.
Qed.

Lemma fence_tail (post : str) :
  ~ In 96%N post ->
  split_on (u"```json") (u"```" ++ post)
  = if startswith (u"json") post then [] :: split_on (u"```json") (skipn 4 post)
    else [u"```" ++ post].
Proof.
  intros H. destruct (startswith (u"json") post) eqn:E.
  - apply startswith_spec in E as [rest ->].
    change (u"```" ++ u"json" ++ rest) with (u"```json" ++ rest).
    change (skipn 4 (u"json" ++ rest)) with rest.
    exact (split_on_at 96%N (u"``json") rest).
  - unfold split_on.
    change (u"```" ++ post) with (96%N :: 96%N :: 96%N :: post).
    rewrite split_on_from_step.
    2:{ change (96%N :: 96%N :: 96%N :: post) with (u"```" ++ post).
        change (u"```json") with (u"```" ++ u"json").
        rewrite startswith_cancel. exact E. }
    rewrite split_on_from_step.
    2:{ change (96%N :: 96%N :: post) with (u"``" ++ post).
        change (u"```json") with (u"``" ++ u"`json").
        rewrite startswith_cancel. apply startswith_without. exact H. }
    rewrite split_on_from_step.
    2:{ change (96%N :: post) with (u"`" ++ post).
        change (u"```json") with (u"`" ++ u"``json").
        rewrite startswith_cancel. apply startswith_without. exact H. }
    rewrite split_on_from_cur.
    pose proof (split_on_without 96%N (u"``json") post H) as Hs.
    unfold split_on in Hs. change (96%N :: u"``json") with (u"```json") in Hs.
    rewrite Hs. reflexivity.
Qed.

Lemma extract_json_fenced (s : State) (pre body post : str) :
  ~ In 96%N pre -> ~ In 96%N body -> ~ In 96%N post ->
  StudentStudyPlannerAgent.extract_json (pre ++ u"```json" ++ body ++ u"```" ++ post) s
  = (Ok (strip body), s).
Proof.
  intros Hpre Hbody Hpost.
  unfold StudentStudyPlannerAgent.extract_json.
  rewrite str_in_occurs by (exists pre, (body ++ u"```" ++ post); reflexivity).
  change (u"```json") with (96%N :: u"``json") at 1 2.
  rewrite split_on_past by exact Hpre.
  change (96%N :: u"``json") with (u"```json").
  rewrite (split_on_at 96%N (u"``json")).
  change (96%N :: u"``json") with (u"```json").
  cbn [nth_error].
  change (u"```json") with (96%N :: u"``json").
  rewrite split_on_past by exact Hbody.
  change (96%N :: u"``json") with (u"```json").
  rewrite fence_tail by exact Hpost.
  destruct (startswith (u"json") post).
  - cbv beta iota. cbn [nth_error]. rewrite !app_nil_r.
    change (u"```") with (96%N :: u"``").
    rewrite split_on_without by exact Hbody. reflexivity.
  - cbn [nth_error].
    change (u"```") with (96%N :: u"``") at 1.
    rewrite split_on_past by exact Hbody.
    change (96%N :: u"``") with (u"```").
    rewrite (split_on_at 96%N (u"``")).
    cbv beta iota. cbn [nth_error]. rewrite app_nil_r. reflexivity.
Qed.

(** X9.  Finding the JSON in the provider's answer, for an answer whose
    parts around the markers hold no backtick.  A block fenced with
    [```json] and [```] is returned without the blanks around it; so is a
    block between two plain fences when the answer holds no [```json].
    With no backtick at all, an answer with braces yields the text from
    its first opening brace to its last closing brace, an answer with an
    opening brace and no closing one raises, and an answer with neither
    is returned as it is.  The state is never changed. *)
Theorem extract_json_finds_the_block (s : State) :
  (forall pre body post,
      ~ In 96%N pre -> ~ In 96%N body -> ~ In 96%N post ->
      StudentStudyPlannerAgent.extract_json (pre ++ u"```json" ++ body ++ u"```" ++ post) s
      = (Ok (strip body), s))
  /\ (forall pre body post,
        ~ In 96%N pre -> ~ In 96%N body ->
        str_in (u"```json") (pre ++ u"```" ++ body ++ u"```" ++ post) = false ->
        StudentStudyPlannerAgent.extract_json (pre ++ u"```" ++ body ++ u"```" ++ post) s
        = (Ok (strip body), s))
  /\ (forall pre mid post,
        ~ In 96%N (pre ++ u"{" ++ mid ++ u"}" ++ post) ->
        ~ In 123%N pre -> ~ In 125%N post ->
        StudentStudyPlannerAgent.extract_json (pre ++ u"{" ++ mid ++ u"}" ++ post) s
        = (Ok (u"{" ++ mid ++ u"}"), s))
  /\ (forall text,
        ~ In 96%N text -> In 123%N text -> ~ In 125%N text ->
        StudentStudyPlannerAgent.extract_json text s
        = (Raise (mk_exn ValueError (u"substring not found")), s))
  /\ (forall text,
        ~ In 96%N text -> ~ In 123%N text ->
        StudentStudyPlannerAgent.extract_json text s = (Ok text, s)).
Proof.
  split; [|split; [|split; [|split]]].
  - intros pre body post. apply extract_json_fenced.
  - intros pre body post Hpre Hbody Hno.
    unfold StudentStudyPlannerAgent.extract_json. rewrite Hno.
    rewrite str_in_occurs by (exists pre, (body ++ u"```" ++ post); reflexivity).
    change (u"```") with (96%N :: u"``") at 1 2.
    rewrite split_on_past by exact Hpre.
    change (96%N :: u"``") with (u"```").
    rewrite (split_on_at 96%N (u"``")).
    cbn [nth_error].
    change (96%N :: u"``") with (u"```").
    change (u"```") with (96%N :: u"``") at 1.
    rewrite split_on_past by exact Hbody.
    change (96%N :: u"``") with (u"```").
    rewrite (split_on_at 96%N (u"``")).
    cbv beta iota. cbn [nth_error]. rewrite app_nil_r. reflexivity.
  - intros pre mid post Hno Hpre Hpost.
    unfold StudentStudyPlannerAgent.extract_json.
    change (u"```json") with (96%N :: u"``json").
    change (u"```") with (96%N :: u"``").
    rewrite !str_in_without by exact Hno.
    rewrite str_in_occurs by (exists pre, (mid ++ u"}" ++ post); reflexivity).
    change (u"{") with [123%N]. change (u"}") with [125%N].
    cbn [app]. rewrite index_past by exact Hpre.
    change (pre ++ 123%N :: mid ++ 125%N :: post)
      with (pre ++ (123%N :: mid) ++ 125%N :: post).
    rewrite app_assoc.
    rewrite rindex_last by exact Hpost.
    unfold slice, ret. rewrite <- app_assoc. cbn [app].
    rewrite skipn_app, skipn_all, Nat.sub_diag. cbn [skipn app].
    rewrite length_app. cbn [length].
    match goal with
    | |- context [firstn ?n _] =>
        replace n with (S (S (length mid))) by (unfold char; lia)
    end.
    rewrite firstn_cons.
    replace (S (length mid)) with (length mid + 1)%nat by (unfold char; lia).
    rewrite firstn_app_2. reflexivity.
  - intros text Hno Hopen Hclose.
    unfold StudentStudyPlannerAgent.extract_json.
    change (u"```json") with (96%N :: u"``json").
    change (u"```") with (96%N :: u"``").
    rewrite !str_in_without by exact Hno.
    apply in_split in Hopen as (pre & post & ->).
    rewrite str_in_occurs by (exists pre, post; reflexivity).
    change (u"}") with [125%N]. rewrite rindex_without by exact Hclose.
    destruct (index _ _); reflexivity.
  - intros text Hno Hopen.
    unfold StudentStudyPlannerAgent.extract_json.
    change (u"```json") with (96%N :: u"``json").
    change (u"```") with (96%N :: u"``").
    rewrite !str_in_without by exact Hno.
    change (u"{") with [123%N]. rewrite str_in_without by exact Hopen.
    reflexivity.
Qed.

Lemma generate_ai_response_ok (w : World) (self : Agent) prompt system_prompt s :
  exists text, generate_ai_response w self prompt system_prompt s = (Ok text, s).
Proof.
  unfold generate_ai_response, try_except.
  destruct (ai_type w) as [[| |]|]; unfold lift, ret;
    try destruct (llm w _); eexists; reflexivity.
Qed.

Lemma extract_json_pure text s :
  exists r, StudentStudyPlannerAgent.extract_json text s = (r, s).
Proof.
  unfold StudentStudyPlannerAgent.extract_json.
  repeat match goal with
         | |- context [if ?b then _ else _] => destruct b
         | |- context [match ?x with _ => _ end] => destruct x
         end; eexists; reflexivity.
Qed.

Lemma analyze_study_goal_ok (w : World) query context s :
  exists text analysis,
    (exists prompt system_prompt,
        generate_ai_response w StudentStudyPlannerAgent.self prompt (Some system_prompt) s
        = (Ok text, s)
        /\ prompt = u"Student Goal: " ++ query ++ nl ++ nl
                      ++ u"Analyze this study goal and provide structured guidance.")
    /\ StudentStudyPlannerAgent._analyze_study_goal w query context s = (Ok analysis, s)
    /\ analysis
       = match StudentStudyPlannerAgent.extract_json text s with
         | (Ok json_str, _) =>
             match json_loads w json_str with
             | Ok decoded => decoded
             | Raise _ => StudentStudyPlannerAgent.fallback_analysis query
             end
         | (Raise _, _) => StudentStudyPlannerAgent.fallback_analysis query
         end.
Proof.
  unfold StudentStudyPlannerAgent._analyze_study_goal. cbv zeta.
  match goal with
  | |- context [generate_ai_response w ?a ?p ?sp] =>
      destruct (generate_ai_response_ok w a p sp s) as (text & Hgen)
  end.
  exists text.
  exists (match StudentStudyPlannerAgent.extract_json text s with
          | (Ok json_str, _) =>
              match json_loads w json_str with
              | Ok decoded => decoded
              | Raise _ => StudentStudyPlannerAgent.fallback_analysis query
              end
          | (Raise _, _) => StudentStudyPlannerAgent.fallback_analysis query
          end).
  split.
  - eexists. eexists. split; [exact Hgen | reflexivity].
  - split; [|reflexivity].
    unfold bind at 1. rewrite Hgen. unfold try_except, bind.
    destruct (extract_json_pure text s) as (r & ->). destruct r as [json_str|e].
    + unfold lift. destruct (json_loads w json_str); reflexivity.
    + reflexivity.
Qed.

(** X10.  Analysing the goal.  [_analyze_study_goal] never raises and
    changes nothing.  It sends one prompt naming the goal; the analysis
    is what [json.loads] makes of the text found in the answer, and the
    built-in two-week analysis for the goal whenever no text can be
    extracted or the text cannot be decoded.  In particular an answer
    made of a single [```json] block is decoded from the block alone. *)
Theorem analyze_study_goal_decodes_or_defaults
    (w : World) (query : str) (context : StudentStudyPlannerAgent.UserContext) (s : State) :
  exists text analysis,
    (exists prompt system_prompt,
        generate_ai_response w StudentStudyPlannerAgent.self prompt (Some system_prompt) s
        = (Ok text, s)
        /\ prompt = u"Student Goal: " ++ query ++ nl ++ nl
                      ++ u"Analyze this study goal and provide structured guidance.")
    /\ StudentStudyPlannerAgent._analyze_study_goal w query context s = (Ok analysis, s)
    /\ analysis
       = match StudentStudyPlannerAgent.extract_json text s with
         | (Ok json_str, _) =>
             match json_loads w json_str with
             | Ok decoded => decoded
             | Raise _ => StudentStudyPlannerAgent.fallback_analysis query
             end
         | (Raise _, _) => StudentStudyPlannerAgent.fallback_analysis query
         end
    /\ (forall pre body post decoded,
          text = pre ++ u"```json" ++ body ++ u"```" ++ post ->
          ~ In 96%N pre -> ~ In 96%N body -> ~ In 96%N post ->
          json_loads w (strip body) = Ok decoded ->
          analysis = decoded)
    /\ (forall e,
          (forall json_str, json_loads w json_str = Raise e) ->
          analysis = StudentStudyPlannerAgent.fallback_analysis query).
Proof.
  destruct (analyze_study_goal_ok w query context s) as (text & analysis & Hgen & Hrun & Heq).
  exists text, analysis. split; [exact Hgen|]. split; [exact Hrun|]. split; [exact Heq|].
  split.
  - intros pre body post decoded -> Hpre Hbody Hpost Hdec.
    rewrite Heq.
    rewrite (extract_json_fenced s pre body post Hpre Hbody Hpost).
    rewrite Hdec. reflexivity.
  - intros e He. rewrite Heq.
    destruct (StudentStudyPlannerAgent.extract_json text s) as [[json_str|e'] s1];
      [rewrite He|]; reflexivity.
Qed.

(** X11.  Marking the materials found.  [_find_relevant_materials] never
    raises and changes nothing; it returns the materials
    [fetch_materials] finds for the query, at most 50 and in the same
    order, each with [relevance_score] 85 and [ai_recommended] true and
    every other key as stored. *)
Theorem relevant_materials_are_marked
    (w : World) (query : str) (plan : StudyPlan) (s : State) :
  exists stored found,
    fetch_materials w (Some query) s = (Ok stored, s)
    /\ StudentStudyPlannerAgent._find_relevant_materials w query plan s = (Ok found, s)
    /\ (length found <= 50)%nat
    /\ (connected (db s) = false -> found = [])
    /\ Forall2 (fun material marked =>
                  dict_get marked (u"relevance_score") = Some (VInt 85)
                  /\ dict_get marked (u"ai_recommended") = Some (VBool true)
                  /\ forall key,
                       key <> u"relevance_score" -> key <> u"ai_recommended" ->
                       dict_get marked key = dict_get material key)
               stored found.
Proof.
  destruct (fetch_materials_ok w (Some query) s) as (stored & Hfetch & Hdown & Hlen & _).
  exists stored. eexists. split; [exact Hfetch|].
  unfold StudentStudyPlannerAgent._find_relevant_materials, bind. rewrite Hfetch.
  split; [reflexivity|]. split; [rewrite length_map; exact Hlen|]. split.
  - intros H. rewrite (Hdown (not_usable_when_down _ H)). reflexivity.
  - clear. induction stored as [|m stored IH]; cbn [map]; constructor; [|exact IH].
    split; [|split].
    + rewrite dict_get_set_other by (intros H; apply (f_equal (@length char)) in H;
                                      vm_compute in H; discriminate H).
      apply dict_get_set_same.
    + apply dict_get_set_same.
    + intros key H1 H2. rewrite !dict_get_set_other by assumption. reflexivity.
Qed.


Lemma generate_response_pure (w : World) plan found analysis s :
  exists r, StudentStudyPlannerAgent._generate_response w plan found analysis s = (r, s).
Proof.
  unfold StudentStudyPlannerAgent._generate_response,
    StudentStudyPlannerAgent.as_dict, StudentStudyPlannerAgent.head_items.
  cbv zeta. unfold bind at 1.
  destruct analysis; try (eexists; reflexivity).
  unfold ret at 1. unfold bind at 1.
  destruct (get_or d (u"difficulty_level") (VStr (u"intermediate")));
    try (eexists; reflexivity).
  unfold ret at 1. unfold bind at 1.
  destruct (get_or d (u"key_topics") _); try (eexists; reflexivity);
    unfold ret at 1; unfold bind at 1;
    destruct (get_or d (u"recommendations") _); eexists; reflexivity.
Qed.

Lemma gather_user_context_down user_id s :
  connected (db s) = false ->
  StudentStudyPlannerAgent._gather_user_context user_id s
  = (Ok (StudentStudyPlannerAgent.mkUserContext [] [] [] 0 0), s).
Proof.
  destruct s as [[c cv us cs asg ms es hs ps ls] t]. simpl. intros ->. reflexivity.
Qed.

(** X13.  The planner with the store down.  With the store not
    connected, [process] of the study planner still returns a successful
    envelope and leaves the store as it is.  Either the envelope is the
    fallback one, without data, or it announces a created plan under the
    placeholder id [temp_id] with no materials: a plan is reported
    although none was saved. *)
Theorem planner_without_store_reports_an_unsaved_plan
    (w : World) (query user_id : str) (context : option dict) (s : State) :
  connected (db s) = false ->
  exists env s',
    StudentStudyPlannerAgent.process w query user_id context s = (Ok env, s')
    /\ db s' = db s
    /\ env_success env = true
    /\ (env_data env = None
        \/ exists plan,
             env_data env = Some (PlanData (u"temp_id") plan [])
             /\ env_actions_performed env
                = [[(u"type", VStr (u"study_plan_created")); (u"plan_id", VStr (u"temp_id"));
                    (u"success", VBool true)];
                   [(u"type", VStr (u"materials_found")); (u"count", VInt 0);
                    (u"success", VBool true)]]).
Proof.
  intros Hdown.
  unfold StudentStudyPlannerAgent.process, try_except, StudentStudyPlannerAgent.attempt.
  unfold bind at 1. rewrite (gather_user_context_down user_id s Hdown).
  unfold bind at 1.
  destruct (analyze_study_goal_ok w query
              (StudentStudyPlannerAgent.mkUserContext [] [] [] 0 0) s)
    as (text & analysis & _ & -> & _).
  unfold bind at 1.
  pose proof (create_study_plan_reads w query
                (StudentStudyPlannerAgent.mkUserContext [] [] [] 0 0) analysis s) as Hplan.
  apply grows_same in Hplan.
  destruct (StudentStudyPlannerAgent._create_study_plan w query _ analysis s)
    as [[plan|e] s1]; cbn [snd] in Hplan.
  2:{ rewrite recover_ok. cbn [db]. eexists. eexists. split; [reflexivity|].
      split; [exact Hplan|]. split; [reflexivity | left; reflexivity]. }
  assert (Hdown1 : connected (db s1) = false) by (rewrite Hplan; exact Hdown).
  unfold bind at 1.
  assert (Hfound : StudentStudyPlannerAgent._find_relevant_materials w query plan s1
                   = (Ok [], s1)).
  { unfold StudentStudyPlannerAgent._find_relevant_materials, bind.
    destruct (fetch_materials_ok w (Some query) s1) as (found & -> & Hnone & _).
    rewrite (Hnone (not_usable_when_down _ Hdown1)). reflexivity. }
  rewrite Hfound. unfold bind at 1.
  assert (Hsave : StudentStudyPlannerAgent._save_study_plan w user_id plan [] s1
                  = (Ok (u"temp_id"), s1)).
  { unfold StudentStudyPlannerAgent._save_study_plan, try_except, bind, get_collection.
    rewrite Hdown1. reflexivity. }
  rewrite Hsave. unfold bind at 1.
  destruct (generate_response_pure w plan [] analysis s1) as (r & ->).
  destruct r as [response|e].
  2:{ rewrite recover_ok. cbn [db]. eexists. eexists. split; [reflexivity|].
      split; [exact Hplan|]. split; [reflexivity | left; reflexivity]. }
  unfold bind at 1.
  assert (Hlog : forall action details,
             log_action w StudentStudyPlannerAgent.self action user_id details s1
             = (Ok tt, s1)).
  { intros action details. unfold log_action, try_except, bind, get_collection.
    rewrite Hdown1. reflexivity. }
  rewrite Hlog. unfold bind at 1. unfold StudentStudyPlannerAgent.as_dict.
  destruct analysis; unfold raise, ret;
    try (rewrite recover_ok; cbn [db]; eexists; eexists; split; [reflexivity|];
         split; [exact Hplan|]; split; [reflexivity | left; reflexivity]).
  rewrite format_response_ok. cbn [db]. eexists. eexists. split; [reflexivity|].
  split; [exact Hplan|]. split; [reflexivity|]. right.
  exists plan. split; reflexivity.
Qed.

Lemma plan_reported_while_disconnected :
  exists env s',
    StudentStudyPlannerAgent.process Examples.offline (u"study plan for algebra") (u"u1")
      None Examples.disconnected = (Ok env, s')
    /\ db s' = db Examples.disconnected
    /\ env_success env = true
    /\ (env_data env = None
        \/ exists plan,
             env_data env = Some (PlanData (u"temp_id") plan [])
             /\ env_actions_performed env
                = [[(u"type", VStr (u"study_plan_created")); (u"plan_id", VStr (u"temp_id"));
                    (u"success", VBool true)];
                   [(u"type", VStr (u"materials_found")); (u"count", VInt 0);
                    (u"success", VBool true)]]).
Proof.
  exact (planner_without_store_reports_an_unsaved_plan Examples.offline
           (u"study plan for algebra") (u"u1") None Examples.disconnected eq_refl).
Defined.

(** *** The assistant's context and its rule-based replies *)


Lemma any_in_true (words : list str) (text : str) :
  (exists k, In k words /\ occurs k text) ->
  StudentAssignmentManagerAgent.any_in words text = true.
Proof. apply any_in_spec. Qed.

Lemma any_in_not (words : list str) (text : str) :
  ~ (exists k, In k words /\ occurs k text) ->
  StudentAssignmentManagerAgent.any_in words text = false.
Proof. apply any_in_false. Qed.

Lemma str_in_not (k s : str) : ~ occurs k s -> str_in k s = false.
Proof.
  intros H. destruct (str_in k s) eqn:E; [|reflexivity].
  apply str_in_spec in E. contradiction.
Qed.

(** X15.  The rule-based replies.  [_get_rule_based_response] tries its
    rules in a fixed order on the message as [str.lower] returns it, and
    the first that applies wins: a greeting word anywhere in it, then
    [help], then a course word, then [event]; otherwise the default
    reply, which repeats the message as typed.  A greeting word counts
    wherever it occurs, inside other words too, so every message
    containing [hi] is greeted.  Only the greeting rule reads the
    context: when the [user] entry is not a dict it raises the
    AttributeError that names the type of the entry, and no other rule
    can raise.  For a message of ASCII characters the greeting rule
    applies exactly when a greeting word occurs in the message as typed,
    in whatever case its letters are written. *)
Theorem rule_based_response_first_match
    (w : World) (message : str) (context : dict) (s : State) :
  let text := str_lower w message in
  let greetings := [u"hello"; u"hi"; u"hey"; u"good morning"; u"good afternoon"] in
  let greeting := exists k, In k greetings /\ occurs k text in
  let course := exists k, In k [u"course"; u"class"; u"subject"] /\ occurs k text in
  (occurs (u"hi") text -> greeting)
  /\ (greeting ->
      (forall user,
          get_or context (u"user") (VDict []) = VDict user ->
          IntelligentChatbot._get_rule_based_response w message context s
          = (Ok (u"Hello " ++ fmt w (get_or user (u"name") (VStr (u"there")))
                 ++ u"! 👋 How can I assist you today? I can help with courses, assignments, events, and more!"),
             s))
      /\ (forall entry,
            get_or context (u"user") (VDict []) = entry ->
            (forall user, entry <> VDict user) ->
            IntelligentChatbot._get_rule_based_response w message context s
            = (Raise (mk_exn AttributeError
                        (u"'" ++ type_name entry ++ u"' object has no attribute 'get'")),
               s)))
  /\ (~ greeting ->
      exists reply,
        IntelligentChatbot._get_rule_based_response w message context s = (Ok reply, s)
        /\ (occurs (u"help") text ->
            startswith (u"I'm here to help! I can assist you with:") reply = true)
        /\ (~ occurs (u"help") text -> course ->
            reply = u"I can help you with course information, enrollment, and materials. What specific course information do you need?")
        /\ (~ occurs (u"help") text -> ~ course -> occurs (u"event") text ->
            reply = u"Looking for campus events? I can show you upcoming events, help you register, and provide event details. What would you like to know?")
        /\ (~ occurs (u"help") text -> ~ course -> ~ occurs (u"event") text ->
            exists rest,
              reply = u"I understand you're asking about: " ++ quote ++ message ++ quote
                        ++ rest))
  /\ (folds_ascii w -> ascii message ->
      (greeting <-> exists k, In k greetings /\ occurs_nocase k message)).
Proof.
  cbv zeta. split; [|split; [|split]].
  - intros H. exists (u"hi"). split; [right; left; reflexivity | exact H].
  - intros Hg. unfold IntelligentChatbot._get_rule_based_response. cbv zeta.
    unfold IntelligentChatbot.any_in. rewrite (any_in_true _ _ Hg).
    unfold IntelligentChatbot.user_field, bind. split.
    + intros user ->. reflexivity.
    + intros entry -> Hno. destruct entry; try reflexivity.
      exfalso. apply (Hno d). reflexivity.
  - intros Hg. unfold IntelligentChatbot._get_rule_based_response. cbv zeta.
    unfold IntelligentChatbot.any_in. rewrite (any_in_not _ _ Hg).
    destruct (str_in (u"help") (str_lower w message)) eqn:Ehelp.
    { eexists. split; [reflexivity|]. apply str_in_spec in Ehelp.
      split; [intros _; vm_compute; reflexivity|].
      split; [intros; contradiction|]. split; intros; contradiction. }
    assert (Hhelp : ~ occurs (u"help") (str_lower w message)).
    { intros H. apply str_in_spec in H. congruence. }
    destruct (StudentAssignmentManagerAgent.any_in [u"course"; u"class"; u"subject"]
                (str_lower w message)) eqn:Ecourse.
    { eexists. split; [reflexivity|]. apply any_in_spec in Ecourse.
      split; [intros; contradiction|]. split; [intros; reflexivity|].
      split; intros; contradiction. }
    apply any_in_false in Ecourse.
    destruct (str_in (u"event") (str_lower w message)) eqn:Eevent.
    { eexists. split; [reflexivity|]. apply str_in_spec in Eevent.
      split; [intros; contradiction|]. split; [intros; contradiction|].
      split; [intros; reflexivity | intros; contradiction]. }
    assert (Hevent : ~ occurs (u"event") (str_lower w message)).
    { intros H. apply str_in_spec in H. congruence. }
    eexists. split; [reflexivity|].
    split; [intros; contradiction|]. split; [intros; contradiction|].
    split; [intros; contradiction|]. intros _ _ _.
    eexists. reflexivity.
  - intros Hw Hascii. rewrite (Hw message Hascii).
    apply hit_lower_nocase. vm_compute. reflexivity.
Qed.

(** *** The voice adapter *)

Lemma replace_from_length (old s : str) :
  forall k, (length (replace_from old [] s k) <= length s)%nat.
Proof.
  induction s as [|c r IH]; intros k; cbn [replace_from length]; [lia|].
  destruct k as [|k].
  - destruct (startswith old (c :: r)); cbn [app length].
    + specialize (IH (Nat.pred (length old))). lia.
    + specialize (IH O). lia.
  - specialize (IH k). lia.
Qed.

Lemma replace_length (c : char) (old s : str) :
  (length (replace (c :: old) [] s) <= length s)%nat.
Proof. unfold replace. apply replace_from_length. Qed.

Lemma format_for_voice_length (text : str) :
  (length (VoiceAssistant._format_for_voice text) <= 532)%nat
  /\ ((length text <= 500)%nat ->
      (length (VoiceAssistant._format_for_voice text) <= length text)%nat).
Proof.
  unfold VoiceAssistant._format_for_voice. cbv zeta.
  set (stripped := replace (u"-") [] _).
  assert (Hle : (length stripped <= length text)%nat).
  { unfold stripped.
    change (u"-") with [45%N]. change (u"•") with [8226%N].
    change (u"###") with (35%N :: u"##"). change (u"##") with (35%N :: u"#").
    change (u"**") with (42%N :: u"*").
    repeat (etransitivity; [apply replace_length|]). apply Nat.le_refl. }
  destruct (500 <? length stripped)%nat eqn:E.
  - apply Nat.ltb_lt in E. split; [|lia].
    rewrite length_app. unfold take. rewrite length_firstn.
    assert (Hc : length VoiceAssistant.continuation = 32%nat) by (vm_compute; reflexivity).
    rewrite Hc. lia.
  - apply Nat.ltb_ge in E. split; [lia | intros _; exact Hle].
Qed.

(** X16.  What is spoken is short.  [_format_for_voice] never returns
    more than 532 characters (500 of the text and the 32 of the
    continuation prompt), and never lengthens a text of 500 characters or
    fewer.  [process_voice_query] never raises, always reports voice as
    enabled, and the text it returns, the formatted reply or the apology
    alike, has at most 532 characters. *)
Theorem spoken_replies_are_bounded :
  (forall text,
      (length (VoiceAssistant._format_for_voice text) <= 532)%nat
      /\ ((length text <= 500)%nat ->
          (length (VoiceAssistant._format_for_voice text) <= length text)%nat))
  /\ (forall (w : World) (query user_id : str) (context : option dict) (s : State),
        exists v s',
          VoiceAssistant.process_voice_query w query user_id context s = (Ok v, s')
          /\ voice_enabled v = true
          /\ (length (voice_response v) <= 532)%nat).
Proof.
  split; [exact format_for_voice_length|].
  intros w query user_id context s.
  unfold VoiceAssistant.process_voice_query, VoiceAssistant.process_voice_query_with,
    try_except. cbv zeta. unfold bind at 1.
  destruct (process_message_never_raises w query user_id
              (Some (VoiceAssistant.voice_context_of context)) None s) as (r & s1 & ->).
  unfold bind, utcnow, ret. eexists. eexists. split; [reflexivity|].
  cbn [voice_enabled voice_response].
  split; [reflexivity | apply format_for_voice_length].
Qed.

(** *** The helpdesk and the assignment dashboards *)

Lemma filter_disjoint_length {A} (p q : A -> bool) (l : list A) :
  (forall x, p x = true -> q x = false) ->
  (length (filter p l) + length (filter q l) <= length l)%nat.
Proof.
  intros H. induction l as [|x l IH]; cbn [filter length]; [lia|].
  destruct (p x) eqn:Ep.
  - rewrite (H x Ep). cbn [length]. lia.
  - destruct (q x); cbn [length]; lia.
Qed.

Lemma is_str_disjoint (v : Val) (a b : str) :
  a <> b -> is_str v a = true -> is_str v b = false.
Proof.
  intros Hne. destruct v; cbn [is_str]; try discriminate.
  intros H. apply str_eqb_eq in H. subst. apply str_eqb_neq. exact Hne.
Qed.


Lemma returns_only_bind_with {A B} (m : PyM A) (k : A -> PyM B)
    (P : A -> Prop) (Q : B -> Prop) :
  returns_only m P -> (forall a, P a -> returns_only (k a) Q) ->
  returns_only (bind m k) Q.
Proof.
  intros Hm Hk s b s' H. unfold bind in H.
  destruct (m s) as [[a|e] s1] eqn:E; [|discriminate].
  exact (Hk a (Hm s a s1 E) s1 b s' H).
Qed.

Lemma filter_m_shorter {A} (c : A -> PyM bool) (l : list A) :
  returns_only (StudentAssignmentManagerAgent.filter_m c l)
               (fun kept => (length kept <= length l)%nat).
Proof.
  induction l as [|x l IH]; cbn [StudentAssignmentManagerAgent.filter_m].
  - apply returns_only_ret. apply Nat.le_refl.
  - apply returns_only_bind. intros b.
    apply (returns_only_bind_with _ _ _ _ IH). intros rest Hrest.
    apply returns_only_ret. destruct b; cbn [length]; lia.
Qed.

Lemma for_each_same_length {A B} (f : A -> PyM B) (l : list A) :
  returns_only (for_each f l) (fun ys => length ys = length l).
Proof.
  induction l as [|x l IH]; cbn [for_each].
  - apply returns_only_ret. reflexivity.
  - apply returns_only_bind. intros y.
    apply (returns_only_bind_with _ _ _ _ IH). intros ys Hys.
    apply returns_only_ret. cbn [length]. congruence.
Qed.

Lemma prioritize_same_length (w : World) (pending : list dict) :
  returns_only (StudentAssignmentManagerAgent.prioritize w pending)
               (fun ordered => length ordered = length pending).
Proof.
  unfold StudentAssignmentManagerAgent.prioritize.
  apply (returns_only_bind_with _ _ _ _ (for_each_same_length _ pending)).
  intros keyed Hlen. apply returns_only_ret.
  rewrite length_map, (Permutation_length (sorted_by_key_perm keyed)). exact Hlen.
Qed.

Lemma fetch_assignments_ok user_id s :
  exists found,
    fetch_assignments user_id s = (Ok found, s)
    /\ (~ usable (db s) -> found = [])
    /\ (length found <= 100)%nat.
Proof.
  destruct (fetch_assignments_prefix user_id s) as (found & H1 & H2 & H3 & _).
  exists found. split; [exact H1|]. split; [exact H2 | exact H3].
Qed.

Lemma format_response_returns_with (w : World) (self : Agent) response actions analysis
    data recs (Q : Envelope -> Prop) :
  (forall t, Q {| env_success := true;
                  env_agent_name := agent_name self;
                  env_response := response;
                  env_actions_performed :=
                    match actions with Some (a :: l) => a :: l | _ => [] end;
                  env_analysis := analysis;
                  env_data := data;
                  env_recommendations := recs;
                  env_timestamp := t |}) ->
  returns_only (format_response w self response actions analysis data recs) Q.
Proof.
  intros H s env s' E. rewrite format_response_ok in E.
  injection E as <- _. apply H.
Qed.

Lemma list_assignments_consistent (w : World) user_id query :
  returns_only (StudentAssignmentManagerAgent._list_assignments w user_id query)
               (fun env => env_analysis env = None \/ consistent_dashboard env).
Proof.
  unfold StudentAssignmentManagerAgent._list_assignments.
  apply (returns_only_bind_with _ _ (fun found => (length found <= 100)%nat)).
  { intros s a s' H. destruct (fetch_assignments_ok user_id s) as (found & E & _ & Hlen).
    rewrite E in H. injection H as <- _. exact Hlen. }
  intros found Hfound. destruct found as [|a found].
  - apply format_response_returns_with. intros t. left. reflexivity.
  - cbv zeta.
    set (docs := a :: found) in *.
    set (pending := filter (StudentAssignmentManagerAgent.has_status (u"pending")) docs).
    set (completed := filter (StudentAssignmentManagerAgent.has_status (u"completed")) docs).
    apply (returns_only_bind_with _ _ _ _ (filter_m_shorter _ pending)).
    intros overdue Hover.
    apply (returns_only_bind_with _ _ _ _ (prioritize_same_length w pending)).
    intros ordered Hord.
    apply returns_only_bind. intros lines.
    apply format_response_returns_with. intros t.
    right. exists (length docs), (length pending), (length completed), (length overdue).
    exists (map VDict (take 10 ordered)). cbn [env_analysis env_data].
    split; [reflexivity|]. split; [reflexivity|]. split; [exact Hover|]. split.
    + apply filter_disjoint_length. intros x.
      unfold StudentAssignmentManagerAgent.has_status. apply is_str_disjoint.
      intros E. apply (f_equal (@length char)) in E. vm_compute in E. discriminate E.
    + split; [unfold docs in *; cbn [length] in *; lia|].
      rewrite length_map. unfold take. rewrite length_firstn. rewrite Hord. reflexivity.
Qed.

Lemma try_recover_total_with (w : World) (self : Agent) (query : str) (m : PyM Envelope)
    (Q : Envelope -> Prop) :
  returns_only m Q ->
  (forall e s, Q (fst (match recover w self query e s with
                       | (Ok env, _) => (env, tt)
                       | (Raise _, _) =>
                           (mkEnvelope false [] [] [] None None None 0, tt)
                       end))) ->
  forall s, exists env s', try_except m (recover w self query) s = (Ok env, s') /\ Q env.
Proof.
  intros Hm Hr s. unfold try_except.
  destruct (m s) as [[env|e] s1] eqn:E.
  - exists env, s1. split; [reflexivity | exact (Hm s env s1 E)].
  - specialize (Hr e s1). rewrite recover_ok in *. cbn [fst] in Hr.
    eexists. eexists. split; [reflexivity | exact Hr].
Qed.

(** X18.  The assignment dashboard.  [process] of the assignment manager
    always returns an envelope, and whenever the envelope carries an
    analysis its counts agree: overdue items are at most the pending
    ones, pending and completed items together at most the total, the
    total is between 1 and 100, and the list shown holds the first ten
    pending items at most.  With the store not connected a request to
    list assignments is answered as if the user had none. *)
Theorem assignment_dashboard_counts_agree
    (w : World) (query user_id : str) (context : option dict) (s : State) :
  (exists env s',
      StudentAssignmentManagerAgent.process w query user_id context s = (Ok env, s')
      /\ (env_analysis env = None \/ consistent_dashboard env))
  /\ (connected (db s) = false ->
      exists env s',
        StudentAssignmentManagerAgent._list_assignments w user_id query s = (Ok env, s')
        /\ env_response env
           = u"📝 You don't have any assignments yet. When assignments are added, I'll help you manage them!"
        /\ env_analysis env = None
        /\ env_data env = Some (DictData [(u"assignments", VList [])])).
Proof.
  split.
  - unfold StudentAssignmentManagerAgent.process.
    apply try_recover_total_with.
    + unfold StudentAssignmentManagerAgent.attempt. cbv zeta.
      destruct (str_eqb _ _); [apply list_assignments_consistent|].
      assert (Hnone : forall response actions,
                 returns_only
                   (format_response w StudentAssignmentManagerAgent.self response actions
                                    None None None)
                   (fun env => env_analysis env = None \/ consistent_dashboard env)).
      { intros response actions. apply format_response_returns_with.
        intros t. left. reflexivity. }
      destruct (str_eqb _ _).
      { unfold StudentAssignmentManagerAgent._generate_assignment_content. cbv zeta.
        apply returns_only_bind. intros text. apply Hnone. }
      destruct (str_eqb _ _).
      { unfold StudentAssignmentManagerAgent._provide_assignment_help. cbv zeta.
        apply returns_only_bind. intros text. apply Hnone. }
      unfold StudentAssignmentManagerAgent._general_assignment_guidance. cbv zeta.
      apply returns_only_bind. intros found. apply Hnone.
    + intros e s0. rewrite recover_ok. left. reflexivity.
  - intros Hdown.
    unfold StudentAssignmentManagerAgent._list_assignments. unfold bind at 1.
    destruct (fetch_assignments_ok user_id s) as (found & -> & Hnone & _).
    rewrite (Hnone (not_usable_when_down _ Hdown)). rewrite format_response_ok.
    eexists. eexists. split; [reflexivity|]. cbn [env_response env_analysis env_data].
    split; [reflexivity|]. split; reflexivity.
Qed.

(** *** The report generator *)

Lemma get_collection_down {A B} (c : DB -> A) (k : A -> PyM B) (s : State) :
  connected (db s) = false ->
  bind (get_collection c) k s
  = (Raise (mk_exn RuntimeError (u"Database not connected")), s).
Proof. intros H. unfold bind, get_collection. rewrite H. reflexivity. Qed.

(** X19.  Reports need the store.  With the store not connected, every
    request to the report generator, whatever report it asks for, is
    answered with the agent's fallback text and one error action that
    says [Database not connected]; the envelope is still marked
    successful, carries no data and no analysis, and nothing is
    written. *)
Theorem reports_need_the_store
    (w : World) (query user_id : str) (context : option dict) (s : State) :
  connected (db s) = false ->
  exists env s',
    AdminReportGeneratorAgent.process w query user_id context s = (Ok env, s')
    /\ db s' = db s
    /\ env_success env = true
    /\ env_response env = AdminReportGeneratorAgent.get_fallback_response query
    /\ env_actions_performed env
       = [[(u"type", VStr (u"error")); (u"message", VStr (u"Database not connected"));
           (u"success", VBool false)]]
    /\ env_analysis env = None
    /\ env_data env = None.
Proof.
  intros Hdown.
  assert (Hraise : AdminReportGeneratorAgent.attempt w query user_id context s
                   = (Raise (mk_exn RuntimeError (u"Database not connected")), s)).
  { unfold AdminReportGeneratorAgent.attempt. cbv zeta.
    destruct (str_eqb _ _).
    { unfold AdminReportGeneratorAgent._generate_student_performance_report.
      apply get_collection_down. exact Hdown. }
    destruct (str_eqb _ _).
    { unfold AdminReportGeneratorAgent._generate_engagement_report.
      apply get_collection_down. exact Hdown. }
    destruct (str_eqb _ _).
    { unfold AdminReportGeneratorAgent._generate_course_analytics.
      apply get_collection_down. exact Hdown. }
    unfold AdminReportGeneratorAgent._generate_overview_report.
    apply get_collection_down. exact Hdown. }
  unfold AdminReportGeneratorAgent.process, try_except. rewrite Hraise.
  rewrite recover_ok. eexists. eexists. split; [reflexivity|].
  cbn [db env_success env_response env_actions_performed env_analysis env_data].
  split; [reflexivity|]. split; [reflexivity|]. split; [reflexivity|].
  split; [reflexivity|]. split; reflexivity.
Qed.

Lemma performance_report_while_disconnected :
  exists env s',
    AdminReportGeneratorAgent.process Examples.offline (u"student performance")
      (u"admin1") None Examples.disconnected = (Ok env, s')
    /\ db s' = db Examples.disconnected
    /\ env_success env = true
    /\ env_response env
       = AdminReportGeneratorAgent.get_fallback_response (u"student performance")
    /\ env_actions_performed env
       = [[(u"type", VStr (u"error")); (u"message", VStr (u"Database not connected"));
           (u"success", VBool false)]]
    /\ env_analysis env = None
    /\ env_data env = None.
Proof.
  exact (reports_need_the_store Examples.offline (u"student performance") (u"admin1")
           None Examples.disconnected eq_refl).
Defined.

(** *** The dates of a study plan *)




(** *** The routes of main.py *)

Lemma route_serves {A} (key : str) (x_api_key : option str) (body : PyM A) :
  accepted_key key x_api_key -> never_raises body ->
  serves (Main.depends_on_api_key key x_api_key (Main.or_500 body)) body.
Proof.
  intros Hkey Hbody s. unfold Main.depends_on_api_key, Main.or_500.
  assert (Hok : exists k, Main.verify_api_key key x_api_key = inl k).
  { unfold Main.verify_api_key. destruct Hkey as [-> | [-> | ->]].
    - eexists. reflexivity.
    - eexists. reflexivity.
    - destruct key as [|c key]; [eexists; reflexivity|].
      rewrite str_eqb_refl. eexists. reflexivity. }
  destruct Hok as (k & ->). destruct (Hbody s) as (r & s' & ->).
  exists r, s'. split; reflexivity.
Qed.

Lemma route_refuses {A} (key : str) (x_api_key : option str) (handler : Main.Route A) :
  ~ accepted_key key x_api_key ->
  refuses (Main.depends_on_api_key key x_api_key handler).
Proof.
  intros Hkey s. unfold Main.depends_on_api_key, Main.verify_api_key.
  destruct x_api_key as [[|c k]|].
  - exfalso. apply Hkey. right. left. reflexivity.
  - destruct (str_eqb (c :: k) key) eqn:E; [|reflexivity].
    exfalso. apply Hkey. right. right. apply str_eqb_eq in E. congruence.
  - exfalso. apply Hkey. left. reflexivity.
Qed.

Lemma voice_never_raises (w : World) query user_id context :
  never_raises (VoiceAssistant.process_voice_query w query user_id context).
Proof.
  intros s.
  unfold VoiceAssistant.process_voice_query, VoiceAssistant.process_voice_query_with,
    try_except. cbv zeta. unfold bind at 1.
  destruct (process_message_never_raises w query user_id
              (Some (VoiceAssistant.voice_context_of context)) None s) as (r & s1 & ->).
  unfold bind, utcnow, ret. eexists. eexists. reflexivity.
Qed.

Lemma clear_history_never_raises user_id :
  never_raises (IntelligentChatbot.clear_history user_id).
Proof.
  intros s. unfold IntelligentChatbot.clear_history, try_except. unfold bind at 1.
  destruct (usable_or_not (db s)) as [Huse|Hno].
  - rewrite (get_collection_usable _ s Huse). unfold modify, ret.
    exists tt. eexists. reflexivity.
  - destruct (get_collection_refused s Hno) as (e & He). rewrite He.
    exists tt, s. reflexivity.
Qed.

(** X22.  The routes of the service.  A request whose [x-api-key] header
    is absent, empty or equal to the configured key is served: each of
    the seven handlers returns exactly what its component returns, and
    its own [except] branch, the one that would raise status 500, never
    runs, because no component lets an exception out.  Clearing the
    history is always answered with [success: True].  A request with any
    other key is refused with status 403 before the component runs, so
    the store is not touched. *)
Theorem routes_serve_or_refuse
    (w : World) (key : str) (x_api_key : option str)
    (chat_request : Main.ChatRequest) (voice_request : Main.VoiceRequest)
    (request : Main.AgentRequest) (user_id : str) :
  (accepted_key key x_api_key ->
   serves (Main.chat w key chat_request x_api_key)
          (IntelligentChatbot.process_message w
             (Main.chat_request_message chat_request)
             (Main.chat_request_user_id chat_request)
             (Main.chat_request_context chat_request)
             (Main.chat_request_conversation_id chat_request))
   /\ serves (Main.voice_chat w key voice_request x_api_key)
             (VoiceAssistant.process_voice_query w
                (Main.voice_request_query voice_request)
                (Main.voice_request_user_id voice_request)
                (Main.voice_request_context voice_request))
   /\ (forall s, exists s',
          Main.clear_chat_history key user_id x_api_key s
          = (inl [(u"success", VBool true); (u"message", VStr (u"Chat history cleared"))],
             s')
          /\ IntelligentChatbot.clear_history user_id s = (Ok tt, s'))
   /\ serves (Main.student_study_planner w key request x_api_key)
             (StudentStudyPlannerAgent.process w
                (Main.agent_request_query request) (Main.agent_request_user_id request)
                (Main.agent_request_context request))
   /\ serves (Main.student_assignment_manager w key request x_api_key)
             (StudentAssignmentManagerAgent.process w
                (Main.agent_request_query request) (Main.agent_request_user_id request)
                (Main.agent_request_context request))
   /\ serves (Main.admin_report_generator w key request x_api_key)
             (AdminReportGeneratorAgent.process w
                (Main.agent_request_query request) (Main.agent_request_user_id request)
                (Main.agent_request_context request))
   /\ serves (Main.admin_helpdesk_manager w key request x_api_key)
             (AdminHelpdeskManagerAgent.process w
                (Main.agent_request_query request) (Main.agent_request_user_id request)
                (Main.agent_request_context request)))
  /\ (~ accepted_key key x_api_key ->
      refuses (Main.chat w key chat_request x_api_key)
      /\ refuses (Main.voice_chat w key voice_request x_api_key)
      /\ refuses (Main.clear_chat_history key user_id x_api_key)
      /\ refuses (Main.student_study_planner w key request x_api_key)
      /\ refuses (Main.student_assignment_manager w key request x_api_key)
      /\ refuses (Main.admin_report_generator w key request x_api_key)
      /\ refuses (Main.admin_helpdesk_manager w key request x_api_key)).
Proof.
  split.
  - intros Hkey.
    split; [apply route_serves; [exact Hkey | apply process_message_never_raises]|].
    split; [apply route_serves; [exact Hkey | apply voice_never_raises]|].
    split.
    { intros s. unfold Main.clear_chat_history.
      destruct (route_serves key x_api_key
                  (IntelligentChatbot.clear_history user_id ;;;
                   ret [(u"success", VBool true);
                        (u"message", VStr (u"Chat history cleared"))]) Hkey) with (s := s)
        as (r & s' & Hroute & Hbody).
      { intros s0. unfold bind.
        destruct (clear_history_never_raises user_id s0) as ([] & s1 & ->).
        eexists. eexists. reflexivity. }
      unfold bind in Hbody.
      destruct (clear_history_never_raises user_id s) as ([] & s1 & Hclear).
      rewrite Hclear in Hbody. unfold ret in Hbody. injection Hbody as <- <-.
      exists s1. split; [exact Hroute | exact Hclear]. }
    split.
    { apply route_serves; [exact Hkey|]. intros s.
      destruct (planner_process_total w (Main.agent_request_query request)
                  (Main.agent_request_user_id request) (Main.agent_request_context request) s)
        as (e & s' & H & _). eauto. }
    split.
    { apply route_serves; [exact Hkey|]. intros s.
      destruct (assignment_process_total w (Main.agent_request_query request)
                  (Main.agent_request_user_id request) (Main.agent_request_context request) s)
        as (e & s' & H & _). eauto. }
    split.
    { apply route_serves; [exact Hkey|]. intros s.
      destruct (report_process_total w (Main.agent_request_query request)
                  (Main.agent_request_user_id request) (Main.agent_request_context request) s)
        as (e & s' & H & _). eauto. }
    apply route_serves; [exact Hkey|]. intros s.
    destruct (helpdesk_process_total w (Main.agent_request_query request)
                (Main.agent_request_user_id request) (Main.agent_request_context request) s)
      as (e & s' & H & _). eauto.
  - intros Hkey. repeat split; apply route_refuses; exact Hkey.
Qed.

